(** * Process execution and lifecycle control (libutil/processes.cc)

    A shallow embedding of the process layer: the wait-status decoder
    ([statusToString], [statusOk]), the owning process handle ([Pid]), the
    spawner ([startProcess] and the child-side wrapper it installs), the
    program runner ([runProgram2], [RunningProgram], [runProgram]) and
    [killUser].

    The operating system is modelled by scripted answers: every system call
    the code issues pops the next answer of its kind from the [World] and
    appends an event to the world's trace.  A call whose script is exhausted
    never returns ([Blocked]).  The platform is Linux with glibc: the
    [#if __linux__] branches are taken, the [__APPLE__] / [__FreeBSD__]
    branches are not, and assertions are compiled in. *)

From Stdlib Require Import ZArith List String Ascii Bool Lia DecimalString.
Import ListNotations.
Open Scope string_scope.
Open Scope Z_scope.

(* ================================================================== *)
(** ** Platform constants and the <sys/wait.h> status encoding *)
(* ================================================================== *)

Definition EPERM : Z := 1.
Definition ESRCH : Z := 3.
Definition EINTR : Z := 4.
Definition ECHILD : Z := 10.

Definition SIGKILL : Z := 9.
Definition SIGTERM : Z := 15.
Definition SIGCHLD : Z := 17.

Definition CLONE_VM : Z := 256.

(** [(signed char) x]: the low eight bits read as a two's complement value. *)
Definition signed_char (x : Z) : Z :=
  let y := Z.land x 255 in
  if y <? 128 then y else y - 256.

(** glibc's bits/waitstatus.h. *)
Definition WTERMSIG (status : Z) : Z := Z.land status 127.

Definition WEXITSTATUS (status : Z) : Z :=
  Z.shiftr (Z.land status 65280) 8.

Definition WIFEXITED (status : Z) : bool := WTERMSIG status =? 0.

Definition WIFSIGNALED (status : Z) : bool :=
  0 <? Z.shiftr (signed_char (Z.land status 127 + 1)) 1.

Definition WCOREFLAG : Z := 128.

(** The status the kernel reports for [exit(ret)] (with [sig = 0]) and for a
    death by signal [sig] (with [ret = 0]). *)
Definition W_EXITCODE (ret sig : Z) : Z := Z.lor (Z.shiftl ret 8) sig.

(** The status of a process stopped by [sig], and of a continued one. *)
Definition W_STOPCODE (sig : Z) : Z := Z.lor (Z.shiftl sig 8) 127.
Definition W_CONTINUED : Z := 65535.

(** The status shapes POSIX describes. *)
Inductive wait_status : Type :=
| Exited (code : Z)
| Signaled (sig : Z) (core : bool)
| Stopped (sig : Z)
| Continued.

Definition encode_status (ws : wait_status) : Z :=
  match ws with
  | Exited code => W_EXITCODE code 0
  | Signaled sig core => Z.lor (W_EXITCODE 0 sig) (if core then WCOREFLAG else 0)
  | Stopped sig => W_STOPCODE sig
  | Continued => W_CONTINUED
  end.

Definition valid_status (ws : wait_status) : Prop :=
  match ws with
  | Exited code => 0 <= code <= 255
  | Signaled sig _ => 1 <= sig <= 126
  | Stopped sig => 1 <= sig <= 255
  | Continued => True
  end.

Definition newline : string := String (ascii_of_nat 10) EmptyString.

(** [fmt("%1%", n)] for an integer argument: its decimal rendering. *)
Definition fmt_int (n : Z) : string := NilZero.string_of_int (Z.to_int n).

(* ================================================================== *)
(** ** Effects: exceptions, process termination, the scripted OS *)
(* ================================================================== *)

(** The exception types the layer throws.  [NonStdException] stands for a
    thrown object that does not derive from [std::exception]. *)
Inductive exn : Type :=
| SysError (errNo : Z) (msg : string)
| Error (msg : string)
| ExecError (status : Z) (msg : string)
| Interrupted (msg : string)
| NonStdException.

Definition is_std_exception (e : exn) : bool :=
  match e with
  | NonStdException => false
  | _ => true
  end.

(** [e.what()] *)
Definition what (e : exn) : string :=
  match e with
  | SysError _ msg => msg
  | Error msg => msg
  | ExecError _ msg => msg
  | Interrupted msg => msg
  | NonStdException => ""
  end.

(** Ways in which the running process image ends. *)
Inductive halt : Type :=
| AssertionFailed (msg : string)               (* assert(false) *)
| Terminated                                   (* std::terminate() *)
| Aborted                                      (* abort() *)
| ProcessExit (code : Z) (exitHandlers : bool). (* exit(code) / _exit(code) *)

Inductive result (A : Type) : Type :=
| Ret (a : A)
| Throw (e : exn)
| Halt (h : halt)
| Blocked.

Arguments Ret {A} a.
Arguments Throw {A} e.
Arguments Halt {A} h.
Arguments Blocked {A}.

(** System calls answered from the shared setup script. *)
Inductive syscall : Type :=
| SysFork
| SysClone (flags : Z)
| SysMmap (size : Z)
| SysPipe
| SysSetuid (uid : Z)
| SysPrctlDeathSig (sig : Z)
| SysWriteStderr (text : string).

(** The answer of [waitpid(pid, &status, 0)]. *)
Inductive wait_answer : Type :=
| WaitReturned (res status : Z)
| WaitFailed (e : Z).

Definition wa_res (a : wait_answer) : Z :=
  match a with
  | WaitReturned res _ => res
  | WaitFailed _ => -1
  end.

Definition wa_status (a : wait_answer) : Z :=
  match a with
  | WaitReturned _ status => status
  | WaitFailed _ => 0
  end.

(** What the process did to the outside, in order; a [waitpid] is recorded
    with the answer it got. *)
Inductive event : Type :=
| EvSys (c : syscall)
| EvKill (target sig : Z)
| EvWaitpid (pid : Z) (answer : wait_answer)
| EvCheckInterrupt
| EvDrain
| EvDebug (msg : string)
| EvLogError (errNo : Z) (msg : string)
| EvMakeSimpleLogger
| EvLoggerPause
| EvLoggerResume
| EvMunmap
| EvCloseWriteSide.

(** The answer of a system call: a returned value, or [-1] with [errno]. *)
Inductive sysret : Type :=
| Returned (v : Z)
| Failed (e : Z).

Definition rv (r : sysret) : Z :=
  match r with
  | Returned v => v
  | Failed _ => -1
  end.

Inductive drain_answer : Type :=
| DrainOk (bytes : string)
| DrainThrows (e : exn).

Record World : Type := mkWorld {
  waitpid_answers : list wait_answer;
  kill_answers : list sysret;
  interrupt_answers : list bool;
  setup_answers : list sysret;
  drain_answers : list drain_answer;
  errno : Z;
  uncaught_exceptions : nat;
  trace : list event
}.

Definition emit (ev : event) (w : World) : World :=
  mkWorld (waitpid_answers w) (kill_answers w) (interrupt_answers w)
          (setup_answers w) (drain_answers w) (errno w)
          (uncaught_exceptions w) (trace w ++ [ev])%list.

Definition set_errno (e : Z) (w : World) : World :=
  mkWorld (waitpid_answers w) (kill_answers w) (interrupt_answers w)
          (setup_answers w) (drain_answers w) e
          (uncaught_exceptions w) (trace w).

Definition set_uncaught (n : nat) (w : World) : World :=
  mkWorld (waitpid_answers w) (kill_answers w) (interrupt_answers w)
          (setup_answers w) (drain_answers w) (errno w) n (trace w).

Definition set_waitpid_answers (l : list wait_answer) (w : World) : World :=
  mkWorld l (kill_answers w) (interrupt_answers w)
          (setup_answers w) (drain_answers w) (errno w)
          (uncaught_exceptions w) (trace w).

Definition set_kill_answers (l : list sysret) (w : World) : World :=
  mkWorld (waitpid_answers w) l (interrupt_answers w)
          (setup_answers w) (drain_answers w) (errno w)
          (uncaught_exceptions w) (trace w).

Definition set_interrupt_answers (l : list bool) (w : World) : World :=
  mkWorld (waitpid_answers w) (kill_answers w) l
          (setup_answers w) (drain_answers w) (errno w)
          (uncaught_exceptions w) (trace w).

Definition set_setup_answers (l : list sysret) (w : World) : World :=
  mkWorld (waitpid_answers w) (kill_answers w) (interrupt_answers w)
          l (drain_answers w) (errno w)
          (uncaught_exceptions w) (trace w).

Definition set_drain_answers (l : list drain_answer) (w : World) : World :=
  mkWorld (waitpid_answers w) (kill_answers w) (interrupt_answers w)
          (setup_answers w) l (errno w)
          (uncaught_exceptions w) (trace w).

(** A failing call stores its error number; a successful one leaves
    [errno] alone. *)
Definition note_errno (r : sysret) (w : World) : World :=
  match r with
  | Returned _ => w
  | Failed e => set_errno e w
  end.

(** Computations over an object of type [O] (the receiver and the locals in
    scope) and the world. *)
Definition M (O A : Type) : Type := O -> World -> result A * O * World.

Definition ret {O A} (a : A) : M O A := fun o w => (Ret a, o, w).

Definition bind {O A B} (m : M O A) (k : A -> M O B) : M O B :=
  fun o w =>
    match m o w with
    | (Ret a, o1, w1) => k a o1 w1
    | (Throw e, o1, w1) => (Throw e, o1, w1)
    | (Halt h, o1, w1) => (Halt h, o1, w1)
    | (Blocked, o1, w1) => (Blocked, o1, w1)
    end.

Notation "x <- m ;; k" := (bind m (fun x => k))
  (at level 61, m at next level, right associativity).
Notation "m ;; k" := (bind m (fun _ => k))
  (at level 61, right associativity).
Notation "' pat <- m ;; k" := (bind m (fun x => match x with pat => k end))
  (at level 61, pat pattern, m at next level, right associativity).

Definition throw {O A} (e : exn) : M O A := fun o w => (Throw e, o, w).
Definition halt_with {O A} (h : halt) : M O A := fun o w => (Halt h, o, w).

Definition this_ {O} : M O O := fun o w => (Ret o, o, w).
Definition assign {O} (o' : O) : M O unit := fun _ w => (Ret tt, o', w).
Definition world_ {O} : M O World := fun o w => (Ret w, o, w).
Definition log {O} (ev : event) : M O unit := fun o w => (Ret tt, o, emit ev w).

(** [assert(cond && msg)] with assertions compiled in. *)
Definition assert_ {O} (cond : bool) (msg : string) : M O unit :=
  if cond then ret tt else halt_with (AssertionFailed msg).

Definition debug {O} (msg : string) : M O unit := log (EvDebug msg).

(** [throw SysError(msg)]: the constructor captures the current [errno]. *)
Definition throw_SysError {O A} (msg : string) : M O A :=
  fun o w => (Throw (SysError (errno w) msg), o, w).

(** [logError(SysError(msg).info())] *)
Definition logError_SysError {O} (msg : string) : M O unit :=
  fun o w => (Ret tt, o, emit (EvLogError (errno w) msg) w).

(** Run a method of a member (or of one object among the locals). *)
Definition zoom {O P A} (get : O -> P) (set : P -> O -> O) (m : M P A) : M O A :=
  fun o w =>
    match m (get o) w with
    | (r, p, w1) => (r, set p o, w1)
    end.

(** [try { body } catch (E & e) { handler }] where [sel] tells whether the
    handler's type matches. *)
Definition try_catch {O A} (body : M O A) (sel : exn -> bool)
    (handler : exn -> M O A) : M O A :=
  fun o w =>
    match body o w with
    | (Throw e, o1, w1) => if sel e then handler e o1 w1 else (Throw e, o1, w1)
    | other => other
    end.

(** The end of a scope that owns a local object [init] with destructor
    [dtor].  On normal exit the destructor runs and may itself throw; during
    unwinding it runs with one more uncaught exception, and an exception
    escaping it then ends the process. *)
Definition scoped {O P A} (init : P) (dtor : M P unit) (body : M (P * O) A) : M O A :=
  fun o w =>
    match body (init, o) w with
    | (Ret a, (p, o1), w1) =>
        match dtor p w1 with
        | (Ret _, _, w2) => (Ret a, o1, w2)
        | (Throw e, _, w2) => (Throw e, o1, w2)
        | (Halt h, _, w2) => (Halt h, o1, w2)
        | (Blocked, _, w2) => (Blocked, o1, w2)
        end
    | (Throw e, (p, o1), w1) =>
        let n := uncaught_exceptions w1 in
        match dtor p (set_uncaught (S n) w1) with
        | (Ret _, _, w2) => (Throw e, o1, set_uncaught n w2)
        | (Throw _, _, w2) => (Halt Terminated, o1, w2)
        | (Halt h, _, w2) => (Halt h, o1, w2)
        | (Blocked, _, w2) => (Blocked, o1, w2)
        end
    | (Halt h, (_, o1), w1) => (Halt h, o1, w1)
    | (Blocked, (_, o1), w1) => (Blocked, o1, w1)
    end.

(** Modelled from the spec: [Finally] of finally.hh, the scope-exit action
    that is guaranteed to run on every exit path of its scope, also when the
    body throws.  It is a local whose destructor runs the action. *)
Definition Finally {O A} (action : M O unit) (body : M O A) : M O A :=
  fun o w =>
    match body o w with
    | (Ret a, o1, w1) =>
        match action o1 w1 with
        | (Ret _, o2, w2) => (Ret a, o2, w2)
        | (Throw e, o2, w2) => (Throw e, o2, w2)
        | (Halt h, o2, w2) => (Halt h, o2, w2)
        | (Blocked, o2, w2) => (Blocked, o2, w2)
        end
    | (Throw e, o1, w1) =>
        let n := uncaught_exceptions w1 in
        match action o1 (set_uncaught (S n) w1) with
        | (Ret _, o2, w2) => (Throw e, o2, set_uncaught n w2)
        | (Throw _, o2, w2) => (Halt Terminated, o2, w2)
        | (Halt h, o2, w2) => (Halt h, o2, w2)
        | (Blocked, o2, w2) => (Blocked, o2, w2)
        end
    | (Halt h, o1, w1) => (Halt h, o1, w1)
    | (Blocked, o1, w1) => (Blocked, o1, w1)
    end.

(** A system call answered from the setup script. *)
Definition sys {O} (c : syscall) : M O Z :=
  fun o w =>
    match setup_answers w with
    | [] => (Blocked, o, w)
    | a :: rest =>
        (Ret (rv a), o, note_errno a (emit (EvSys c) (set_setup_answers rest w)))
    end.

(** [::kill(target, sig)] *)
Definition sys_kill {O} (target sig : Z) : M O Z :=
  fun o w =>
    match kill_answers w with
    | [] => (Blocked, o, w)
    | a :: rest =>
        (Ret (rv a), o,
         note_errno a (emit (EvKill target sig) (set_kill_answers rest w)))
    end.

(** Modelled from the spec: [checkInterrupt] of signals.hh, the check for an
    externally requested cancellation, which raises a cancellation condition
    when one is requested. *)
Definition checkInterrupt {O} : M O unit :=
  fun o w =>
    match interrupt_answers w with
    | [] => (Blocked, o, w)
    | requested :: rest =>
        let w1 := emit EvCheckInterrupt (set_interrupt_answers rest w) in
        if requested then (Throw (Interrupted "interrupted by the user"), o, w1)
        else (Ret tt, o, w1)
    end.

(* ================================================================== *)
(** ** StatusDecoder *)
(* ================================================================== *)

Section Processes.

(** [strsignal] of libc; [None] when the build has no HAVE_STRSIGNAL. *)
Variable strsignal : option (Z -> string).

(** Member defaults of processes.hh on which the spec is silent. *)
Variable separatePG_default : bool.
Variable errorPrefix_default : string.
Variable dieWithParent_default : bool.
Variable runExitHandlers_default : bool.

Definition statusToString (status : Z) : string :=
  if negb (WIFEXITED status) || negb (WEXITSTATUS status =? 0) then
    if WIFEXITED status then
      "failed with exit code " ++ fmt_int (WEXITSTATUS status)
    else if WIFSIGNALED status then
      let sig := WTERMSIG status in
      match strsignal with
      | Some description =>
          "failed due to signal " ++ fmt_int sig ++ " (" ++ description sig ++ ")"
      | None => "failed due to signal " ++ fmt_int sig
      end
    else "died abnormally"
  else "succeeded".

Definition statusOk (status : Z) : bool :=
  WIFEXITED status && (WEXITSTATUS status =? 0).

(* ================================================================== *)
(** ** ProcessHandle: [Pid] *)
(* ================================================================== *)

Record Pid : Type := mkPid {
  pid : Z;
  separatePG : bool;
  killSignal : Z
}.

Definition set_pid (p : Z) (this : Pid) : Pid :=
  mkPid p (separatePG this) (killSignal this).

(** Modelled from the spec: the member defaults of processes.hh.  The empty
    handle holds the sentinel -1 and the default kill signal is the forceful
    one. *)
Definition Pid_default : Pid := mkPid (-1) separatePG_default SIGKILL.

(** Modelled from the spec: [explicit Pid(pid_t pid)], the handle created at
    spawn time from a real process id. *)
Definition Pid_of (p : Z) : Pid := mkPid p separatePG_default SIGKILL.

(** Modelled from the spec: [operator bool], true when the handle is
    Owning, that is when it does not hold the sentinel. *)
Definition Pid_bool (this : Pid) : bool := negb (pid this =? -1).

(** [Pid::Pid(Pid && other)]: the new handle and what is left of [other]. *)
Definition Pid_move (other : Pid) : Pid * Pid :=
  (mkPid (pid other) (separatePG other) (killSignal other), set_pid (-1) other).

(** One [waitpid(pid, &status, 0)], answered by [a]. *)
Definition sys_waitpid (a : wait_answer) (rest : list wait_answer) (p : Z)
    (w : World) : World :=
  let w1 := emit (EvWaitpid p a) (set_waitpid_answers rest w) in
  match a with
  | WaitReturned _ _ => w1
  | WaitFailed e => set_errno e w1
  end.

(** The [while (1)] loop of [Pid::wait], by recursion on the answers that
    [waitpid] has left to give. *)
Fixpoint wait_loop (answers : list wait_answer) : M Pid Z :=
  fun this w =>
    match answers with
    | [] => (Blocked, this, w)
    | a :: rest =>
        let w1 := sys_waitpid a rest (pid this) w in
        if wa_res a =? pid this then
          (Ret (wa_status a), set_pid (-1) this, w1)
        else if negb (errno w1 =? EINTR) then
          throw_SysError ("cannot get exit status of PID " ++ fmt_int (pid this))
                         this w1
        else
          match checkInterrupt this w1 with
          | (Ret _, this1, w2) => wait_loop rest this1 w2
          | (Throw e, this1, w2) => (Throw e, this1, w2)
          | (Halt h, this1, w2) => (Halt h, this1, w2)
          | (Blocked, this1, w2) => (Blocked, this1, w2)
          end
    end.

Definition Pid_wait : M Pid Z :=
  this <- this_ ;;
  assert_ (negb (pid this =? -1)) "pid != -1" ;;
  w <- world_ ;;
  wait_loop (waitpid_answers w).

Definition Pid_kill : M Pid Z :=
  this <- this_ ;;
  assert_ (negb (pid this =? -1)) "pid != -1" ;;
  debug ("killing process " ++ fmt_int (pid this)) ;;
  r <- sys_kill (if separatePG this then - pid this else pid this) (killSignal this) ;;
  (if negb (r =? 0)
   then logError_SysError ("killing process " ++ fmt_int (pid this))
   else ret tt) ;;
  Pid_wait.

(** [Pid::~Pid() noexcept(false)] *)
Definition Pid_dtor : M Pid unit :=
  this <- this_ ;;
  if negb (pid this =? -1) then _ <- Pid_kill ;; ret tt else ret tt.

(** [Pid::operator=(Pid && other)] on two distinct objects: the state is the
    pair (this, other); [tmp] is a local whose destructor runs when the
    operator returns. *)
Definition Pid_move_assign : M (Pid * Pid) unit :=
  fun '(this, other) w =>
    let '(tmp, other1) := Pid_move other in
    let this1 := mkPid (pid tmp) (separatePG tmp) (killSignal tmp) in
    let tmp1 := mkPid (pid this) (separatePG this) (killSignal this) in
    scoped tmp1 Pid_dtor (ret tt) (this1, other1) w.

(** [p = std::move(p)]: source and destination are one object. *)
Definition Pid_self_move_assign : M Pid unit :=
  fun this w =>
    let '(tmp, this1) := Pid_move this in
    let this2 := mkPid (pid tmp) (separatePG tmp) (killSignal tmp) in
    let tmp1 := mkPid (pid this1) (separatePG this1) (killSignal this1) in
    scoped tmp1 Pid_dtor (ret tt) this2 w.

Definition Pid_setSeparatePG (separatePG0 : bool) : M Pid unit :=
  this <- this_ ;;
  assign (mkPid (pid this) separatePG0 (killSignal this)).

Definition Pid_setKillSignal (signal : Z) : M Pid unit :=
  this <- this_ ;;
  assign (mkPid (pid this) (separatePG this) signal).

Definition Pid_release : M Pid Z :=
  this <- this_ ;;
  let p := pid this in
  assign (set_pid (-1) this) ;;
  ret p.

(* ================================================================== *)
(** ** ProcessSpawner: [startProcess] *)
(* ================================================================== *)

Record ProcessOptions : Type := mkProcessOptions {
  errorPrefix : string;
  dieWithParent : bool;
  runExitHandlers : bool;
  cloneFlags : Z
}.

(** Modelled from the spec: the defaults of [ProcessOptions] in
    processes.hh; the fork path is the default one, so no clone flags are
    requested. *)
Definition ProcessOptions_default : ProcessOptions :=
  mkProcessOptions errorPrefix_default dieWithParent_default
                   runExitHandlers_default 0.

(** The lambda [wrapper] of [startProcess]: what the child runs around the
    child procedure [fun_]. *)
Definition wrapper {O} (options : ProcessOptions) (fun_ : M O unit) : M O unit :=
  log EvMakeSimpleLogger ;;
  try_catch
    ((if dieWithParent options then
        r <- sys (SysPrctlDeathSig SIGKILL) ;;
        if r =? -1 then throw_SysError "setting death signal" else ret tt
      else ret tt) ;;
     fun_)
    (fun _ => true)
    (fun e =>
       if is_std_exception e then
         try_catch
           (r <- sys (SysWriteStderr (errorPrefix options ++ what e ++ newline)) ;;
            if r =? -1 then throw (Error "ios_base::failure") else ret tt)
           (fun _ => true)
           (fun _ => ret tt)
       else ret tt) ;;
  if runExitHandlers options
  then halt_with (ProcessExit 1 true)
  else halt_with (ProcessExit 1 false).

(** [doFork]: in the parent [fork] returns the child's id (or -1); the
    answer 0 is the child's side of the call. *)
Definition doFork {O} (fun_ : M O unit) : M O Z :=
  p <- sys SysFork ;;
  if negb (p =? 0) then ret p
  else fun_ ;; halt_with Aborted.

(** [childEntry]: the trampoline [clone] starts the child on. *)
Definition childEntry {O} (main : M O unit) : M O Z :=
  main ;; ret 1.

Definition startProcess {O} (fun_ : M O unit) (options : ProcessOptions) : M O Pid :=
  p <- (if negb (cloneFlags options =? 0) then
          assert_ (Z.land (cloneFlags options) CLONE_VM =? 0)
                  "!(options.cloneFlags & CLONE_VM)" ;;
          let stackSize := 1 * 1024 * 1024 in
          stack <- sys (SysMmap stackSize) ;;
          if stack =? -1 then throw_SysError "allocating stack"
          else
            Finally (log EvMunmap)
              (p <- sys (SysClone (Z.lor (cloneFlags options) SIGCHLD)) ;;
               if negb (p =? 0) then ret p
               else
                 code <- childEntry (wrapper options fun_) ;;
                 halt_with (ProcessExit code false))
        else doFork (wrapper options fun_)) ;;
  if p =? -1 then throw_SysError "unable to fork"
  else ret (Pid_of p).

(* ================================================================== *)
(** ** ProgramRunner and [RunningProgram] *)
(* ================================================================== *)

Record RunOptions : Type := mkRunOptions {
  ro_program : string;
  searchPath : bool;
  args : list string;
  environment : option (list (string * string));
  uid : option Z;
  gid : option Z;
  chdir : option string;
  captureStdout : bool;
  mergeStderrToStdout : bool;
  isInteractive : bool
}.

Definition set_captureStdout (b : bool) (o : RunOptions) : RunOptions :=
  mkRunOptions (ro_program o) (searchPath o) (args o) (environment o)
               (uid o) (gid o) (chdir o) b
               (mergeStderrToStdout o) (isInteractive o).

(** [stdout_] is the read end of the pipe, when the output is captured;
    [stdoutSource] is present exactly when [stdout_] is. *)
Record RunningProgram : Type := mkRunningProgram {
  program : string;
  rp_pid : Pid;
  stdout_ : option Z
}.

Definition set_rp_pid (p : Pid) (this : RunningProgram) : RunningProgram :=
  mkRunningProgram (program this) p (stdout_ this).

(** A call of a method of the member [pid]. *)
Definition on_pid {A} (m : M Pid A) : M RunningProgram A :=
  zoom rp_pid set_rp_pid m.

(** [RunningProgram::~RunningProgram()], followed by the destruction of the
    member [pid]. *)
Definition RunningProgram_dtor : M RunningProgram unit :=
  this <- this_ ;;
  (if Pid_bool (rp_pid this) then
     assert_ false "destroying un-wait()ed running process" ;;
     halt_with Terminated
   else ret tt) ;;
  on_pid Pid_dtor.

Definition RunningProgram_wait : M RunningProgram unit :=
  this <- this_ ;;
  w <- world_ ;;
  if Nat.eqb (uncaught_exceptions w) 0 then
    status <- on_pid Pid_wait ;;
    if negb (status =? 0) then
      throw (ExecError status
               ("program '" ++ program this ++ "' " ++ statusToString status))
    else ret tt
  else
    _ <- on_pid Pid_kill ;;
    debug ("killed subprocess " ++ program this ++ " during exception handling").

(** Modelled from the spec: [Pipe::create] of file-descriptor.hh, which
    creates the pair of connected ends or fails with a system error.  The
    read end's descriptor is the value the call returns. *)
Definition Pipe_create {O} : M O Z :=
  r <- sys SysPipe ;;
  if r =? -1 then throw_SysError "creating pipe" else ret r.

(** Modelled from the spec: [Source::drain] of serialise.hh on the captured
    output, which reads the stream to its end and returns the bytes, or
    throws when a read fails. *)
Definition drain {O} : M O string :=
  fun o w =>
    match drain_answers w with
    | [] => (Blocked, o, w)
    | a :: rest =>
        let w1 := emit EvDrain (set_drain_answers rest w) in
        match a with
        | DrainOk bytes => (Ret bytes, o, w1)
        | DrainThrows e => (Throw e, o, w1)
        end
    end.

(** The parent's side of [runProgram2]; [child] is the procedure handed to
    [startProcess] (the lambda that redirects, drops privileges and execs). *)
Definition runProgram2 {O} (child : M O unit) (options : RunOptions)
    : M O RunningProgram :=
  checkInterrupt ;;
  out <- (if captureStdout options
          then r <- Pipe_create ;; ret (Some r)
          else ret None) ;;
  let processOptions := ProcessOptions_default in
  (if isInteractive options then Finally (log EvLoggerResume) else fun m => m)
    ((if isInteractive options then log EvLoggerPause else ret tt) ;;
     p <- startProcess child processOptions ;;
     log EvCloseWriteSide ;;
     ret (mkRunningProgram (ro_program options) p
            (if captureStdout options then out else None))).

(** The locals of the pair-returning [runProgram]. *)
Record RunLocals : Type := mkRunLocals {
  rl_status : Z;
  rl_stdout : string
}.

(** [std::pair<int, std::string> runProgram(RunOptions && options)] *)
Definition runProgram_pair {O} (child : forall S, M S unit) (options0 : RunOptions)
    : M O (Z * string) :=
  let options := set_captureStdout true options0 in
  fun o w =>
    match
      try_catch
        (proc <- runProgram2 (child _) options ;;
         scoped proc RunningProgram_dtor
           (Finally (zoom fst (fun p '(_, l) => (p, l)) RunningProgram_wait)
              (bytes <- drain ;;
               '(p, (l, o1)) <- this_ ;;
               assign (p, (mkRunLocals (rl_status l) bytes, o1)))))
        (fun e => match e with ExecError _ _ => true | _ => false end)
        (fun e =>
           '(l, o1) <- this_ ;;
           match e with
           | ExecError status _ => assign (mkRunLocals status (rl_stdout l), o1)
           | _ => ret tt
           end)
        (mkRunLocals 0 "", o) w
    with
    | (Ret _, (l, o1), w1) => (Ret (rl_status l, rl_stdout l), o1, w1)
    | (Throw e, (_, o1), w1) => (Throw e, o1, w1)
    | (Halt h, (_, o1), w1) => (Halt h, o1, w1)
    | (Blocked, (_, o1), w1) => (Blocked, o1, w1)
    end.

(** [std::string runProgram(Path, bool, const Strings &, bool)] *)
Definition runProgram {O} (child : forall S, M S unit) (program0 : string)
    (searchPath0 : bool) (args0 : list string) (isInteractive0 : bool)
    : M O string :=
  res <- runProgram_pair child
           (mkRunOptions program0 searchPath0 args0 None None None None
                         false false isInteractive0) ;;
  if negb (statusOk (fst res)) then
    throw (ExecError (fst res)
             ("program '" ++ program0 ++ "' " ++ statusToString (fst res)))
  else ret (snd res).

(* ================================================================== *)
(** ** UserProcessReaper: [killUser] *)
(* ================================================================== *)

(** The [while (true)] loop of the helper, by recursion on the answers that
    [kill(-1, SIGKILL)] has left to give. *)
Fixpoint killall_loop {O} (uid0 : Z) (answers : list sysret) : M O unit :=
  fun o w =>
    match answers with
    | [] => (Blocked, o, w)
    | a :: rest =>
        let w1 := note_errno a (emit (EvKill (-1) SIGKILL) (set_kill_answers rest w)) in
        if rv a =? 0 then (Ret tt, o, w1)
        else if (errno w1 =? ESRCH) || (errno w1 =? EPERM) then (Ret tt, o, w1)
        else if negb (errno w1 =? EINTR) then
          throw_SysError ("cannot kill processes for uid '" ++ fmt_int uid0 ++ "'") o w1
        else killall_loop uid0 rest o w1
    end.

(** The lambda [killUser] hands to [startProcess]. *)
Definition killUser_child {O} (uid0 : Z) : M O unit :=
  r <- sys (SysSetuid uid0) ;;
  (if r =? -1 then throw_SysError "setting uid" else ret tt) ;;
  w <- world_ ;;
  killall_loop uid0 (kill_answers w) ;;
  halt_with (ProcessExit 0 false).

Definition killUser {O} (uid0 : Z) : M O unit :=
  debug ("killing all processes running under uid '" ++ fmt_int uid0 ++ "'") ;;
  assert_ (negb (uid0 =? 0)) "uid != 0" ;;
  p <- startProcess (killUser_child uid0) ProcessOptions_default ;;
  scoped p Pid_dtor
    (status <- zoom fst (fun p '(_, o) => (p, o)) Pid_wait ;;
     if negb (status =? 0) then
       throw (Error ("cannot kill processes for uid '" ++ fmt_int uid0 ++ "': "
                     ++ statusToString status))
     else ret tt).

(* ================================================================== *)
(** ** Scripts used to state the properties *)
(* ================================================================== *)

(** [n] interrupted [waitpid] calls. *)
Definition interrupted_waits (n : nat) : list wait_answer :=
  repeat (WaitFailed EINTR) n.

(** The world after one interrupted [waitpid(p)] and the cancellation check
    that follows it. *)
Definition retry_step (p : Z) (w : World) : World :=
  emit EvCheckInterrupt
    (set_interrupt_answers (tl (interrupt_answers w))
       (set_errno EINTR
          (emit (EvWaitpid p (WaitFailed EINTR))
             (set_waitpid_answers (tl (waitpid_answers w)) w)))).

Fixpoint after_retries (n : nat) (p : Z) (w : World) : World :=
  match n with
  | O => w
  | S n' => after_retries n' p (retry_step p w)
  end.

(** The events of [n] retries. *)
Definition retry_events (n : nat) (p : Z) : list event :=
  List.concat (repeat [EvWaitpid p (WaitFailed EINTR); EvCheckInterrupt] n).

(** [errno] after [n] retries. *)
Definition retry_errno (n : nat) (en : Z) : Z :=
  match n with
  | O => en
  | S _ => EINTR
  end.

(** The world after [Pid::kill] has logged, sent its signal and, when the
    delivery failed, logged the error: all of [kill()] before its [wait()]. *)
Definition after_signal (this : Pid) (w : World) : World :=
  match kill_answers w with
  | [] => w
  | k :: krest =>
      let w1 :=
        note_errno k
          (emit (EvKill (if separatePG this then - pid this else pid this)
                        (killSignal this))
             (set_kill_answers krest
                (emit (EvDebug ("killing process " ++ fmt_int (pid this))) w))) in
      if negb (rv k =? 0)
      then emit (EvLogError (errno w1) ("killing process " ++ fmt_int (pid this))) w1
      else w1
  end.

(** [errno] after a [kill] answered by [k]. *)
Definition kill_errno (k : sysret) (en : Z) : Z :=
  match k with
  | Returned _ => en
  | Failed e => e
  end.

(** The events of [Pid::kill] before its [wait()]. *)
Definition signal_events (this : Pid) (k : sysret) (en : Z) : list event :=
  ([EvDebug ("killing process " ++ fmt_int (pid this));
    EvKill (if separatePG this then - pid this else pid this) (killSignal this)]
   ++ (if negb (rv k =? 0)
       then [EvLogError (kill_errno k en) ("killing process " ++ fmt_int (pid this))]
       else []))%list.

(** [m] interrupted broadcasts of the helper of [killUser]. *)
Definition interrupted_kills (m : nat) : list sysret := repeat (Failed EINTR) m.

(** The answers on which the helper's loop stops with nothing left to kill:
    the broadcast was delivered, or there is no process left to signal. *)
Definition broadcast_done (k : sysret) : bool :=
  match k with
  | Returned v => v =? 0
  | Failed e => (e =? ESRCH) || (e =? EPERM)
  end.

(** The answers that are an unexpected error of the broadcast. *)
Definition broadcast_fatal (k : sysret) : bool :=
  match k with
  | Returned _ => false
  | Failed e => negb ((e =? ESRCH) || (e =? EPERM)) && negb (e =? EINTR)
  end.

(** The child's world once the wrapper has made its logger and, when
    [dieWithParent] is set, armed the death signal. *)
Definition after_child_setup (options : ProcessOptions) (w : World) : World :=
  let w1 := emit EvMakeSimpleLogger w in
  if dieWithParent options then
    match setup_answers w1 with
    | a :: rest =>
        note_errno a (emit (EvSys (SysPrctlDeathSig SIGKILL)) (set_setup_answers rest w1))
    | [] => w1
    end
  else w1.

(** The death signal, when requested, can be armed. *)
Definition child_setup_ok (options : ProcessOptions) (w : World) : bool :=
  if dieWithParent options then
    match setup_answers w with
    | Returned v :: _ => negb (v =? -1)
    | _ => false
    end
  else true.

(** No two handles of a collection own the same process. *)
Definition owned_pids (hs : list Pid) : list Z :=
  filter (fun p => negb (p =? -1)) (map pid hs).

Definition exclusive (hs : list Pid) : Prop := NoDup (owned_pids hs).

(* ================================================================== *)
(** ** Sample inputs *)
(* ================================================================== *)

(** A build with [strsignal]. *)
Definition strsignal_linux : option (Z -> string) :=
  Some (fun sig =>
          if sig =? SIGKILL then "Killed"
          else if sig =? SIGTERM then "Terminated"
          else "Unknown signal").

(** An Owning handle, a second one with its own group and a polite signal,
    and a running /bin/false with captured output. *)
Definition sample_handle : Pid := mkPid 4242 false SIGKILL.
Definition sample_other : Pid := mkPid 4343 true SIGTERM.
Definition sample_running : RunningProgram :=
  mkRunningProgram "/bin/false" sample_handle (Some 3).

(** A fresh world with the given scripts. *)
Definition script (wa : list wait_answer) (ka : list sysret) (ia : list bool)
    (sa : list sysret) (da : list drain_answer) : World :=
  mkWorld wa ka ia sa da 0 0 [].

(** The same, entered while an exception is in flight. *)
Definition script_unwinding (wa : list wait_answer) (ka : list sysret)
    (ia : list bool) (sa : list sysret) (da : list drain_answer) : World :=
  mkWorld wa ka ia sa da 0 1 [].

(** A child procedure whose exec fails, and one that throws an object that
    is no [std::exception]. *)
Definition exec_fails {O} : M O unit :=
  throw (SysError 2 "executing '/nonexistent'").
Definition throws_non_std {O} : M O unit := throw NonStdException.

(* ================================================================== *)
(** ** The child's side of [runProgram2] *)
(* ================================================================== *)

Definition STDOUT_FILENO : Z := 1.
Definition STDERR_FILENO : Z := 2.

(** What the child asks of its own process image before and at the exec. *)
Inductive child_call : Type :=
| CReplaceEnv (env : list (string * string))
| CDup2 (oldfd newfd : Z)
| CChdir (dir : string)
| CSetgid (g : Z)
| CSetgroups (size : Z)
| CSetuid (u : Z)
| CRestoreProcessContext
| CExecvp (file : string) (argv : list string)
| CExecv (path : string) (argv : list string).

(** The child's view of the OS: the answers its calls will get, and the
    calls made so far, each with the answer it got. *)
Record ChildOS : Type := mkChildOS {
  child_answers : list sysret;
  child_calls : list (child_call * sysret)
}.

(** A call that can fail. *)
Definition child_sys (c : child_call) : M ChildOS Z :=
  fun o w =>
    match child_answers o with
    | [] => (Blocked, o, w)
    | a :: rest =>
        (Ret (rv a), mkChildOS rest (child_calls o ++ [(c, a)]), note_errno a w)
    end.

(** Modelled from the spec: [replaceEnv] and [restoreProcessContext], which
    replace the whole environment and reset the process and signal context;
    they are recorded and do not fail. *)
Definition child_do (c : child_call) : M ChildOS unit :=
  fun o w =>
    (Ret tt, mkChildOS (child_answers o) (child_calls o ++ [(c, Returned 0)]), w).

(** [execvp] / [execv]: a failed exec returns -1; a successful one never
    returns, the image being replaced. *)
Definition child_exec (c : child_call) : M ChildOS Z :=
  fun o w =>
    match child_answers o with
    | [] => (Blocked, o, w)
    | Failed e :: rest =>
        (Ret (-1), mkChildOS rest (child_calls o ++ [(c, Failed e)]), set_errno e w)
    | Returned v :: rest =>
        (Blocked, mkChildOS rest (child_calls o ++ [(c, Returned v)]), w)
    end.

(** [if (call == -1) throw SysError(msg)] *)
Definition or_throw {O} (call : M O Z) (msg : string) : M O unit :=
  r <- call ;;
  if r =? -1 then throw_SysError msg else ret tt.

(** The lambda [runProgram2] hands to [startProcess]; [writeSide] is the
    descriptor of the pipe's write end. *)
Definition runProgram2_child (options : RunOptions) (writeSide : Z)
    : M ChildOS unit :=
  (match environment options with
   | Some env => child_do (CReplaceEnv env)
   | None => ret tt
   end) ;;
  (if captureStdout options
   then or_throw (child_sys (CDup2 writeSide STDOUT_FILENO)) "dupping stdout"
   else ret tt) ;;
  (if mergeStderrToStdout options
   then or_throw (child_sys (CDup2 STDOUT_FILENO STDERR_FILENO))
                 "cannot dup stdout into stderr"
   else ret tt) ;;
  (match chdir options with
   | Some dir => or_throw (child_sys (CChdir dir)) "chdir failed"
   | None => ret tt
   end) ;;
  (match gid options with
   | Some g => or_throw (child_sys (CSetgid g)) "setgid failed"
   | None => ret tt
   end) ;;
  (match gid options with
   | Some _ => or_throw (child_sys (CSetgroups 0)) "setgroups failed"
   | None => ret tt
   end) ;;
  (match uid options with
   | Some u => or_throw (child_sys (CSetuid u)) "setuid failed"
   | None => ret tt
   end) ;;
  let args_ := ro_program options :: args options in
  child_do CRestoreProcessContext ;;
  (if searchPath options
   then child_exec (CExecvp (ro_program options) args_)
   else child_exec (CExecv (ro_program options) args_)) ;;
  throw_SysError ("executing '" ++ ro_program options ++ "'").

(** The exec a run of the child ends with, and the calls that lead to it
    when nothing fails. *)
Definition exec_call (options : RunOptions) : child_call :=
  if searchPath options
  then CExecvp (ro_program options) (ro_program options :: args options)
  else CExecv (ro_program options) (ro_program options :: args options).

Definition is_exec (c : child_call) : bool :=
  match c with
  | CExecvp _ _ | CExecv _ _ => true
  | _ => false
  end.

Definition planned_calls (options : RunOptions) (writeSide : Z) : list child_call :=
  ((match environment options with Some env => [CReplaceEnv env] | None => [] end)
   ++ (if captureStdout options then [CDup2 writeSide STDOUT_FILENO] else [])
   ++ (if mergeStderrToStdout options then [CDup2 STDOUT_FILENO STDERR_FILENO] else [])
   ++ (match chdir options with Some dir => [CChdir dir] | None => [] end)
   ++ (match gid options with Some g => [CSetgid g; CSetgroups 0] | None => [] end)
   ++ (match uid options with Some u => [CSetuid u] | None => [] end)
   ++ [CRestoreProcessContext])%list.

(** The ways a computation ends without returning. *)
Inductive failure : Type :=
| FThrow (e : exn)
| FHalt (h : halt)
| FBlocked.

(** From every state that satisfies [P], [m] either returns into [Q] or
    ends in a failure that satisfies [F]. *)
Definition triple {O A} (P : O -> World -> Prop) (m : M O A)
    (Q : A -> O -> World -> Prop) (F : failure -> O -> World -> Prop) : Prop :=
  forall o w, P o w ->
    match m o w with
    | (Ret a, o1, w1) => Q a o1 w1
    | (Throw e, o1, w1) => F (FThrow e) o1 w1
    | (Halt h, o1, w1) => F (FHalt h) o1 w1
    | (Blocked, o1, w1) => F FBlocked o1 w1
    end.

(** So far every call of the child has succeeded, none was an exec, and
    the world is as the child found it. *)
Definition child_invariant (w0 : World) (pre : list child_call)
    (o : ChildOS) (w : World) : Prop :=
  map fst (child_calls o) = pre
  /\ Forall (fun ca => rv (snd ca) <> -1) (child_calls o)
  /\ Forall (fun ca => is_exec (fst ca) = false) (child_calls o)
  /\ w = w0.

(** If the exec was called at all, every planned call was made before it,
    in order, and succeeded; and a failed exec is thrown as a system
    error. *)
Definition child_verdict (options : RunOptions) (writeSide : Z) (w0 : World)
    (f : failure) (o : ChildOS) (w : World) : Prop :=
  forall a : sysret,
    In (exec_call options, a) (child_calls o) ->
    map fst (child_calls o) = (planned_calls options writeSide ++ [exec_call options])%list
    /\ Forall (fun ca => rv (snd ca) <> -1) (removelast (child_calls o))
    /\ match a with
       | Failed e =>
           f = FThrow (SysError e ("executing '" ++ ro_program options ++ "'"))
           /\ w = set_errno e w0
       | Returned _ => f = FBlocked /\ w = w0
       end.


(* ================================================================== *)
(** ** Store path names (libstore/path.cc) *)
(* ================================================================== *)

(** [StorePath::MaxPathLen] and [StorePath::HashLen] of path.hh. *)
Variable MaxPathLen : nat.
Variable HashLen : nat.

(** [StorePath::hashPart()] and [StorePath::name()] of path.hh, as functions
    of the base name. *)
Variable StorePath_hashPart : string -> string.
Variable StorePath_name : string -> string.

(** The outcome of a check or a constructor that throws [BadStorePath]. *)
Inductive checked (A : Type) : Type :=
| Accepted (a : A)
| BadStorePath (msg : string).

Arguments Accepted {A} a.
Arguments BadStorePath {A} msg.

(** [c >= lo && c <= hi] on characters.  The bounds used are ASCII, so a
    byte above 127 is outside every range whether [char] is signed or
    not. *)
Definition char_between (lo hi c : ascii) : bool :=
  (nat_of_ascii lo <=? nat_of_ascii c)%nat && (nat_of_ascii c <=? nat_of_ascii hi)%nat.

(** The characters [checkName] lets through. *)
Definition name_char (c : ascii) : bool :=
  char_between "0" "9" c || char_between "a" "z" c || char_between "A" "Z" c
  || Ascii.eqb c "+" || Ascii.eqb c "-" || Ascii.eqb c "." || Ascii.eqb c "_"
  || Ascii.eqb c "?" || Ascii.eqb c "=".

(** The first character of [s] that [ok] refuses: where a [for] loop over
    the characters throws. *)
Fixpoint first_refused (ok : ascii -> bool) (s : string) : option ascii :=
  match s with
  | EmptyString => None
  | String c rest => if ok c then first_refused ok rest else Some c
  end.

Definition checkName (path name : string) : checked unit :=
  if (String.length name =? 0)%nat then
    BadStorePath ("store path '" ++ path ++ "' has an empty name")
  else if (MaxPathLen <? String.length name)%nat then
    BadStorePath ("store path '" ++ path ++ "' has a name longer than "
                  ++ fmt_int (Z.of_nat MaxPathLen) ++ " characters")
  else
    match first_refused name_char name with
    | Some c =>
        BadStorePath ("store path '" ++ path ++ "' contains illegal character '"
                      ++ String c EmptyString ++ "'")
    | None => Accepted tt
    end.

(** The characters the constructor lets through in the hash part. *)
Definition base32_char (c : ascii) : bool :=
  negb (Ascii.eqb c "e" || Ascii.eqb c "o" || Ascii.eqb c "u" || Ascii.eqb c "t"
        || negb (char_between "0" "9" c || char_between "a" "z" c)).

(** [StorePath::StorePath(std::string_view _baseName)]; the store path is its
    base name. *)
Definition StorePath_parse (baseName : string) : checked string :=
  if (String.length baseName <? HashLen + 1)%nat then
    BadStorePath ("'" ++ baseName ++ "' is too short to be a valid store path")
  else
    match first_refused base32_char (StorePath_hashPart baseName) with
    | Some c =>
        BadStorePath ("store path '" ++ baseName
                      ++ "' contains illegal base-32 character '"
                      ++ String c EmptyString ++ "'")
    | None =>
        match checkName baseName (StorePath_name baseName) with
        | Accepted _ => Accepted baseName
        | BadStorePath msg => BadStorePath msg
        end
    end.

(** The alphabet of the hash part. *)
Definition base32_alphabet : string := "0123456789abcdfghijklmnpqrsvwxyz".

Fixpoint string_all (ok : ascii -> bool) (s : string) : bool :=
  match s with
  | EmptyString => true
  | String c rest => ok c && string_all ok rest
  end.

Fixpoint string_mem (c : ascii) (s : string) : bool :=
  match s with
  | EmptyString => false
  | String d rest => Ascii.eqb c d || string_mem c rest
  end.

(* ================================================================== *)
(** ** Quoting for regular expressions *)
(* ================================================================== *)

(** The characters of the class [[.^$\\*+?()\[\]{}|]]. *)
Definition regex_special (c : ascii) : bool :=
  string_mem c ".^$\*+?()[]{}|".

(** [quoteRegexChars]: [regex_replace] with a class of single characters
    and the replacement [\$&] puts a backslash before every character of the
    class and copies the others. *)
Fixpoint quoteRegexChars (raw : string) : string :=
  match raw with
  | EmptyString => EmptyString
  | String c rest =>
      if regex_special c
      then String "\" (String c (quoteRegexChars rest))
      else String c (quoteRegexChars rest)
  end.

(** The pattern [storePathRegex] compiles. *)
Definition storePathRegex_pattern (storeDir : string) : string :=
  quoteRegexChars storeDir ++ "/[0-9a-z]+[0-9a-zA-Z\+\-\._\?=]*".

(** A pattern in which every character of the class stands behind a
    backslash, and every backslash before a character of the class. *)
Fixpoint all_escaped (pattern : string) : bool :=
  match pattern with
  | EmptyString => true
  | String c rest =>
      if Ascii.eqb c "\" then
        match rest with
        | EmptyString => false
        | String d rest' => regex_special d && all_escaped rest'
        end
      else negb (regex_special c) && all_escaped rest
  end.

(** Reading a quoted string back. *)
Fixpoint unquoteRegexChars (pattern : string) : string :=
  match pattern with
  | EmptyString => EmptyString
  | String c rest =>
      if Ascii.eqb c "\" then
        match rest with
        | EmptyString => String c EmptyString
        | String d rest' => String d (unquoteRegexChars rest')
        end
      else String c (unquoteRegexChars rest)
  end.

Fixpoint count_special (raw : string) : nat :=
  match raw with
  | EmptyString => O
  | String c rest => ((if regex_special c then 1 else 0) + count_special rest)%nat
  end.

(** More sample inputs: a run of /bin/echo as another user and group with
    captured output, clone flags asking for a mount namespace, and the
    accessors of a store path with a hash part of 32 characters. *)
Definition sample_options : RunOptions :=
  mkRunOptions "/bin/echo" false ["hi"] None (Some 1000) (Some 100) None
               true false false.
Definition sample_clone_options : ProcessOptions :=
  mkProcessOptions "error: " false false 131072.
Definition sample_hashPart (baseName : string) : string :=
  substring 0 32 baseName.
Definition sample_name (baseName : string) : string :=
  substring 33 (String.length baseName - 33) baseName.

(* ================================================================== *)
(** * Properties *)
(* ================================================================== *)

(** Unfolds the updates of the world down to a record. *)
Ltac world_simpl :=
  unfold emit, set_errno, set_uncaught, set_waitpid_answers, set_kill_answers,
    set_interrupt_answers, set_setup_answers, set_drain_answers;
  cbn [waitpid_answers kill_answers interrupt_answers setup_answers
       drain_answers errno uncaught_exceptions trace].

(** Runs the glue of the monad: binds, returns, logging, scopes. *)
Ltac run_glue :=
  repeat (progress
    (cbv beta iota zeta
       delta [bind ret log debug throw halt_with this_ world_ assign zoom
              try_catch scoped Finally on_pid fst snd];
     world_simpl)).

(** ** The status encoding *)

Lemma WTERMSIG_mod (status : Z) : WTERMSIG status = status mod 128.
Proof.
  unfold WTERMSIG. change 127 with (Z.ones 7).
  rewrite Z.land_ones by lia. reflexivity.
Qed.

Lemma WEXITSTATUS_div (status : Z) : WEXITSTATUS status = (status / 256) mod 256.
Proof.
  unfold WEXITSTATUS. rewrite Z.shiftr_land.
  change (Z.shiftr 65280 8) with (Z.ones 8).
  rewrite Z.land_ones by lia.
  rewrite Z.shiftr_div_pow2 by lia. reflexivity.
Qed.

Lemma WIFEXITED_mod (status : Z) : WIFEXITED status = (status mod 128 =? 0).
Proof. unfold WIFEXITED. rewrite WTERMSIG_mod. reflexivity. Qed.

Lemma WIFSIGNALED_mod (status : Z) :
  WIFSIGNALED status = (1 <=? status mod 128) && (status mod 128 <=? 126).
Proof.
  unfold WIFSIGNALED, signed_char.
  change 127 with (Z.ones 7). change 255 with (Z.ones 8).
  rewrite !Z.land_ones by lia.
  change (2 ^ 7) with 128. change (2 ^ 8) with 256.
  assert (Ht : 0 <= status mod 128 < 128) by (apply Z.mod_pos_bound; lia).
  remember (status mod 128) as t eqn:Et. clear Et.
  rewrite (Z.mod_small (t + 1) 256) by lia.
  rewrite Z.shiftr_div_pow2 by lia. change (2 ^ 1) with 2.
  destruct (t + 1 <? 128) eqn:E.
  - apply Z.ltb_lt in E.
    destruct (Z.eq_dec t 0) as [-> | Hn]; [reflexivity|].
    assert (1 <= (t + 1) / 2) by (apply Z.div_le_lower_bound; lia).
    apply eq_true_iff_eq. rewrite andb_true_iff, Z.ltb_lt, !Z.leb_le. lia.
  - apply Z.ltb_ge in E. assert (t = 127) by lia. subst t. reflexivity.
Qed.

Lemma W_EXITCODE_exit (code : Z) : W_EXITCODE code 0 = code * 256.
Proof.
  unfold W_EXITCODE. rewrite Z.lor_0_r, Z.shiftl_mul_pow2 by lia. reflexivity.
Qed.

Lemma encode_Signaled_mod (sig : Z) (core : bool) :
  1 <= sig <= 126 -> encode_status (Signaled sig core) mod 128 = sig.
Proof.
  intros H. rewrite <- WTERMSIG_mod. unfold WTERMSIG. cbn [encode_status].
  unfold W_EXITCODE. rewrite Z.shiftl_0_l, Z.lor_0_l.
  rewrite Z.land_lor_distr_l.
  change 127 with (Z.ones 7). rewrite (Z.land_ones sig) by lia.
  rewrite Z.mod_small by (change (2 ^ 7) with 128; lia).
  destruct core; cbn; [| apply Z.lor_0_r].
  change (Z.land WCOREFLAG (Z.ones 7)) with 0. apply Z.lor_0_r.
Qed.

Lemma W_STOPCODE_mod (sig : Z) : W_STOPCODE sig mod 128 = 127.
Proof.
  rewrite <- WTERMSIG_mod. unfold WTERMSIG, W_STOPCODE.
  rewrite Z.land_lor_distr_l.
  change (Z.land 127 127) with 127.
  change 127 with (Z.ones 7) at 1. rewrite Z.land_ones by lia.
  rewrite Z.shiftl_mul_pow2 by lia.
  replace (sig * 2 ^ 8) with ((sig * 2) * 2 ^ 7) by (change (2 ^ 8) with 256; change (2 ^ 7) with 128; lia).
  rewrite Z.mod_mul by lia. reflexivity.
Qed.

Lemma encode_Exited_mod (code : Z) : encode_status (Exited code) mod 128 = 0.
Proof.
  cbn [encode_status]. rewrite W_EXITCODE_exit.
  replace (code * 256) with ((code * 2) * 128) by lia.
  apply Z.mod_mul. lia.
Qed.

Lemma WEXITSTATUS_Exited (code : Z) :
  0 <= code <= 255 -> WEXITSTATUS (encode_status (Exited code)) = code.
Proof.
  intros H. rewrite WEXITSTATUS_div. cbn [encode_status].
  rewrite W_EXITCODE_exit, Z.div_mul by lia. apply Z.mod_small. lia.
Qed.

(** ** StatusDecoder *)

Lemma statusOk_Exited (code : Z) :
  0 <= code <= 255 -> statusOk (encode_status (Exited code)) = (code =? 0).
Proof.
  intros H. unfold statusOk.
  rewrite WIFEXITED_mod, encode_Exited_mod, WEXITSTATUS_Exited by assumption.
  reflexivity.
Qed.

Lemma statusOk_not_exited (status : Z) :
  WIFEXITED status = false -> statusOk status = false.
Proof. intros H. unfold statusOk. rewrite H. reflexivity. Qed.

Lemma statusToString_Exited (code : Z) :
  0 <= code <= 255 ->
  statusToString (encode_status (Exited code)) =
  if code =? 0 then "succeeded" else "failed with exit code " ++ fmt_int code.
Proof.
  intros H. unfold statusToString.
  rewrite WIFEXITED_mod, encode_Exited_mod, WEXITSTATUS_Exited by assumption.
  cbn [Z.eqb negb orb]. destruct (code =? 0); reflexivity.
Qed.

Lemma statusToString_Signaled (sig : Z) (core : bool) :
  1 <= sig <= 126 ->
  statusToString (encode_status (Signaled sig core)) =
  match strsignal with
  | Some description =>
      "failed due to signal " ++ fmt_int sig ++ " (" ++ description sig ++ ")"
  | None => "failed due to signal " ++ fmt_int sig
  end.
Proof.
  intros H. unfold statusToString.
  rewrite WIFEXITED_mod, WIFSIGNALED_mod, WTERMSIG_mod.
  rewrite encode_Signaled_mod by assumption.
  replace (sig =? 0) with false by (symmetry; apply Z.eqb_neq; lia).
  replace (1 <=? sig) with true by (symmetry; apply Z.leb_le; lia).
  replace (sig <=? 126) with true by (symmetry; apply Z.leb_le; lia).
  reflexivity.
Qed.

Lemma statusToString_other (status : Z) :
  WIFEXITED status = false -> WIFSIGNALED status = false ->
  statusToString status = "died abnormally".
Proof. intros He Hs. unfold statusToString. rewrite He, Hs. reflexivity. Qed.

Lemma not_exited_not_signaled (ws : wait_status) :
  valid_status ws ->
  match ws with
  | Stopped _ | Continued =>
      WIFEXITED (encode_status ws) = false /\ WIFSIGNALED (encode_status ws) = false
  | Signaled _ _ => WIFEXITED (encode_status ws) = false
  | Exited _ => True
  end.
Proof.
  destruct ws as [code | sig core | sig |]; intros Hv; cbn [valid_status] in Hv.
  - exact I.
  - rewrite WIFEXITED_mod, encode_Signaled_mod by assumption.
    apply Z.eqb_neq. lia.
  - rewrite WIFEXITED_mod, WIFSIGNALED_mod. cbn [encode_status].
    rewrite W_STOPCODE_mod. split; reflexivity.
  - split; reflexivity.
Qed.

(** C1.  The decoder on every status shape: a normal exit with code 0..255
    decodes to "succeeded" exactly for code 0 and to "failed with exit code N"
    otherwise; a death by signal S decodes to "failed due to signal S
    (description)" (without the description when the build has no
    strsignal); every status that is neither decodes to "died abnormally";
    and [statusOk] holds exactly for the normal exit with code 0. *)
Theorem statusToString_statusOk_decode (ws : wait_status) (Hv : valid_status ws) :
  statusToString (encode_status ws) =
    match ws with
    | Exited code =>
        if code =? 0 then "succeeded" else "failed with exit code " ++ fmt_int code
    | Signaled sig _ =>
        match strsignal with
        | Some description =>
            "failed due to signal " ++ fmt_int sig ++ " (" ++ description sig ++ ")"
        | None => "failed due to signal " ++ fmt_int sig
        end
    | Stopped _ | Continued => "died abnormally"
    end
  /\ (statusToString (encode_status ws) = "succeeded" <-> ws = Exited 0)
  /\ (statusOk (encode_status ws) = true <-> ws = Exited 0)
  /\ (forall status : Z,
        WIFEXITED status = false -> WIFSIGNALED status = false ->
        statusToString status = "died abnormally" /\ statusOk status = false).
Proof.
  pose proof (not_exited_not_signaled ws Hv) as Hshape.
  assert (Hstr : statusToString (encode_status ws) =
    match ws with
    | Exited code =>
        if code =? 0 then "succeeded" else "failed with exit code " ++ fmt_int code
    | Signaled sig _ =>
        match strsignal with
        | Some description =>
            "failed due to signal " ++ fmt_int sig ++ " (" ++ description sig ++ ")"
        | None => "failed due to signal " ++ fmt_int sig
        end
    | Stopped _ | Continued => "died abnormally"
    end).
  { destruct ws as [code | sig core | sig |]; cbn [valid_status] in Hv.
    - apply statusToString_Exited; assumption.
    - apply statusToString_Signaled; assumption.
    - apply statusToString_other; apply Hshape.
    - apply statusToString_other; apply Hshape. }
  split; [exact Hstr|]. split; [|split].
  - rewrite Hstr. destruct ws as [code | sig core | sig |]; cbn [valid_status] in Hv.
    + destruct (code =? 0) eqn:E.
      * apply Z.eqb_eq in E. subst code. split; reflexivity.
      * apply Z.eqb_neq in E. split; [cbn; discriminate|].
        intros Heq. injection Heq as ->. contradiction.
    + split; [destruct strsignal; cbn; discriminate | discriminate].
    + split; discriminate.
    + split; discriminate.
  - destruct ws as [code | sig core | sig |]; cbn [valid_status] in Hv.
    + rewrite statusOk_Exited by assumption. rewrite Z.eqb_eq.
      split; [intros ->; reflexivity | intros Heq; injection Heq as ->; reflexivity].
    + rewrite statusOk_not_exited by exact Hshape. split; discriminate.
    + rewrite statusOk_not_exited by apply Hshape. split; discriminate.
    + rewrite statusOk_not_exited by apply Hshape. split; discriminate.
  - intros status He Hs. split.
    + apply statusToString_other; assumption.
    + apply statusOk_not_exited; assumption.
Qed.

(** ** ProcessHandle *)

Lemma after_retries_fields (n : nat) (p : Z) : forall w : World,
  waitpid_answers (after_retries n p w) = skipn n (waitpid_answers w)
  /\ interrupt_answers (after_retries n p w) = skipn n (interrupt_answers w)
  /\ kill_answers (after_retries n p w) = kill_answers w
  /\ setup_answers (after_retries n p w) = setup_answers w
  /\ drain_answers (after_retries n p w) = drain_answers w
  /\ uncaught_exceptions (after_retries n p w) = uncaught_exceptions w
  /\ trace (after_retries n p w) = (trace w ++ retry_events n p)%list.
Proof.
  induction n as [| n IH]; intros w.
  - cbn. rewrite app_nil_r. repeat split; reflexivity.
  - cbn [after_retries].
    destruct (IH (retry_step p w)) as (H1 & H2 & H3 & H4 & H5 & H6 & H7).
    rewrite H1, H2, H3, H4, H5, H6, H7. cbn.
    repeat split; try reflexivity.
    + destruct (waitpid_answers w); [apply skipn_nil | reflexivity].
    + destruct (interrupt_answers w); [apply skipn_nil | reflexivity].
    + rewrite <- !app_assoc. reflexivity.
Qed.

Lemma wait_loop_retries (n : nat) : forall (this : Pid) (w : World)
    (tail : list wait_answer) (itail : list bool),
  pid this <> -1 ->
  waitpid_answers w = (interrupted_waits n ++ tail)%list ->
  interrupt_answers w = (repeat false n ++ itail)%list ->
  wait_loop (interrupted_waits n ++ tail) this w =
  wait_loop tail this (after_retries n (pid this) w).
Proof.
  induction n as [| n IH]; intros this w tail itail Hown Hw Hi.
  - reflexivity.
  - cbn [interrupted_waits repeat app] in *. cbn [wait_loop wa_res].
    replace (-1 =? pid this) with false by (symmetry; apply Z.eqb_neq; lia).
    cbn [sys_waitpid]. cbn [errno set_errno]. cbn [Z.eqb EINTR negb Pos.eqb].
    unfold checkInterrupt. cbn [interrupt_answers set_errno emit set_waitpid_answers].
    rewrite Hi.
    cbn [after_retries]. unfold retry_step. rewrite Hw, Hi. cbn [tl].
    apply (IH this _ tail itail); [assumption | reflexivity | reflexivity].
Qed.

Lemma Pid_wait_owning (this : Pid) (w : World) :
  pid this <> -1 -> Pid_wait this w = wait_loop (waitpid_answers w) this w.
Proof.
  intros H. unfold Pid_wait, bind, this_, world_, assert_.
  replace (pid this =? -1) with false by (symmetry; apply Z.eqb_neq; assumption).
  reflexivity.
Qed.

Lemma Pid_wait_empty (this : Pid) (w : World) :
  pid this = -1 -> Pid_wait this w = (Halt (AssertionFailed "pid != -1"), this, w).
Proof.
  intros H. unfold Pid_wait, bind, this_, world_, assert_.
  rewrite H. reflexivity.
Qed.

(** C3.  [wait()] on an Owning handle, when [waitpid] is interrupted [n]
    times and no cancellation is requested at the [n] checks in between: it
    retries each time, checking for cancellation between the retries; when
    the next answer is the completion of the process it returns the raw
    status and the handle becomes Empty; when it is a failure other than
    EINTR it throws the system error "cannot get exit status"; and when it is
    one more EINTR with a cancellation requested, the cancellation condition
    is raised. *)
Theorem Pid_wait_retries_EINTR (this : Pid) (w : World) (n : nat)
    (a : wait_answer) (rest : list wait_answer) (irest : list bool)
    (Hown : pid this <> -1)
    (Hw : waitpid_answers w = (interrupted_waits n ++ a :: rest)%list)
    (Hi : interrupt_answers w = (repeat false n ++ irest)%list) :
  let p := pid this in
  (forall status : Z, a = WaitReturned p status ->
     exists w' : World,
       Pid_wait this w = (Ret status, set_pid (-1) this, w')
       /\ trace w' = (trace w ++ retry_events n p ++ [EvWaitpid p a])%list
       /\ waitpid_answers w' = rest /\ interrupt_answers w' = irest)
  /\ (forall e : Z, a = WaitFailed e -> e <> EINTR ->
     exists w' : World,
       Pid_wait this w =
         (Throw (SysError e ("cannot get exit status of PID " ++ fmt_int p)), this, w')
       /\ trace w' = (trace w ++ retry_events n p ++ [EvWaitpid p a])%list)
  /\ (forall irest' : list bool, a = WaitFailed EINTR -> irest = true :: irest' ->
     exists w' : World,
       Pid_wait this w = (Throw (Interrupted "interrupted by the user"), this, w')
       /\ trace w' =
          (trace w ++ retry_events n p ++ [EvWaitpid p a; EvCheckInterrupt])%list).
Proof.
  intros p.
  pose proof (after_retries_fields n p w) as (F1 & F2 & _ & _ & _ & _ & F7).
  rewrite Hw in F1. rewrite Hi in F2.
  unfold interrupted_waits in F1.
  rewrite skipn_app, repeat_length, Nat.sub_diag, skipn_all2 in F1
    by (rewrite repeat_length; lia).
  rewrite skipn_app, repeat_length, Nat.sub_diag, skipn_all2 in F2
    by (rewrite repeat_length; lia).
  cbn [skipn app] in F1, F2.
  rewrite Pid_wait_owning by assumption. rewrite Hw.
  rewrite (wait_loop_retries n this w (a :: rest) irest Hown Hw Hi).
  fold p. set (w1 := after_retries n p w) in *.
  split; [|split].
  - intros status ->. cbn [wait_loop wa_res wa_status]. fold p.
    rewrite Z.eqb_refl. eexists. split; [reflexivity|].
    cbn. rewrite F7, F2, <- app_assoc. repeat split; reflexivity.
  - intros e -> He. cbn [wait_loop wa_res]. fold p.
    replace (-1 =? p) with false by (symmetry; apply Z.eqb_neq; unfold p; lia).
    cbn [sys_waitpid errno set_errno].
    replace (e =? EINTR) with false by (symmetry; apply Z.eqb_neq; assumption).
    cbn [negb]. unfold throw_SysError. cbn [errno set_errno].
    eexists. split; [reflexivity|].
    cbn. rewrite F7, <- app_assoc. reflexivity.
  - intros irest' -> ->. cbn [wait_loop wa_res]. fold p.
    replace (-1 =? p) with false by (symmetry; apply Z.eqb_neq; unfold p; lia).
    cbn [sys_waitpid errno set_errno]. cbn [Z.eqb EINTR Pos.eqb negb].
    unfold checkInterrupt.
    cbn [interrupt_answers set_errno emit set_waitpid_answers]. rewrite F2.
    eexists. split; [reflexivity|].
    cbn. rewrite F7, <- !app_assoc. reflexivity.
Qed.

Lemma after_retries_mk (n : nat) (p : Z) :
  forall (tail : list wait_answer) (ka : list sysret) (itail : list bool)
         (sa : list sysret) (da : list drain_answer) (en : Z) (un : nat)
         (tr : list event),
  after_retries n p
    (mkWorld (interrupted_waits n ++ tail) ka (repeat false n ++ itail) sa da en un tr) =
  mkWorld tail ka itail sa da (retry_errno n en) un (tr ++ retry_events n p).
Proof.
  induction n as [| n IH]; intros tail ka itail sa da en un tr.
  - cbn. rewrite app_nil_r. reflexivity.
  - cbn [after_retries]. unfold retry_step, interrupted_waits. world_simpl.
    cbn [tl repeat app]. fold (interrupted_waits n). rewrite IH.
    rewrite <- !app_assoc. destruct n; reflexivity.
Qed.

Lemma wait_loop_retries_mk (n : nat) (this : Pid)
    (tail : list wait_answer) (ka : list sysret) (itail : list bool)
    (sa : list sysret) (da : list drain_answer) (en : Z) (un : nat)
    (tr : list event) :
  pid this <> -1 ->
  wait_loop (interrupted_waits n ++ tail) this
    (mkWorld (interrupted_waits n ++ tail) ka (repeat false n ++ itail) sa da en un tr) =
  wait_loop tail this
    (mkWorld tail ka itail sa da (retry_errno n en) un (tr ++ retry_events n (pid this))).
Proof.
  intros Hown.
  rewrite (wait_loop_retries n this _ tail itail) by (assumption || reflexivity).
  rewrite after_retries_mk. reflexivity.
Qed.

(** What [wait()] leaves of the handle, whatever the OS answers: Empty when
    it returns a status, untouched otherwise; and it only ever throws a
    system error or the cancellation condition. *)
Lemma wait_loop_outcome (answers : list wait_answer) : forall (this : Pid) (w : World),
  match wait_loop answers this w with
  | (Ret _, this', _) => this' = set_pid (-1) this
  | (Throw e, this', _) =>
      this' = this /\
      match e with
      | SysError _ _ | Interrupted _ => True
      | _ => False
      end
  | (Halt _, _, _) => False
  | (Blocked, this', _) => this' = this
  end.
Proof.
  induction answers as [| a rest IH]; intros this w.
  - reflexivity.
  - cbn [wait_loop]. destruct (wa_res a =? pid this); [reflexivity|].
    destruct (negb (errno (sys_waitpid a rest (pid this) w) =? EINTR)).
    + cbn. split; [reflexivity | exact I].
    + unfold checkInterrupt.
      destruct (interrupt_answers (sys_waitpid a rest (pid this) w)) as [| [|] irest].
      * reflexivity.
      * split; [reflexivity | exact I].
      * apply IH.
Qed.

Lemma Pid_wait_outcome (this : Pid) (w : World) :
  match Pid_wait this w with
  | (Ret _, this', _) => pid this <> -1 /\ this' = set_pid (-1) this
  | (Throw e, this', _) =>
      this' = this /\
      match e with
      | SysError _ _ | Interrupted _ => True
      | _ => False
      end
  | (Halt _, this', w') => pid this = -1 /\ this' = this /\ w' = w
  | (Blocked, this', _) => this' = this
  end.
Proof.
  destruct (Z.eq_dec (pid this) (-1)) as [He | Hn].
  - rewrite Pid_wait_empty by assumption. repeat split; assumption.
  - rewrite Pid_wait_owning by assumption.
    pose proof (wait_loop_outcome (waitpid_answers w) this w) as H.
    destruct (wait_loop (waitpid_answers w) this w) as [[[st | e | h |] this'] w'];
      try assumption.
    + split; assumption.
    + contradiction.
Qed.

Lemma Pid_kill_owning (this : Pid) (w : World) :
  pid this <> -1 -> kill_answers w <> [] ->
  Pid_kill this w = Pid_wait this (after_signal this w).
Proof.
  intros Hown Hk. unfold Pid_kill, after_signal.
  destruct (kill_answers w) as [| k krest] eqn:Ek; [contradiction|].
  unfold bind, this_, assert_, debug, log, sys_kill.
  replace (pid this =? -1) with false by (symmetry; apply Z.eqb_neq; assumption).
  cbn [negb ret]. world_simpl. rewrite Ek.
  destruct (negb (rv k =? 0)); reflexivity.
Qed.

Lemma Pid_kill_empty (this : Pid) (w : World) :
  pid this = -1 -> Pid_kill this w = (Halt (AssertionFailed "pid != -1"), this, w).
Proof.
  intros H. unfold Pid_kill, bind, this_, assert_. rewrite H. reflexivity.
Qed.

Lemma Pid_kill_blocked (this : Pid) (w : World) :
  pid this <> -1 -> kill_answers w = [] ->
  Pid_kill this w =
  (Blocked, this, emit (EvDebug ("killing process " ++ fmt_int (pid this))) w).
Proof.
  intros Hown Hk. unfold Pid_kill, bind, this_, assert_, debug, log, sys_kill.
  replace (pid this =? -1) with false by (symmetry; apply Z.eqb_neq; assumption).
  cbn [negb ret]. world_simpl. rewrite Hk. reflexivity.
Qed.

Lemma Pid_kill_outcome (this : Pid) (w : World) :
  match Pid_kill this w with
  | (Ret _, this', _) => pid this <> -1 /\ this' = set_pid (-1) this
  | (Throw e, this', _) =>
      this' = this /\
      match e with
      | SysError _ _ | Interrupted _ => True
      | _ => False
      end
  | (Halt _, this', w') => pid this = -1 /\ this' = this /\ w' = w
  | (Blocked, this', _) => this' = this
  end.
Proof.
  destruct (Z.eq_dec (pid this) (-1)) as [He | Hn].
  - rewrite Pid_kill_empty by assumption. repeat split; assumption.
  - destruct (kill_answers w) as [| k krest] eqn:Ek.
    + rewrite Pid_kill_blocked by assumption. reflexivity.
    + rewrite Pid_kill_owning by (try assumption; rewrite Ek; discriminate).
      pose proof (Pid_wait_outcome this (after_signal this w)) as H.
      destruct (Pid_wait this (after_signal this w)) as [[[st | e | h |] this'] w'];
        try assumption.
      destruct H as [H _]. contradiction.
Qed.

Lemma Pid_dtor_empty (this : Pid) (w : World) :
  pid this = -1 -> Pid_dtor this w = (Ret tt, this, w).
Proof.
  intros H. unfold Pid_dtor, bind, this_. rewrite H. reflexivity.
Qed.

Lemma Pid_dtor_owning (this : Pid) (w : World) :
  pid this <> -1 ->
  Pid_dtor this w =
  match Pid_kill this w with
  | (Ret _, this', w') => (Ret tt, this', w')
  | (Throw e, this', w') => (Throw e, this', w')
  | (Halt h, this', w') => (Halt h, this', w')
  | (Blocked, this', w') => (Blocked, this', w')
  end.
Proof.
  intros H. unfold Pid_dtor. unfold bind at 1. unfold this_.
  replace (pid this =? -1) with false by (symmetry; apply Z.eqb_neq; assumption).
  cbn [negb]. unfold bind.
  destruct (Pid_kill this w) as [[[st | e | h |] this'] w']; reflexivity.
Qed.

Lemma owned_pids_cons (h : Pid) (hs : list Pid) :
  owned_pids (h :: hs) =
  if pid h =? -1 then owned_pids hs else pid h :: owned_pids hs.
Proof. unfold owned_pids. cbn. destruct (pid h =? -1); reflexivity. Qed.

Lemma exclusive_tail (h : Pid) (hs : list Pid) :
  exclusive (h :: hs) -> exclusive hs.
Proof.
  unfold exclusive. rewrite owned_pids_cons.
  destruct (pid h =? -1); [trivial|]. intros H. inversion H. assumption.
Qed.

Lemma exclusive_emptied (h h' : Pid) (hs : list Pid) :
  pid h' = -1 -> exclusive (h :: hs) -> exclusive (h' :: hs).
Proof.
  intros He H. apply exclusive_tail in H.
  unfold exclusive in *. rewrite owned_pids_cons, He. exact H.
Qed.

Lemma exclusive_same_pid (h h' : Pid) (hs : list Pid) :
  pid h' = pid h -> exclusive (h :: hs) -> exclusive (h' :: hs).
Proof.
  unfold exclusive. rewrite !owned_pids_cons. intros ->. trivial.
Qed.

Lemma Pid_move_assign_state (this other : Pid) (w : World) :
  snd (fst (Pid_move_assign (this, other) w)) =
  (mkPid (pid other) (separatePG other) (killSignal other), set_pid (-1) other).
Proof.
  unfold Pid_move_assign, Pid_move, scoped, ret.
  cbn [pid separatePG killSignal].
  destruct (Pid_dtor _ w) as [[[u | e | h |] tmp'] w']; reflexivity.
Qed.

Lemma Pid_wait_done_mk (this : Pid) (n : nat) (status : Z)
    (rest : list wait_answer) (ka : list sysret) (irest : list bool)
    (sa : list sysret) (da : list drain_answer) (en : Z) (un : nat)
    (tr : list event) :
  pid this <> -1 ->
  Pid_wait this
    (mkWorld (interrupted_waits n ++ WaitReturned (pid this) status :: rest) ka
             (repeat false n ++ irest) sa da en un tr) =
  (Ret status, set_pid (-1) this,
   mkWorld rest ka irest sa da (retry_errno n en) un
     (tr ++ retry_events n (pid this)
         ++ [EvWaitpid (pid this) (WaitReturned (pid this) status)])).
Proof.
  intros Hown. rewrite Pid_wait_owning by assumption.
  cbn [waitpid_answers]. rewrite wait_loop_retries_mk by assumption.
  cbn [wait_loop wa_res wa_status]. rewrite Z.eqb_refl.
  unfold sys_waitpid. world_simpl. rewrite <- app_assoc. reflexivity.
Qed.

Lemma Pid_kill_done_mk (this : Pid) (n : nat) (status : Z)
    (rest : list wait_answer) (k : sysret) (krest : list sysret)
    (irest : list bool) (sa : list sysret) (da : list drain_answer) (en : Z)
    (un : nat) (tr : list event) :
  pid this <> -1 ->
  Pid_kill this
    (mkWorld (interrupted_waits n ++ WaitReturned (pid this) status :: rest)
             (k :: krest) (repeat false n ++ irest) sa da en un tr) =
  (Ret status, set_pid (-1) this,
   mkWorld rest krest irest sa da (retry_errno n (kill_errno k en)) un
     (tr ++ signal_events this k en ++ retry_events n (pid this)
         ++ [EvWaitpid (pid this) (WaitReturned (pid this) status)])).
Proof.
  intros Hown. rewrite Pid_kill_owning by (try assumption; discriminate).
  unfold after_signal, signal_events, note_errno. world_simpl.
  destruct k as [v | e]; cbn [rv kill_errno]; world_simpl.
  - destruct (negb (v =? 0)); world_simpl;
      rewrite Pid_wait_done_mk by assumption;
      rewrite <- !app_assoc; reflexivity.
  - cbn [Z.eqb negb]. world_simpl.
    rewrite Pid_wait_done_mk by assumption.
    rewrite <- !app_assoc. reflexivity.
Qed.

Lemma Pid_wait_fails_mk (this : Pid) (n : nat) (e : Z)
    (rest : list wait_answer) (ka : list sysret) (irest : list bool)
    (sa : list sysret) (da : list drain_answer) (en : Z) (un : nat)
    (tr : list event) :
  pid this <> -1 -> e <> EINTR ->
  Pid_wait this
    (mkWorld (interrupted_waits n ++ WaitFailed e :: rest) ka
             (repeat false n ++ irest) sa da en un tr) =
  (Throw (SysError e ("cannot get exit status of PID " ++ fmt_int (pid this))),
   this,
   mkWorld rest ka irest sa da e un
     (tr ++ retry_events n (pid this) ++ [EvWaitpid (pid this) (WaitFailed e)])).
Proof.
  intros Hown He. rewrite Pid_wait_owning by assumption.
  cbn [waitpid_answers]. rewrite wait_loop_retries_mk by assumption.
  cbn [wait_loop wa_res].
  replace (-1 =? pid this) with false by (symmetry; apply Z.eqb_neq; lia).
  unfold sys_waitpid, throw_SysError. world_simpl.
  replace (e =? EINTR) with false by (symmetry; apply Z.eqb_neq; assumption).
  cbn [negb]. rewrite <- app_assoc. reflexivity.
Qed.

Lemma Pid_wait_interrupted_mk (this : Pid) (n : nat)
    (rest : list wait_answer) (ka : list sysret) (irest : list bool)
    (sa : list sysret) (da : list drain_answer) (en : Z) (un : nat)
    (tr : list event) :
  pid this <> -1 ->
  Pid_wait this
    (mkWorld (interrupted_waits n ++ WaitFailed EINTR :: rest) ka
             (repeat false n ++ true :: irest) sa da en un tr) =
  (Throw (Interrupted "interrupted by the user"), this,
   mkWorld rest ka irest sa da EINTR un
     (tr ++ retry_events n (pid this)
         ++ [EvWaitpid (pid this) (WaitFailed EINTR); EvCheckInterrupt])).
Proof.
  intros Hown. rewrite Pid_wait_owning by assumption.
  cbn [waitpid_answers]. rewrite wait_loop_retries_mk by assumption.
  cbn [wait_loop wa_res].
  replace (-1 =? pid this) with false by (symmetry; apply Z.eqb_neq; lia).
  unfold sys_waitpid, checkInterrupt. world_simpl.
  cbn [Z.eqb EINTR Pos.eqb negb]. world_simpl.
  rewrite <- !app_assoc. reflexivity.
Qed.

(** [kill()] on an Owning handle is its signal, answered by [k], followed by
    [wait()]. *)
Lemma Pid_kill_mk (this : Pid) (wa : list wait_answer) (k : sysret)
    (krest : list sysret) (ia : list bool) (sa : list sysret)
    (da : list drain_answer) (en : Z) (un : nat) (tr : list event) :
  pid this <> -1 ->
  Pid_kill this (mkWorld wa (k :: krest) ia sa da en un tr) =
  Pid_wait this
    (mkWorld wa krest ia sa da (kill_errno k en) un (tr ++ signal_events this k en)).
Proof.
  intros Hown. rewrite Pid_kill_owning by (try assumption; discriminate).
  unfold after_signal, signal_events, note_errno. world_simpl.
  destruct k as [v | e]; cbn [rv kill_errno]; world_simpl.
  - destruct (negb (v =? 0)); world_simpl; rewrite <- ?app_assoc; reflexivity.
  - cbn [Z.eqb negb]. world_simpl. rewrite <- ?app_assoc. reflexivity.
Qed.

Lemma Pid_kill_fails_mk (this : Pid) (n : nat) (e : Z)
    (rest : list wait_answer) (k : sysret) (krest : list sysret)
    (irest : list bool) (sa : list sysret) (da : list drain_answer) (en : Z)
    (un : nat) (tr : list event) :
  pid this <> -1 -> e <> EINTR ->
  Pid_kill this
    (mkWorld (interrupted_waits n ++ WaitFailed e :: rest) (k :: krest)
             (repeat false n ++ irest) sa da en un tr) =
  (Throw (SysError e ("cannot get exit status of PID " ++ fmt_int (pid this))),
   this,
   mkWorld rest krest irest sa da e un
     (tr ++ signal_events this k en ++ retry_events n (pid this)
         ++ [EvWaitpid (pid this) (WaitFailed e)])).
Proof.
  intros Hown He. rewrite Pid_kill_mk by assumption.
  rewrite Pid_wait_fails_mk by assumption.
  rewrite <- !app_assoc. reflexivity.
Qed.

Lemma Pid_kill_interrupted_mk (this : Pid) (n : nat)
    (rest : list wait_answer) (k : sysret) (krest : list sysret)
    (irest : list bool) (sa : list sysret) (da : list drain_answer) (en : Z)
    (un : nat) (tr : list event) :
  pid this <> -1 ->
  Pid_kill this
    (mkWorld (interrupted_waits n ++ WaitFailed EINTR :: rest) (k :: krest)
             (repeat false n ++ true :: irest) sa da en un tr) =
  (Throw (Interrupted "interrupted by the user"), this,
   mkWorld rest krest irest sa da EINTR un
     (tr ++ signal_events this k en ++ retry_events n (pid this)
         ++ [EvWaitpid (pid this) (WaitFailed EINTR); EvCheckInterrupt])).
Proof.
  intros Hown. rewrite Pid_kill_mk by assumption.
  rewrite Pid_wait_interrupted_mk by assumption.
  rewrite <- !app_assoc. reflexivity.
Qed.

(** C4.  Exclusive ownership.  The Empty handle (sentinel -1) owns nothing.
    [wait()] on an Owning handle, once the OS reports the process complete,
    returns the status and leaves the handle Empty, and so does [kill()]
    after its signal; a further [wait()] or [kill()] on the emptied handle
    stops at the assertion without touching the world, so one ownership is
    given up once.  Whatever the OS answers, [wait()] and [kill()] leave the
    handle Empty exactly when they return a status, and then it was Owning;
    when they throw or cannot proceed the handle is unchanged.  [release()]
    empties the handle and returns the process id.  The move constructor and
    the move assignment hand the source's process to the destination and
    leave the source Empty.  Each of them keeps any collection of handles
    exclusive: no process is owned twice. *)
Theorem Pid_exclusive_ownership (this other : Pid) (hs : list Pid) (w : World)
    (Hex : exclusive (this :: other :: hs)) :
  let emptied := set_pid (-1) this in
  let refused (h : Pid) (w0 : World) :=
    Pid_wait h w0 = (Halt (AssertionFailed "pid != -1"), h, w0)
    /\ Pid_kill h w0 = (Halt (AssertionFailed "pid != -1"), h, w0) in
  (Pid_bool Pid_default = false /\ owned_pids [Pid_default] = [])
  /\ (forall (n : nat) (status : Z) (rest : list wait_answer) (irest : list bool),
        pid this <> -1 ->
        waitpid_answers w =
          (interrupted_waits n ++ WaitReturned (pid this) status :: rest)%list ->
        interrupt_answers w = (repeat false n ++ irest)%list ->
        exists w' : World,
          Pid_wait this w = (Ret status, emptied, w')
          /\ Pid_bool emptied = false
          /\ waitpid_answers w' = rest
          /\ kill_answers w' = kill_answers w
          /\ refused emptied w'
          /\ exclusive (emptied :: other :: hs))
  /\ (forall (n : nat) (status : Z) (rest : list wait_answer) (k : sysret)
             (krest : list sysret) (irest : list bool),
        pid this <> -1 ->
        kill_answers w = k :: krest ->
        waitpid_answers w =
          (interrupted_waits n ++ WaitReturned (pid this) status :: rest)%list ->
        interrupt_answers w = (repeat false n ++ irest)%list ->
        exists w' : World,
          Pid_kill this w = (Ret status, emptied, w')
          /\ Pid_bool emptied = false
          /\ waitpid_answers w' = rest
          /\ kill_answers w' = krest
          /\ refused emptied w'
          /\ exclusive (emptied :: other :: hs))
  /\ (let '(r, this', w') := Pid_wait this w in
      match r with
      | Ret _ => pid this <> -1 /\ this' = emptied
      | Halt _ => pid this = -1 /\ this' = this /\ w' = w
      | _ => this' = this
      end /\ exclusive (this' :: other :: hs))
  /\ (let '(r, this', w') := Pid_kill this w in
      match r with
      | Ret _ => pid this <> -1 /\ this' = emptied
      | Halt _ => pid this = -1 /\ this' = this /\ w' = w
      | _ => this' = this
      end /\ exclusive (this' :: other :: hs))
  /\ (Pid_release this w = (Ret (pid this), emptied, w)
      /\ exclusive (emptied :: other :: hs))
  /\ (let '(dst, src) := Pid_move other in
      pid dst = pid other /\ separatePG dst = separatePG other
      /\ killSignal dst = killSignal other /\ pid src = -1
      /\ exclusive (this :: dst :: src :: hs))
  /\ (let '(r, (this', other'), w') := Pid_move_assign (this, other) w in
      pid this' = pid other /\ separatePG this' = separatePG other
      /\ killSignal this' = killSignal other /\ pid other' = -1
      /\ exclusive (this' :: other' :: hs)).
Proof.
  intros emptied refused. subst emptied refused. cbv beta.
  assert (Hemptied : exclusive (set_pid (-1) this :: other :: hs))
    by (apply (exclusive_emptied this); [reflexivity | assumption]).
  split; [split; reflexivity|].
  split; [|split; [|split; [|split; [|split; [|split]]]]].
  - intros n status rest irest Hown Hw Hi.
    destruct w as [wa ka ia sa da en un tr]. cbn in Hw, Hi. subst wa ia.
    rewrite Pid_wait_done_mk by assumption.
    eexists. split; [reflexivity|].
    split; [reflexivity|]. split; [reflexivity|]. split; [reflexivity|].
    split; [|exact Hemptied].
    split; [apply Pid_wait_empty | apply Pid_kill_empty]; reflexivity.
  - intros n status rest k krest irest Hown Hk Hw Hi.
    destruct w as [wa ka ia sa da en un tr]. cbn in Hk, Hw, Hi. subst wa ka ia.
    rewrite Pid_kill_done_mk by assumption.
    eexists. split; [reflexivity|].
    split; [reflexivity|]. split; [reflexivity|]. split; [reflexivity|].
    split; [|exact Hemptied].
    split; [apply Pid_wait_empty | apply Pid_kill_empty]; reflexivity.
  - pose proof (Pid_wait_outcome this w) as H.
    destruct (Pid_wait this w) as [[[st | e | h |] this'] w'].
    + split; [exact H|]. destruct H as [_ ->]. exact Hemptied.
    + destruct H as [-> _]. split; [reflexivity | assumption].
    + split; [exact H|]. destruct H as (_ & -> & _). assumption.
    + subst this'. split; [reflexivity | assumption].
  - pose proof (Pid_kill_outcome this w) as H.
    destruct (Pid_kill this w) as [[[st | e | h |] this'] w'].
    + split; [exact H|]. destruct H as [_ ->]. exact Hemptied.
    + destruct H as [-> _]. split; [reflexivity | assumption].
    + split; [exact H|]. destruct H as (_ & -> & _). assumption.
    + subst this'. split; [reflexivity | assumption].
  - split; [reflexivity | exact Hemptied].
  - clear Hemptied. cbn. repeat split.
    unfold exclusive in *. rewrite !owned_pids_cons in *. cbn [pid set_pid] in *.
    change (-1 =? -1) with true. cbn iota. exact Hex.
  - clear Hemptied.
    pose proof (Pid_move_assign_state this other w) as H.
    destruct (Pid_move_assign (this, other) w) as [[r [this' other']] w'].
    cbn [fst snd] in H. injection H as -> ->. cbn [pid separatePG killSignal set_pid].
    repeat split.
    apply exclusive_tail in Hex.
    unfold exclusive in *. rewrite !owned_pids_cons in *. cbn [pid set_pid] in *.
    change (-1 =? -1) with true. cbn iota. exact Hex.
Qed.


(** C10 (as amended).  Move-assigning onto an Owning handle first hands the
    new process to the handle and empties the source; the old process is
    then killed and reaped, kill followed by wait with the old handle's
    process-group and signal settings, before the assignment returns; once
    that wait completes the assignment returns normally with the old process
    reaped.  Whatever the outcome, the handle ends up with the new process.
    Destroying an Empty handle, a moved-from one included, sends no signal
    and waits for nothing. *)
Theorem Pid_move_assign_reaps_old (this other : Pid) (w : World) (n : nat)
    (status : Z) (rest : list wait_answer) (k : sysret) (krest : list sysret)
    (irest : list bool)
    (Hown : pid this <> -1)
    (Hk : kill_answers w = k :: krest)
    (Hw : waitpid_answers w =
          (interrupted_waits n ++ WaitReturned (pid this) status :: rest)%list)
    (Hi : interrupt_answers w = (repeat false n ++ irest)%list) :
  (exists w' : World,
     Pid_move_assign (this, other) w =
       (Ret tt,
        (mkPid (pid other) (separatePG other) (killSignal other), set_pid (-1) other),
        w')
     /\ trace w' =
        (trace w ++ signal_events this k (errno w) ++ retry_events n (pid this)
           ++ [EvWaitpid (pid this) (WaitReturned (pid this) status)])%list
     /\ waitpid_answers w' = rest /\ kill_answers w' = krest)
  /\ (forall w0 : World,
        snd (fst (Pid_move_assign (this, other) w0)) =
        (mkPid (pid other) (separatePG other) (killSignal other), set_pid (-1) other))
  /\ (forall (empty : Pid) (w0 : World),
        pid empty = -1 -> Pid_dtor empty w0 = (Ret tt, empty, w0))
  /\ (forall w0 : World,
        Pid_dtor (snd (Pid_move other)) w0 = (Ret tt, snd (Pid_move other), w0)).
Proof.
  split; [|split; [|split]].
  - destruct w as [wa ka ia sa da en un tr]. cbn in Hk, Hw, Hi. subst wa ka ia.
    unfold Pid_move_assign, Pid_move, scoped, ret. cbn [pid separatePG killSignal].
    rewrite Pid_dtor_owning by (cbn [pid]; assumption).
    destruct this as [p sp ks]. cbn [pid separatePG killSignal] in *.
    pose proof (Pid_kill_done_mk (mkPid p sp ks) n status rest k krest irest
                  sa da en un tr Hown) as Hkill.
    cbn [pid] in Hkill. rewrite Hkill.
    eexists. split; [reflexivity|]. cbn. repeat split; reflexivity.
  - intros w0. apply Pid_move_assign_state.
  - intros empty w0. apply Pid_dtor_empty.
  - intros w0. apply Pid_dtor_empty. reflexivity.
Qed.

(** ** RunningProgram *)

(** On every status the OS can report, the test [status != 0] of the code is
    the negation of [statusOk]. *)
Lemma status_zero_iff_ok (ws : wait_status) :
  valid_status ws -> (encode_status ws =? 0) = statusOk (encode_status ws).
Proof.
  intros Hv. pose proof (not_exited_not_signaled ws Hv) as Hshape.
  destruct ws as [code | sig core | sig |]; cbn [valid_status] in Hv.
  - rewrite statusOk_Exited by assumption. cbn [encode_status].
    rewrite W_EXITCODE_exit.
    destruct (code =? 0) eqn:E.
    + apply Z.eqb_eq in E. subst. reflexivity.
    + apply Z.eqb_neq in E. apply Z.eqb_neq. lia.
  - rewrite statusOk_not_exited by exact Hshape.
    apply Z.eqb_neq. intros H0.
    pose proof (encode_Signaled_mod sig core Hv) as Hm. rewrite H0 in Hm.
    cbn in Hm. lia.
  - rewrite statusOk_not_exited by apply Hshape.
    apply Z.eqb_neq. intros H0. cbn [encode_status] in H0.
    pose proof (W_STOPCODE_mod sig) as Hm. rewrite H0 in Hm. cbn in Hm. lia.
  - reflexivity.
Qed.

Lemma RunningProgram_dtor_owning (this : RunningProgram) (w : World) :
  pid (rp_pid this) <> -1 ->
  RunningProgram_dtor this w =
  (Halt (AssertionFailed "destroying un-wait()ed running process"), this, w).
Proof.
  intros H. unfold RunningProgram_dtor, bind, this_, Pid_bool.
  replace (pid (rp_pid this) =? -1) with false
    by (symmetry; apply Z.eqb_neq; assumption).
  reflexivity.
Qed.

Lemma RunningProgram_dtor_empty (this : RunningProgram) (w : World) :
  pid (rp_pid this) = -1 -> RunningProgram_dtor this w = (Ret tt, this, w).
Proof.
  intros H. unfold RunningProgram_dtor, bind, this_, Pid_bool, on_pid, zoom.
  rewrite H. change (-1 =? -1) with true. cbn [negb]. unfold ret.
  rewrite Pid_dtor_empty by assumption.
  destruct this as [prog [p1 sp ks] out]. reflexivity.
Qed.

(** The handle of a [RunningProgram] after [wait()]: Empty whenever the
    call returned or threw the execution error. *)
Lemma RunningProgram_wait_outcome (this : RunningProgram) (w : World) :
  match RunningProgram_wait this w with
  | (Ret _, this', _) | (Throw (ExecError _ _), this', _) => pid (rp_pid this') = -1
  | _ => True
  end.
Proof.
  unfold RunningProgram_wait, bind, this_, world_, on_pid, zoom.
  destruct (Nat.eqb (uncaught_exceptions w) 0).
  - pose proof (Pid_wait_outcome (rp_pid this) w) as H.
    destruct (Pid_wait (rp_pid this) w) as [[[st | e | h |] p'] w']; try exact I.
    + destruct H as [_ ->]. destruct (negb (st =? 0)); reflexivity.
    + destruct H as [_ H]. destruct e; (exact I || contradiction).
  - pose proof (Pid_kill_outcome (rp_pid this) w) as H.
    destruct (Pid_kill (rp_pid this) w) as [[[st | e | h |] p'] w']; try exact I.
    + destruct H as [_ ->]. reflexivity.
    + destruct H as [_ H]. destruct e; (exact I || contradiction).
Qed.

(** C2 (as amended).  [RunningProgram::wait()] on a live process.  With no
    exception in flight it performs the handle's wait and, when that wait
    completes with a status the OS can report, throws the execution error,
    carrying the status and naming the program and the decoded text, exactly
    when the status is not ok, returning normally otherwise.  With an
    exception in flight it kills the child with the handle's signal (the
    forceful one for a spawned handle) and waits for it; when that wait
    completes it logs and returns normally whatever the status.  It never
    throws the execution error then, but an error of the reaping wait, a
    failure other than EINTR or a requested cancellation, is thrown as a new
    error and leaves the handle Owning. *)
Theorem RunningProgram_wait_reconciles (this : RunningProgram) (w : World)
    (n : nat) (a : wait_answer) (rest : list wait_answer) (irest : list bool)
    (Hown : pid (rp_pid this) <> -1)
    (Hw : waitpid_answers w = (interrupted_waits n ++ a :: rest)%list)
    (Hi : interrupt_answers w = (repeat false n ++ irest)%list) :
  let p := pid (rp_pid this) in
  let emptied := set_rp_pid (set_pid (-1) (rp_pid this)) this in
  (forall ws : wait_status,
     valid_status ws -> a = WaitReturned p (encode_status ws) ->
     uncaught_exceptions w = 0%nat ->
     exists w' : World,
       RunningProgram_wait this w =
         (if statusOk (encode_status ws) then Ret tt
          else Throw (ExecError (encode_status ws)
                        ("program '" ++ program this ++ "' "
                         ++ statusToString (encode_status ws))),
          emptied, w')
       /\ trace w' =
          (trace w ++ retry_events n p
             ++ [EvWaitpid p (WaitReturned p (encode_status ws))])%list)
  /\ (forall (status : Z) (k : sysret) (krest : list sysret),
      a = WaitReturned p status ->
      uncaught_exceptions w <> 0%nat -> kill_answers w = k :: krest ->
      exists w' : World,
        RunningProgram_wait this w = (Ret tt, emptied, w')
        /\ trace w' =
           (trace w ++ signal_events (rp_pid this) k (errno w)
              ++ retry_events n p
              ++ [EvWaitpid p (WaitReturned p status);
                  EvDebug ("killed subprocess " ++ program this
                           ++ " during exception handling")])%list)
  /\ (forall (e : Z) (k : sysret) (krest : list sysret),
      a = WaitFailed e -> e <> EINTR ->
      uncaught_exceptions w <> 0%nat -> kill_answers w = k :: krest ->
      exists w' : World,
        RunningProgram_wait this w =
          (Throw (SysError e ("cannot get exit status of PID " ++ fmt_int p)),
           this, w')
        /\ trace w' =
           (trace w ++ signal_events (rp_pid this) k (errno w)
              ++ retry_events n p ++ [EvWaitpid p (WaitFailed e)])%list)
  /\ (forall (irest' : list bool) (k : sysret) (krest : list sysret),
      a = WaitFailed EINTR -> irest = true :: irest' ->
      uncaught_exceptions w <> 0%nat -> kill_answers w = k :: krest ->
      exists w' : World,
        RunningProgram_wait this w =
          (Throw (Interrupted "interrupted by the user"), this, w')
        /\ trace w' =
           (trace w ++ signal_events (rp_pid this) k (errno w)
              ++ retry_events n p
              ++ [EvWaitpid p (WaitFailed EINTR); EvCheckInterrupt])%list)
  /\ (forall w0 : World,
      uncaught_exceptions w0 <> 0%nat ->
      match RunningProgram_wait this w0 with
      | (Ret _, this', _) => this' = emptied
      | (Throw e, this', _) =>
          this' = this /\
          match e with
          | SysError _ _ | Interrupted _ => True
          | _ => False
          end
      | (Halt _, _, _) => False
      | (Blocked, this', _) => this' = this
      end)
  /\ (forall p0 : Z, killSignal (Pid_of p0) = SIGKILL).
Proof.
  intros p emptied. subst p emptied.
  split; [|split; [|split; [|split; [|split]]]].
  - intros ws Hv -> Hun.
    destruct w as [wa ka ia sa da en un tr]. cbn in Hw, Hi, Hun. subst wa ia un.
    unfold RunningProgram_wait, bind, this_, world_, on_pid, zoom.
    cbn [uncaught_exceptions Nat.eqb].
    rewrite Pid_wait_done_mk by assumption.
    rewrite <- (status_zero_iff_ok ws Hv).
    destruct (encode_status ws =? 0); cbn [negb]; eexists;
      (split; [reflexivity|]); reflexivity.
  - intros status k krest -> Hun Hk.
    destruct w as [wa ka ia sa da en un tr]. cbn in Hw, Hi, Hun, Hk. subst wa ia ka.
    unfold RunningProgram_wait, bind, this_, world_, on_pid, zoom.
    cbn [uncaught_exceptions].
    destruct un as [| un]; [contradiction|]. cbn [Nat.eqb].
    rewrite Pid_kill_done_mk by assumption.
    unfold debug, log. world_simpl.
    eexists. split; [reflexivity|]. cbn [trace errno].
    rewrite <- !app_assoc. reflexivity.
  - intros e k krest -> He Hun Hk.
    destruct w as [wa ka ia sa da en un tr]. cbn in Hw, Hi, Hun, Hk. subst wa ia ka.
    unfold RunningProgram_wait, bind, this_, world_, on_pid, zoom.
    cbn [uncaught_exceptions].
    destruct un as [| un]; [contradiction|]. cbn [Nat.eqb].
    rewrite Pid_kill_fails_mk by assumption.
    destruct this as [prog h out]. cbn [rp_pid program stdout_ set_rp_pid].
    eexists. split; [reflexivity|]. reflexivity.
  - intros irest' k krest -> -> Hun Hk.
    destruct w as [wa ka ia sa da en un tr]. cbn in Hw, Hi, Hun, Hk. subst wa ia ka.
    unfold RunningProgram_wait, bind, this_, world_, on_pid, zoom.
    cbn [uncaught_exceptions].
    destruct un as [| un]; [contradiction|]. cbn [Nat.eqb].
    rewrite Pid_kill_interrupted_mk by assumption.
    destruct this as [prog h out]. cbn [rp_pid program stdout_ set_rp_pid].
    eexists. split; [reflexivity|]. reflexivity.
  - intros w0 Hun.
    unfold RunningProgram_wait, bind, this_, world_, on_pid, zoom.
    destruct (uncaught_exceptions w0) as [| un]; [contradiction|]. cbn [Nat.eqb].
    pose proof (Pid_kill_outcome (rp_pid this) w0) as H.
    destruct (Pid_kill (rp_pid this) w0) as [[[st | e | h |] p'] w'].
    + destruct H as [_ ->]. reflexivity.
    + destruct H as [-> H]. split; [|exact H].
      destruct this as [prog h out]. reflexivity.
    + destruct H as [H _]. contradiction.
    + subst p'. destruct this as [prog h out]. reflexivity.
  - reflexivity.
Qed.

(** C7.  Destroying a [RunningProgram] whose handle still owns a process
    ends the process image on the spot: the assertion placed before
    [std::terminate()] fails, nothing is thrown, no signal is sent and
    nothing is waited for.  A [RunningProgram] whose [wait()] has completed,
    by returning or by throwing the execution error, destructs normally. *)
Theorem RunningProgram_dtor_unwaited_is_fatal (this : RunningProgram) (w : World) :
  (pid (rp_pid this) <> -1 ->
   RunningProgram_dtor this w =
   (Halt (AssertionFailed "destroying un-wait()ed running process"), this, w))
  /\ (pid (rp_pid this) = -1 -> RunningProgram_dtor this w = (Ret tt, this, w))
  /\ (let '(r, this', w') := RunningProgram_wait this w in
      match r with
      | Ret _ | Throw (ExecError _ _) =>
          RunningProgram_dtor this' w' = (Ret tt, this', w')
      | _ => True
      end).
Proof.
  split; [|split].
  - apply RunningProgram_dtor_owning.
  - apply RunningProgram_dtor_empty.
  - pose proof (RunningProgram_wait_outcome this w) as H.
    destruct (RunningProgram_wait this w) as [[[u | e | h |] this'] w']; try exact I.
    + apply RunningProgram_dtor_empty. exact H.
    + destruct e; try exact I. apply RunningProgram_dtor_empty. exact H.
Qed.

(** ** ProcessSpawner *)

Lemma wrapper_outcome {O} (options : ProcessOptions) (fun_ : M O unit) (o : O)
    (w : World) :
  child_setup_ok options w = true ->
  wrapper options fun_ o w =
  match fun_ o (after_child_setup options w) with
  | (Ret _, o1, w1) => (Halt (ProcessExit 1 (runExitHandlers options)), o1, w1)
  | (Throw e, o1, w1) =>
      if is_std_exception e then
        match setup_answers w1 with
        | a :: arest =>
            (Halt (ProcessExit 1 (runExitHandlers options)), o1,
             note_errno a
               (emit (EvSys (SysWriteStderr (errorPrefix options ++ what e ++ newline)))
                  (set_setup_answers arest w1)))
        | [] => (Blocked, o1, w1)
        end
      else (Halt (ProcessExit 1 (runExitHandlers options)), o1, w1)
  | (Halt h, o1, w1) => (Halt h, o1, w1)
  | (Blocked, o1, w1) => (Blocked, o1, w1)
  end.
Proof.
  intros Hok. unfold child_setup_ok in Hok.
  unfold wrapper, after_child_setup.
  unfold bind at 1. unfold log at 1.
  unfold bind at 1. unfold try_catch at 1. unfold bind at 1.
  destruct (dieWithParent options).
  - destruct (setup_answers w) as [| [v | e] srest] eqn:Es; try discriminate.
    unfold bind at 1. unfold sys at 1.
    replace (setup_answers (emit EvMakeSimpleLogger w)) with (Returned v :: srest)
      by (symmetry; exact Es).
    cbn [rv]. destruct (v =? -1); [discriminate|]. unfold ret at 1.
    destruct (fun_ o _) as [[[u | e | h |] o1] w1]; try reflexivity.
    + destruct (runExitHandlers options); reflexivity.
    + destruct (is_std_exception e); [| destruct (runExitHandlers options); reflexivity].
      unfold try_catch, bind, sys.
      destruct (setup_answers w1) as [| a arest]; [reflexivity|].
      cbn [rv]. destruct (rv a =? -1); destruct (runExitHandlers options); reflexivity.
  - unfold ret at 1.
    destruct (fun_ o _) as [[[u | e | h |] o1] w1]; try reflexivity.
    + destruct (runExitHandlers options); reflexivity.
    + destruct (is_std_exception e); [| destruct (runExitHandlers options); reflexivity].
      unfold try_catch, bind, sys.
      destruct (setup_answers w1) as [| a arest]; [reflexivity|].
      cbn [rv]. destruct (rv a =? -1); destruct (runExitHandlers options); reflexivity.
Qed.

Lemma startProcess_fork_parent {O} (f : M O unit) (options : ProcessOptions)
    (o : O) (p : Z) (wa : list wait_answer) (ka : list sysret) (ia : list bool)
    (srest : list sysret) (da : list drain_answer) (en : Z) (un : nat)
    (tr : list event) :
  cloneFlags options = 0 -> p <> 0 -> p <> -1 ->
  startProcess f options o (mkWorld wa ka ia (Returned p :: srest) da en un tr) =
  (Ret (Pid_of p), o, mkWorld wa ka ia srest da en un (tr ++ [EvSys SysFork])).
Proof.
  intros Hc H0 H1. unfold startProcess, doFork, bind, sys. rewrite Hc.
  cbn [Z.eqb negb setup_answers rv]. world_simpl. cbn [note_errno].
  replace (p =? 0) with false by (symmetry; apply Z.eqb_neq; assumption).
  cbn [negb ret].
  replace (p =? -1) with false by (symmetry; apply Z.eqb_neq; assumption).
  reflexivity.
Qed.

Lemma startProcess_fork_fails {O} (f : M O unit) (options : ProcessOptions)
    (o : O) (e : Z) (wa : list wait_answer) (ka : list sysret) (ia : list bool)
    (srest : list sysret) (da : list drain_answer) (en : Z) (un : nat)
    (tr : list event) :
  cloneFlags options = 0 ->
  startProcess f options o (mkWorld wa ka ia (Failed e :: srest) da en un tr) =
  (Throw (SysError e "unable to fork"), o,
   mkWorld wa ka ia srest da e un (tr ++ [EvSys SysFork])).
Proof.
  intros Hc. unfold startProcess, doFork, bind, sys. rewrite Hc. reflexivity.
Qed.

Lemma startProcess_fork_child {O} (f : M O unit) (options : ProcessOptions)
    (o : O) (wa : list wait_answer) (ka : list sysret) (ia : list bool)
    (srest : list sysret) (da : list drain_answer) (en : Z) (un : nat)
    (tr : list event) :
  cloneFlags options = 0 ->
  startProcess f options o (mkWorld wa ka ia (Returned 0 :: srest) da en un tr) =
  match wrapper options f o (mkWorld wa ka ia srest da en un (tr ++ [EvSys SysFork])) with
  | (Ret _, o1, w1) => (Halt Aborted, o1, w1)
  | (Throw e, o1, w1) => (Throw e, o1, w1)
  | (Halt h, o1, w1) => (Halt h, o1, w1)
  | (Blocked, o1, w1) => (Blocked, o1, w1)
  end.
Proof.
  intros Hc. unfold startProcess, doFork. rewrite Hc. cbn [Z.eqb negb].
  unfold bind at 1. unfold bind at 1. unfold sys at 1.
  cbn [setup_answers rv Z.eqb negb]. world_simpl. cbn [note_errno].
  unfold bind at 1.
  destruct (wrapper options f o _) as [[[u | e | h |] o1] w1]; reflexivity.
Qed.

(** ** UserProcessReaper *)

Lemma killall_loop_retries {O} (uid0 : Z) (o : O) (m : nat) :
  forall (tail : list sysret) (wa : list wait_answer) (ia : list bool)
         (sa : list sysret) (da : list drain_answer) (en : Z) (un : nat)
         (tr : list event),
  killall_loop uid0 (interrupted_kills m ++ tail) o
    (mkWorld wa (interrupted_kills m ++ tail) ia sa da en un tr) =
  killall_loop uid0 tail o
    (mkWorld wa tail ia sa da (retry_errno m en) un
       (tr ++ repeat (EvKill (-1) SIGKILL) m)).
Proof.
  induction m as [| m IH]; intros tail wa ia sa da en un tr.
  - cbn. rewrite app_nil_r. reflexivity.
  - unfold interrupted_kills. cbn [repeat app killall_loop rv note_errno].
    world_simpl. cbn [Z.eqb EINTR ESRCH EPERM Pos.eqb orb negb].
    fold (interrupted_kills m). rewrite IH.
    rewrite <- app_assoc. destruct m; reflexivity.
Qed.

Lemma snoc_repeat {A} (l : list A) (a x : A) (m : nat) :
  (((l ++ [a]) ++ repeat x m) ++ [x])%list = (l ++ [a] ++ repeat x (S m))%list.
Proof.
  rewrite <- !app_assoc. cbn [repeat]. rewrite repeat_cons. reflexivity.
Qed.

Lemma killUser_child_done {O} (uid0 : Z) (o : O) (m : nat) (k : sysret)
    (krest : list sysret) (wa : list wait_answer) (ia : list bool)
    (srest : list sysret) (da : list drain_answer) (en : Z) (un : nat)
    (tr : list event) :
  broadcast_done k = true ->
  killUser_child uid0 o
    (mkWorld wa (interrupted_kills m ++ k :: krest) ia (Returned 0 :: srest) da en un tr) =
  (Halt (ProcessExit 0 false), o,
   mkWorld wa krest ia srest da (kill_errno k (retry_errno m en)) un
     (tr ++ [EvSys (SysSetuid uid0)] ++ repeat (EvKill (-1) SIGKILL) (S m))).
Proof.
  intros Ed.
  unfold killUser_child, bind, sys, world_.
  cbn [setup_answers rv Z.eqb negb ret]. world_simpl. cbn [note_errno kill_answers].
  rewrite killall_loop_retries.
  cbn [killall_loop]. world_simpl. rewrite snoc_repeat.
  destruct k as [v | e]; cbn [broadcast_done] in Ed;
    cbn [rv note_errno kill_errno]; world_simpl.
  - rewrite Ed. reflexivity.
  - cbn [Z.eqb]. rewrite Ed. reflexivity.
Qed.

Lemma killUser_child_fatal {O} (uid0 : Z) (o : O) (m : nat) (k : sysret)
    (krest : list sysret) (wa : list wait_answer) (ia : list bool)
    (srest : list sysret) (da : list drain_answer) (en : Z) (un : nat)
    (tr : list event) :
  broadcast_fatal k = true ->
  killUser_child uid0 o
    (mkWorld wa (interrupted_kills m ++ k :: krest) ia (Returned 0 :: srest) da en un tr) =
  (Throw (SysError (kill_errno k (retry_errno m en))
            ("cannot kill processes for uid '" ++ fmt_int uid0 ++ "'")), o,
   mkWorld wa krest ia srest da (kill_errno k (retry_errno m en)) un
     (tr ++ [EvSys (SysSetuid uid0)] ++ repeat (EvKill (-1) SIGKILL) (S m))).
Proof.
  intros Ef.
  unfold killUser_child, bind, sys, world_.
  cbn [setup_answers rv Z.eqb negb ret]. world_simpl. cbn [note_errno kill_answers].
  rewrite killall_loop_retries.
  cbn [killall_loop]. world_simpl. rewrite snoc_repeat.
  destruct k as [v | e]; cbn [broadcast_fatal] in Ef; [discriminate|].
  cbn [rv note_errno kill_errno]. world_simpl. cbn [Z.eqb].
  apply andb_true_iff in Ef. destruct Ef as [Ef1 Ef2].
  apply negb_true_iff in Ef1. rewrite Ef1, Ef2. reflexivity.
Qed.

(** C6.  [killUser(0)] stops at its precondition: after the debug line the
    assertion fails.  No helper is spawned and no signal is sent: the run
    adds neither a fork nor a kill to the trace, and none of the answers the
    OS had ready for a fork, a kill or a wait is consumed. *)
Theorem killUser_rejects_uid_0 {O} (o : O) (w : World) :
  exists w' : World,
    killUser 0 o w = (Halt (AssertionFailed "uid != 0"), o, w')
    /\ trace w' =
       (trace w ++ [EvDebug "killing all processes running under uid '0'"])%list
    /\ setup_answers w' = setup_answers w
    /\ kill_answers w' = kill_answers w
    /\ waitpid_answers w' = waitpid_answers w
    /\ (forall target sig : Z,
          In (EvKill target sig) (trace w') -> In (EvKill target sig) (trace w))
    /\ (forall c : syscall, In (EvSys c) (trace w') -> In (EvSys c) (trace w)).
Proof.
  exists (emit (EvDebug "killing all processes running under uid '0'") w).
  split; [reflexivity|].
  repeat split.
  - intros target sig H. cbn in H. apply in_app_or in H.
    destruct H as [H | [H | []]]; [assumption | discriminate].
  - intros c H. cbn in H. apply in_app_or in H.
    destruct H as [H | [H | []]]; [assumption | discriminate].
Qed.

(** C5.  [killUser] for a uid other than 0.  In the helper (the child's side
    of the fork), after [setuid(uid)], the forceful signal is broadcast with
    [kill(-1, SIGKILL)] again after every interrupted attempt, until an
    attempt reports that nothing is left to kill, and the helper then exits
    with 0, or until an unexpected error, and the helper then reports it and
    exits with 1.  In the parent, the helper is waited for, and the error
    naming the uid and the decoded status is thrown exactly when the status
    is not ok. *)
Theorem killUser_helper_and_parent {O} (uid0 : Z) (o : O) (Huid : uid0 <> 0) :
  let hello := EvDebug ("killing all processes running under uid '" ++ fmt_int uid0 ++ "'") in
  let arm_answers := if dieWithParent_default then [Returned 0] else [] in
  let arm_events :=
    if dieWithParent_default then [EvSys (SysPrctlDeathSig SIGKILL)] else [] in
  (forall (m : nat) (k : sysret) (krest : list sysret) (wa : list wait_answer)
          (ia : list bool) (srest : list sysret) (da : list drain_answer)
          (en : Z) (un : nat) (tr : list event),
     broadcast_done k = true ->
     exists w' : World,
       killUser uid0 o
         (mkWorld wa (interrupted_kills m ++ k :: krest) ia
            (Returned 0 :: arm_answers ++ Returned 0 :: srest) da en un tr) =
       (Halt (ProcessExit 0 false), o, w')
       /\ trace w' =
          (tr ++ [hello; EvSys SysFork; EvMakeSimpleLogger] ++ arm_events
              ++ [EvSys (SysSetuid uid0)]
              ++ repeat (EvKill (-1) SIGKILL) (S m))%list)
  /\ (forall (m : nat) (k : sysret) (krest : list sysret) (wa : list wait_answer)
          (ia : list bool) (a : sysret) (srest : list sysret)
          (da : list drain_answer) (en : Z) (un : nat) (tr : list event),
     broadcast_fatal k = true ->
     exists w' : World,
       killUser uid0 o
         (mkWorld wa (interrupted_kills m ++ k :: krest) ia
            (Returned 0 :: arm_answers ++ Returned 0 :: a :: srest) da en un tr) =
       (Halt (ProcessExit 1 runExitHandlers_default), o, w')
       /\ trace w' =
          (tr ++ [hello; EvSys SysFork; EvMakeSimpleLogger] ++ arm_events
              ++ [EvSys (SysSetuid uid0)]
              ++ repeat (EvKill (-1) SIGKILL) (S m)
              ++ [EvSys (SysWriteStderr
                           (errorPrefix_default
                            ++ ("cannot kill processes for uid '" ++ fmt_int uid0 ++ "'")
                            ++ newline))])%list)
  /\ (forall (p : Z) (n : nat) (ws : wait_status) (rest : list wait_answer)
          (ka : list sysret) (irest : list bool) (srest : list sysret)
          (da : list drain_answer) (en : Z) (un : nat) (tr : list event),
     p <> 0 -> p <> -1 -> valid_status ws ->
     let status := encode_status ws in
     exists w' : World,
       killUser uid0 o
         (mkWorld (interrupted_waits n ++ WaitReturned p status :: rest) ka
            (repeat false n ++ irest) (Returned p :: srest) da en un tr) =
       (if statusOk status then Ret tt
        else Throw (Error ("cannot kill processes for uid '" ++ fmt_int uid0 ++ "': "
                           ++ statusToString status)),
        o, w')
       /\ trace w' =
          (tr ++ [hello; EvSys SysFork] ++ retry_events n p
              ++ [EvWaitpid p (WaitReturned p status)])%list).
Proof.
  intros hello arm_answers arm_events. subst hello arm_answers arm_events.
  assert (Hz : (uid0 =? 0) = false) by (apply Z.eqb_neq; assumption).
  split; [|split].
  - intros m k krest wa ia srest da en un tr Hd.
    unfold killUser. unfold bind at 1. unfold debug, log.
    unfold bind at 1. unfold assert_. rewrite Hz. cbn [negb ret].
    unfold bind at 1. world_simpl.
    rewrite startProcess_fork_child by reflexivity.
    rewrite wrapper_outcome
      by (unfold child_setup_ok; cbn; destruct dieWithParent_default; reflexivity).
    unfold after_child_setup. cbn [dieWithParent ProcessOptions_default].
    destruct dieWithParent_default; world_simpl; cbn [app note_errno]; world_simpl;
      rewrite killUser_child_done by assumption;
      eexists; (split; [reflexivity|]); cbn [trace];
      rewrite <- !app_assoc; reflexivity.
  - intros m k krest wa ia a srest da en un tr Hf.
    unfold killUser. unfold bind at 1. unfold debug, log.
    unfold bind at 1. unfold assert_. rewrite Hz. cbn [negb ret].
    unfold bind at 1. world_simpl.
    rewrite startProcess_fork_child by reflexivity.
    rewrite wrapper_outcome
      by (unfold child_setup_ok; cbn; destruct dieWithParent_default; reflexivity).
    unfold after_child_setup. cbn [dieWithParent ProcessOptions_default].
    destruct dieWithParent_default; world_simpl; cbn [app note_errno]; world_simpl;
      rewrite killUser_child_fatal by assumption;
      cbn [is_std_exception setup_answers runExitHandlers errorPrefix what
           ProcessOptions_default];
      eexists; (split; [reflexivity|]);
      destruct a; cbn [note_errno]; world_simpl;
      rewrite <- !app_assoc; reflexivity.
  - intros p n ws rest ka irest srest da en un tr Hp0 Hp1 Hv status. subst status.
    unfold killUser. unfold bind at 1. unfold debug, log.
    unfold bind at 1. unfold assert_. rewrite Hz. cbn [negb ret].
    unfold bind at 1. world_simpl.
    rewrite startProcess_fork_parent by (reflexivity || assumption).
    unfold scoped, bind, zoom. cbn [fst].
    pose proof (Pid_wait_done_mk (Pid_of p) n (encode_status ws) rest ka irest
                  srest da en un
                  (tr ++ [EvDebug ("killing all processes running under uid '"
                                   ++ fmt_int uid0 ++ "'")] ++ [EvSys SysFork])%list
                  Hp1) as Hwait.
    cbn [pid Pid_of] in Hwait. rewrite <- !app_assoc in *. cbn [app] in *.
    rewrite Hwait. clear Hwait.
    rewrite <- (status_zero_iff_ok ws Hv).
    destruct (encode_status ws =? 0); cbn [negb ret throw];
      rewrite Pid_dtor_empty by reflexivity;
      eexists; (split; [reflexivity|]); world_simpl;
      rewrite <- ?app_assoc; reflexivity.
Qed.

(** C8 (as amended).  The wrapper around the child procedure, once its own
    setup is done.  Nothing the child procedure throws leaves the wrapper: an
    exception derived from [std::exception] gets the diagnostic, error prefix
    followed by its message, written to standard error, and whether that
    write succeeds or fails makes no difference; any other thrown object is
    caught without a diagnostic.  After a throw as after a normal return the
    child exits with status 1, through [exit] when [runExitHandlers] is set
    and through [_exit] otherwise.  The wrapper itself neither returns nor
    throws. *)
Theorem wrapper_catches_and_exits {O} (options : ProcessOptions) (fun_ : M O unit)
    (o : O) (w : World) (Hsetup : child_setup_ok options w = true) :
  let w0 := after_child_setup options w in
  let exit1 : result unit := Halt (ProcessExit 1 (runExitHandlers options)) in
  (forall (o1 : O) (w1 : World),
     fun_ o w0 = (Ret tt, o1, w1) -> wrapper options fun_ o w = (exit1, o1, w1))
  /\ (forall (e : exn) (o1 : O) (w1 : World) (a : sysret) (arest : list sysret),
     fun_ o w0 = (Throw e, o1, w1) -> is_std_exception e = true ->
     setup_answers w1 = a :: arest ->
     wrapper options fun_ o w =
     (exit1, o1,
      note_errno a
        (emit (EvSys (SysWriteStderr (errorPrefix options ++ what e ++ newline)))
           (set_setup_answers arest w1))))
  /\ (forall (e : exn) (o1 : O) (w1 : World),
     fun_ o w0 = (Throw e, o1, w1) -> is_std_exception e = false ->
     wrapper options fun_ o w = (exit1, o1, w1))
  /\ match wrapper options fun_ o w with
     | (Ret _, _, _) | (Throw _, _, _) => False
     | _ => True
     end.
Proof.
  intros w0 exit1. subst w0 exit1.
  rewrite (wrapper_outcome options fun_ o w Hsetup).
  split; [|split; [|split]].
  - intros o1 w1 ->. reflexivity.
  - intros e o1 w1 a arest -> -> ->. reflexivity.
  - intros e o1 w1 -> ->. reflexivity.
  - destruct (fun_ o _) as [[[u | e | h |] o1] w1]; try exact I.
    destruct (is_std_exception e); [|exact I].
    destruct (setup_answers w1); exact I.
Qed.

(** ** ProgramRunner *)

Lemma RunningProgram_wait_mk (this : RunningProgram) (n : nat) (status : Z)
    (rest : list wait_answer) (ka : list sysret) (irest : list bool)
    (sa : list sysret) (da : list drain_answer) (en : Z) (tr : list event) :
  pid (rp_pid this) <> -1 ->
  RunningProgram_wait this
    (mkWorld (interrupted_waits n ++ WaitReturned (pid (rp_pid this)) status :: rest)
             ka (repeat false n ++ irest) sa da en 0 tr) =
  (if status =? 0 then Ret tt
   else Throw (ExecError status
                 ("program '" ++ program this ++ "' " ++ statusToString status)),
   set_rp_pid (set_pid (-1) (rp_pid this)) this,
   mkWorld rest ka irest sa da (retry_errno n en) 0
     (tr ++ retry_events n (pid (rp_pid this))
         ++ [EvWaitpid (pid (rp_pid this)) (WaitReturned (pid (rp_pid this)) status)])).
Proof.
  intros Hown.
  unfold RunningProgram_wait, bind, this_, world_, on_pid, zoom.
  cbn [uncaught_exceptions Nat.eqb].
  rewrite Pid_wait_done_mk by assumption.
  destruct (status =? 0); reflexivity.
Qed.

Lemma RunningProgram_wait_unwinding_mk (this : RunningProgram) (n : nat)
    (status : Z) (rest : list wait_answer) (k : sysret) (krest : list sysret)
    (irest : list bool) (sa : list sysret) (da : list drain_answer) (en : Z)
    (un : nat) (tr : list event) :
  pid (rp_pid this) <> -1 ->
  RunningProgram_wait this
    (mkWorld (interrupted_waits n ++ WaitReturned (pid (rp_pid this)) status :: rest)
             (k :: krest) (repeat false n ++ irest) sa da en (S un) tr) =
  (Ret tt, set_rp_pid (set_pid (-1) (rp_pid this)) this,
   mkWorld rest krest irest sa da (retry_errno n (kill_errno k en)) (S un)
     (tr ++ signal_events (rp_pid this) k en
         ++ retry_events n (pid (rp_pid this))
         ++ [EvWaitpid (pid (rp_pid this)) (WaitReturned (pid (rp_pid this)) status);
             EvDebug ("killed subprocess " ++ program this
                      ++ " during exception handling")])).
Proof.
  intros Hown.
  unfold RunningProgram_wait, bind, this_, world_, on_pid, zoom.
  cbn [uncaught_exceptions Nat.eqb].
  rewrite Pid_kill_done_mk by assumption.
  unfold debug, log. world_simpl. rewrite <- !app_assoc. reflexivity.
Qed.

(** The events of a successful [runProgram2] with captured output. *)
Lemma runProgram2_spawns {O} (child : M O unit) (options : RunOptions) (o : O)
    (rfd p : Z) (wa : list wait_answer) (ka : list sysret) (ia : list bool)
    (srest : list sysret) (da : list drain_answer) (en : Z) (un : nat)
    (tr : list event) :
  captureStdout options = true -> rfd <> -1 -> p <> 0 -> p <> -1 ->
  runProgram2 child options o
    (mkWorld wa ka (false :: ia) (Returned rfd :: Returned p :: srest) da en un tr) =
  (Ret (mkRunningProgram (ro_program options) (Pid_of p) (Some rfd)), o,
   mkWorld wa ka ia srest da en un
     (tr ++ [EvCheckInterrupt; EvSys SysPipe]
         ++ (if isInteractive options then [EvLoggerPause] else [])
         ++ [EvSys SysFork; EvCloseWriteSide]
         ++ (if isInteractive options then [EvLoggerResume] else []))).
Proof.
  intros Hc Hr Hp0 Hp1.
  unfold runProgram2, checkInterrupt, Pipe_create, sys, throw_SysError.
  rewrite Hc. run_glue. cbn [rv note_errno]. run_glue.
  replace (rfd =? -1) with false by (symmetry; apply Z.eqb_neq; assumption).
  destruct (isInteractive options); run_glue;
    rewrite startProcess_fork_parent by (reflexivity || assumption);
    run_glue; rewrite <- !app_assoc; reflexivity.
Qed.

Lemma RunningProgram_wait_fails_mk (this : RunningProgram) (n : nat) (e : Z)
    (rest : list wait_answer) (ka : list sysret) (irest : list bool)
    (sa : list sysret) (da : list drain_answer) (en : Z) (tr : list event) :
  pid (rp_pid this) <> -1 -> e <> EINTR ->
  RunningProgram_wait this
    (mkWorld (interrupted_waits n ++ WaitFailed e :: rest) ka
             (repeat false n ++ irest) sa da en 0 tr) =
  (Throw (SysError e ("cannot get exit status of PID "
                      ++ fmt_int (pid (rp_pid this)))),
   this,
   mkWorld rest ka irest sa da e 0
     (tr ++ retry_events n (pid (rp_pid this))
         ++ [EvWaitpid (pid (rp_pid this)) (WaitFailed e)])).
Proof.
  intros Hown He.
  unfold RunningProgram_wait, bind, this_, world_, on_pid, zoom.
  cbn [uncaught_exceptions Nat.eqb].
  rewrite Pid_wait_fails_mk by assumption.
  destruct this as [prog h out]. reflexivity.
Qed.

Lemma RunningProgram_wait_interrupted_mk (this : RunningProgram) (n : nat)
    (rest : list wait_answer) (ka : list sysret) (irest : list bool)
    (sa : list sysret) (da : list drain_answer) (en : Z) (tr : list event) :
  pid (rp_pid this) <> -1 ->
  RunningProgram_wait this
    (mkWorld (interrupted_waits n ++ WaitFailed EINTR :: rest) ka
             (repeat false n ++ true :: irest) sa da en 0 tr) =
  (Throw (Interrupted "interrupted by the user"), this,
   mkWorld rest ka irest sa da EINTR 0
     (tr ++ retry_events n (pid (rp_pid this))
         ++ [EvWaitpid (pid (rp_pid this)) (WaitFailed EINTR); EvCheckInterrupt])).
Proof.
  intros Hown.
  unfold RunningProgram_wait, bind, this_, world_, on_pid, zoom.
  cbn [uncaught_exceptions Nat.eqb].
  rewrite Pid_wait_interrupted_mk by assumption.
  destruct this as [prog h out]. reflexivity.
Qed.

(** The pair-returning [runProgram] entered with an exception in flight, on
    a child that ran. *)
Lemma runProgram_pair_unwinding_mk {O} (child : forall S, M S unit)
    (options : RunOptions) (o : O) (p rfd : Z) (n : nat) (status : Z)
    (bytes : string) (rest : list wait_answer) (k : sysret)
    (krest : list sysret) (irest : list bool) (srest : list sysret)
    (drest : list drain_answer) (en : Z) (un : nat) (tr : list event) :
  p <> 0 -> p <> -1 -> rfd <> -1 ->
  runProgram_pair child options o
    (mkWorld (interrupted_waits n ++ WaitReturned p status :: rest) (k :: krest)
       (false :: repeat false n ++ irest)
       (Returned rfd :: Returned p :: srest) (DrainOk bytes :: drest) en (S un) tr) =
  (Ret (0, bytes), o,
   mkWorld rest krest irest srest drest (retry_errno n (kill_errno k en)) (S un)
     (tr ++ [EvCheckInterrupt; EvSys SysPipe]
         ++ (if isInteractive options then [EvLoggerPause] else [])
         ++ [EvSys SysFork; EvCloseWriteSide]
         ++ (if isInteractive options then [EvLoggerResume] else [])
         ++ [EvDrain] ++ signal_events (Pid_of p) k en
         ++ retry_events n p
         ++ [EvWaitpid p (WaitReturned p status);
             EvDebug ("killed subprocess " ++ ro_program options
                      ++ " during exception handling")])).
Proof.
  intros Hp0 Hp1 Hr.
  unfold runProgram_pair, try_catch. unfold bind at 1.
  rewrite runProgram2_spawns by (reflexivity || assumption).
  unfold scoped, Finally. unfold bind at 1. unfold drain.
  cbn [drain_answers]. world_simpl.
  unfold bind at 1. unfold this_ at 1. unfold assign at 1.
  unfold zoom. cbn [fst].
  pose proof (RunningProgram_wait_unwinding_mk
                (mkRunningProgram (ro_program (set_captureStdout true options))
                   (Pid_of p) (Some rfd))
                n status rest k krest irest srest drest en un) as Hw.
  cbn [rp_pid pid Pid_of] in Hw. rewrite Hw by assumption. clear Hw.
  rewrite RunningProgram_dtor_empty by reflexivity.
  cbn [rl_status rl_stdout isInteractive set_captureStdout ro_program program].
  rewrite <- !app_assoc. reflexivity.
Qed.

(** C9 (as amended).  The pair-returning [runProgram] creates the pipe
    whatever [captureStdout] says and drains the output.  Called with no
    exception in flight, when the child ran it returns the raw status with
    the buffer for every status, zero or not, without throwing; a failure to
    create the pipe or to fork is not an execution error and reaches the
    caller; so does a failure while draining, after the child has been
    killed and reaped.  Called with an exception in flight, it kills the
    child once the output is drained and hands back status 0 with the
    buffer, whatever status the child ended with.  An error of the wait for
    the child itself, a failure other than EINTR or a requested
    cancellation, does not reach the caller: the [RunningProgram], still
    owning its process, is destroyed while that error unwinds and the
    process image ends there. *)
Theorem runProgram_pair_hands_back_status {O} (child : forall S, M S unit)
    (options : RunOptions) (o : O) :
  let pause := if isInteractive options then [EvLoggerPause] else [] in
  let resume := if isInteractive options then [EvLoggerResume] else [] in
  (forall (p rfd : Z) (n : nat) (status : Z) (bytes : string)
          (rest : list wait_answer) (ka : list sysret) (irest : list bool)
          (srest : list sysret) (drest : list drain_answer) (en : Z)
          (tr : list event),
     p <> 0 -> p <> -1 -> rfd <> -1 ->
     exists w' : World,
       runProgram_pair child options o
         (mkWorld (interrupted_waits n ++ WaitReturned p status :: rest) ka
            (false :: repeat false n ++ irest)
            (Returned rfd :: Returned p :: srest) (DrainOk bytes :: drest) en 0 tr) =
       (Ret (status, bytes), o, w')
       /\ trace w' =
          (tr ++ [EvCheckInterrupt; EvSys SysPipe] ++ pause
              ++ [EvSys SysFork; EvCloseWriteSide] ++ resume
              ++ [EvDrain] ++ retry_events n p
              ++ [EvWaitpid p (WaitReturned p status)])%list)
  /\ (forall (e : Z) (wa : list wait_answer) (ka : list sysret) (ia : list bool)
          (srest : list sysret) (da : list drain_answer) (en : Z) (un : nat)
          (tr : list event),
     exists w' : World,
       runProgram_pair child options o
         (mkWorld wa ka (false :: ia) (Failed e :: srest) da en un tr) =
       (Throw (SysError e "creating pipe"), o, w')
       /\ trace w' = (tr ++ [EvCheckInterrupt; EvSys SysPipe])%list)
  /\ (forall (rfd e : Z) (wa : list wait_answer) (ka : list sysret) (ia : list bool)
          (srest : list sysret) (da : list drain_answer) (en : Z) (un : nat)
          (tr : list event),
     rfd <> -1 ->
     exists w' : World,
       runProgram_pair child options o
         (mkWorld wa ka (false :: ia) (Returned rfd :: Failed e :: srest) da en un tr) =
       (Throw (SysError e "unable to fork"), o, w')
       /\ trace w' =
          (tr ++ [EvCheckInterrupt; EvSys SysPipe] ++ pause ++ [EvSys SysFork]
              ++ resume)%list)
  /\ (forall (p rfd : Z) (n : nat) (status : Z) (e : exn)
          (rest : list wait_answer) (k : sysret) (krest : list sysret)
          (irest : list bool) (srest : list sysret) (drest : list drain_answer)
          (en : Z) (tr : list event),
     p <> 0 -> p <> -1 -> rfd <> -1 ->
     match e with ExecError _ _ => False | _ => True end ->
     exists w' : World,
       runProgram_pair child options o
         (mkWorld (interrupted_waits n ++ WaitReturned p status :: rest) (k :: krest)
            (false :: repeat false n ++ irest)
            (Returned rfd :: Returned p :: srest) (DrainThrows e :: drest) en 0 tr) =
       (Throw e, o, w')
       /\ trace w' =
          (tr ++ [EvCheckInterrupt; EvSys SysPipe] ++ pause
              ++ [EvSys SysFork; EvCloseWriteSide] ++ resume
              ++ [EvDrain] ++ signal_events (Pid_of p) k en
              ++ retry_events n p
              ++ [EvWaitpid p (WaitReturned p status);
                  EvDebug ("killed subprocess " ++ ro_program options
                           ++ " during exception handling")])%list)
  /\ (forall (p rfd : Z) (n : nat) (status : Z) (bytes : string)
          (rest : list wait_answer) (k : sysret) (krest : list sysret)
          (irest : list bool) (srest : list sysret) (drest : list drain_answer)
          (en : Z) (un : nat) (tr : list event),
     p <> 0 -> p <> -1 -> rfd <> -1 ->
     exists w' : World,
       runProgram_pair child options o
         (mkWorld (interrupted_waits n ++ WaitReturned p status :: rest) (k :: krest)
            (false :: repeat false n ++ irest)
            (Returned rfd :: Returned p :: srest) (DrainOk bytes :: drest)
            en (S un) tr) =
       (Ret (0, bytes), o, w')
       /\ trace w' =
          (tr ++ [EvCheckInterrupt; EvSys SysPipe] ++ pause
              ++ [EvSys SysFork; EvCloseWriteSide] ++ resume
              ++ [EvDrain] ++ signal_events (Pid_of p) k en
              ++ retry_events n p
              ++ [EvWaitpid p (WaitReturned p status);
                  EvDebug ("killed subprocess " ++ ro_program options
                           ++ " during exception handling")])%list)
  /\ (forall (p rfd : Z) (n : nat) (e : Z) (bytes : string)
          (rest : list wait_answer) (ka : list sysret) (irest : list bool)
          (srest : list sysret) (drest : list drain_answer) (en : Z)
          (tr : list event),
     p <> 0 -> p <> -1 -> rfd <> -1 -> e <> EINTR ->
     exists w' : World,
       runProgram_pair child options o
         (mkWorld (interrupted_waits n ++ WaitFailed e :: rest) ka
            (false :: repeat false n ++ irest)
            (Returned rfd :: Returned p :: srest) (DrainOk bytes :: drest) en 0 tr) =
       (Halt (AssertionFailed "destroying un-wait()ed running process"), o, w')
       /\ trace w' =
          (tr ++ [EvCheckInterrupt; EvSys SysPipe] ++ pause
              ++ [EvSys SysFork; EvCloseWriteSide] ++ resume
              ++ [EvDrain] ++ retry_events n p
              ++ [EvWaitpid p (WaitFailed e)])%list)
  /\ (forall (p rfd : Z) (n : nat) (bytes : string)
          (rest : list wait_answer) (ka : list sysret) (irest : list bool)
          (srest : list sysret) (drest : list drain_answer) (en : Z)
          (tr : list event),
     p <> 0 -> p <> -1 -> rfd <> -1 ->
     exists w' : World,
       runProgram_pair child options o
         (mkWorld (interrupted_waits n ++ WaitFailed EINTR :: rest) ka
            (false :: repeat false n ++ true :: irest)
            (Returned rfd :: Returned p :: srest) (DrainOk bytes :: drest) en 0 tr) =
       (Halt (AssertionFailed "destroying un-wait()ed running process"), o, w')
       /\ trace w' =
          (tr ++ [EvCheckInterrupt; EvSys SysPipe] ++ pause
              ++ [EvSys SysFork; EvCloseWriteSide] ++ resume
              ++ [EvDrain] ++ retry_events n p
              ++ [EvWaitpid p (WaitFailed EINTR); EvCheckInterrupt])%list).
Proof.
  intros pause resume. subst pause resume.
  split; [|split; [|split; [|split; [|split; [|split]]]]].
  - intros p rfd n status bytes rest ka irest srest drest en tr Hp0 Hp1 Hr.
    unfold runProgram_pair, try_catch. unfold bind at 1.
    rewrite runProgram2_spawns by (reflexivity || assumption).
    unfold scoped, Finally. unfold bind at 1. unfold drain.
    cbn [drain_answers]. world_simpl.
    unfold bind at 1. unfold this_ at 1. unfold assign at 1.
    unfold zoom. cbn [fst].
    pose proof (RunningProgram_wait_mk
                  (mkRunningProgram (ro_program (set_captureStdout true options))
                     (Pid_of p) (Some rfd))
                  n status rest ka irest srest drest en) as Hwait.
    cbn [rp_pid pid Pid_of] in Hwait. rewrite Hwait by assumption. clear Hwait.
    destruct (status =? 0) eqn:Es.
    + apply Z.eqb_eq in Es. subst status.
      rewrite RunningProgram_dtor_empty by reflexivity.
      cbn [rl_status rl_stdout].
      eexists. split; [reflexivity|]. cbn [trace isInteractive set_captureStdout].
      rewrite <- !app_assoc. reflexivity.
    + world_simpl. rewrite RunningProgram_dtor_empty by reflexivity.
      run_glue. cbn [rl_status rl_stdout].
      eexists. split; [reflexivity|]. cbn [trace isInteractive set_captureStdout].
      rewrite <- !app_assoc. reflexivity.
  - intros e wa ka ia srest da en un tr.
    unfold runProgram_pair, runProgram2, checkInterrupt, Pipe_create, sys,
      throw_SysError.
    cbn [captureStdout set_captureStdout]. run_glue. cbn [rv note_errno]. run_glue.
    cbn [Z.eqb]. run_glue.
    eexists. split; [reflexivity|]. cbn [trace]. rewrite <- !app_assoc. reflexivity.
  - intros rfd e wa ka ia srest da en un tr Hr.
    unfold runProgram_pair, runProgram2, checkInterrupt, Pipe_create, sys,
      throw_SysError.
    cbn [captureStdout set_captureStdout isInteractive]. run_glue.
    cbn [rv note_errno]. run_glue.
    replace (rfd =? -1) with false by (symmetry; apply Z.eqb_neq; assumption).
    destruct (isInteractive options); run_glue;
      rewrite startProcess_fork_fails by reflexivity; run_glue;
      (eexists; split; [reflexivity|]); cbn [trace];
      rewrite <- !app_assoc; reflexivity.
  - intros p rfd n status e rest k krest irest srest drest en tr Hp0 Hp1 Hr He.
    unfold runProgram_pair, try_catch. unfold bind at 1.
    rewrite runProgram2_spawns by (reflexivity || assumption).
    unfold scoped, Finally. unfold bind at 1. unfold drain.
    cbn [drain_answers]. world_simpl.
    unfold zoom. cbn [fst].
    pose proof (RunningProgram_wait_unwinding_mk
                  (mkRunningProgram (ro_program (set_captureStdout true options))
                     (Pid_of p) (Some rfd))
                  n status rest k krest irest srest drest en 0) as Hwait.
    cbn [rp_pid pid Pid_of] in Hwait. rewrite Hwait by assumption. clear Hwait.
    world_simpl. rewrite RunningProgram_dtor_empty by reflexivity.
    world_simpl.
    destruct e; try contradiction;
      (eexists; split; [reflexivity|]);
      cbn [trace isInteractive set_captureStdout ro_program program];
      rewrite <- !app_assoc; reflexivity.
  - intros p rfd n status bytes rest k krest irest srest drest en un tr Hp0 Hp1 Hr.
    rewrite runProgram_pair_unwinding_mk by assumption.
    eexists. split; reflexivity.
  - intros p rfd n e bytes rest ka irest srest drest en tr Hp0 Hp1 Hr He.
    unfold runProgram_pair, try_catch. unfold bind at 1.
    rewrite runProgram2_spawns by (reflexivity || assumption).
    unfold scoped, Finally. unfold bind at 1. unfold drain.
    cbn [drain_answers]. world_simpl.
    unfold bind at 1. unfold this_ at 1. unfold assign at 1.
    unfold zoom. cbn [fst].
    pose proof (RunningProgram_wait_fails_mk
                  (mkRunningProgram (ro_program (set_captureStdout true options))
                     (Pid_of p) (Some rfd))
                  n e rest ka irest srest drest en) as Hwait.
    cbn [rp_pid pid Pid_of] in Hwait. rewrite Hwait by assumption. clear Hwait.
    world_simpl.
    rewrite RunningProgram_dtor_owning by (cbn [rp_pid pid Pid_of]; assumption).
    eexists. split; [reflexivity|]. cbn [trace isInteractive set_captureStdout].
    rewrite <- !app_assoc. reflexivity.
  - intros p rfd n bytes rest ka irest srest drest en tr Hp0 Hp1 Hr.
    unfold runProgram_pair, try_catch. unfold bind at 1.
    rewrite runProgram2_spawns by (reflexivity || assumption).
    unfold scoped, Finally. unfold bind at 1. unfold drain.
    cbn [drain_answers]. world_simpl.
    unfold bind at 1. unfold this_ at 1. unfold assign at 1.
    unfold zoom. cbn [fst].
    pose proof (RunningProgram_wait_interrupted_mk
                  (mkRunningProgram (ro_program (set_captureStdout true options))
                     (Pid_of p) (Some rfd))
                  n rest ka irest srest drest en) as Hwait.
    cbn [rp_pid pid Pid_of] in Hwait. rewrite Hwait by assumption. clear Hwait.
    world_simpl.
    rewrite RunningProgram_dtor_owning by (cbn [rp_pid pid Pid_of]; assumption).
    eexists. split; [reflexivity|]. cbn [trace isInteractive set_captureStdout].
    rewrite <- !app_assoc. reflexivity.
Qed.

(** ** More on the handle *)

(** [kill()] goes by the handle's settings: with a process group of its own
    the signal goes to the group, and the signal is the one last set.  The
    process is reaped and its status returned. *)
Theorem Pid_kill_uses_settings (this : Pid) (b : bool) (s : Z) (w : World)
    (n : nat) (status : Z) (rest : list wait_answer) (krest : list sysret)
    (irest : list bool)
    (Hown : pid this <> -1)
    (Hk : kill_answers w = Returned 0 :: krest)
    (Hw : waitpid_answers w =
          (interrupted_waits n ++ WaitReturned (pid this) status :: rest)%list)
    (Hi : interrupt_answers w = (repeat false n ++ irest)%list) :
  exists w' : World,
    (Pid_setSeparatePG b ;; Pid_setKillSignal s ;; Pid_kill) this w =
    (Ret status, mkPid (-1) b s, w')
    /\ trace w' =
       (trace w
          ++ [EvDebug ("killing process " ++ fmt_int (pid this));
              EvKill (if b then - pid this else pid this) s]
          ++ retry_events n (pid this)
          ++ [EvWaitpid (pid this) (WaitReturned (pid this) status)])%list.
Proof.
  destruct w as [wa ka ia sa da en un tr]. cbn in Hk, Hw, Hi. subst wa ka ia.
  destruct this as [p sp ks]. cbn [pid] in *.
  unfold Pid_setSeparatePG, Pid_setKillSignal. run_glue.
  cbn [pid separatePG killSignal].
  pose proof (Pid_kill_done_mk (mkPid p b s) n status rest (Returned 0) krest
                irest sa da en un tr Hown) as Hkill.
  cbn [pid] in Hkill. rewrite Hkill.
  eexists. split; [reflexivity|]. reflexivity.
Qed.

(** When the signal cannot be delivered, [kill()] logs the system error and
    goes on to wait all the same: the failure of the delivery is never
    thrown, and the status of the process is still returned. *)
Theorem Pid_kill_delivery_failure_is_logged (this : Pid) (w : World) (e : Z)
    (n : nat) (status : Z) (rest : list wait_answer) (krest : list sysret)
    (irest : list bool)
    (Hown : pid this <> -1)
    (Hk : kill_answers w = Failed e :: krest)
    (Hw : waitpid_answers w =
          (interrupted_waits n ++ WaitReturned (pid this) status :: rest)%list)
    (Hi : interrupt_answers w = (repeat false n ++ irest)%list) :
  exists w' : World,
    Pid_kill this w = (Ret status, set_pid (-1) this, w')
    /\ trace w' =
       (trace w
          ++ [EvDebug ("killing process " ++ fmt_int (pid this));
              EvKill (if separatePG this then - pid this else pid this)
                     (killSignal this);
              EvLogError e ("killing process " ++ fmt_int (pid this))]
          ++ retry_events n (pid this)
          ++ [EvWaitpid (pid this) (WaitReturned (pid this) status)])%list.
Proof.
  destruct w as [wa ka ia sa da en un tr]. cbn in Hk, Hw, Hi. subst wa ka ia.
  rewrite Pid_kill_done_mk by assumption.
  eexists. split; [reflexivity|]. reflexivity.
Qed.

(** The destructor of an Owning handle kills the process and reaps it; when
    the reaping fails with an error other than EINTR the destructor throws
    that system error and the handle is still Owning. *)
Theorem Pid_dtor_kills_and_reaps (this : Pid) (w : World) (n : nat)
    (a : wait_answer) (rest : list wait_answer) (k : sysret)
    (krest : list sysret) (irest : list bool)
    (Hown : pid this <> -1)
    (Hk : kill_answers w = k :: krest)
    (Hw : waitpid_answers w = (interrupted_waits n ++ a :: rest)%list)
    (Hi : interrupt_answers w = (repeat false n ++ irest)%list) :
  (forall status : Z, a = WaitReturned (pid this) status ->
     exists w' : World,
       Pid_dtor this w = (Ret tt, set_pid (-1) this, w')
       /\ trace w' =
          (trace w ++ signal_events this k (errno w) ++ retry_events n (pid this)
             ++ [EvWaitpid (pid this) a])%list)
  /\ (forall e : Z, a = WaitFailed e -> e <> EINTR ->
     exists w' : World,
       Pid_dtor this w =
       (Throw (SysError e ("cannot get exit status of PID " ++ fmt_int (pid this))),
        this, w')
       /\ trace w' =
          (trace w ++ signal_events this k (errno w) ++ retry_events n (pid this)
             ++ [EvWaitpid (pid this) a])%list).
Proof.
  destruct w as [wa ka ia sa da en un tr]. cbn in Hk, Hw, Hi. subst wa ka ia.
  rewrite Pid_dtor_owning by assumption.
  split.
  - intros status ->. rewrite Pid_kill_done_mk by assumption.
    eexists. split; [reflexivity|]. reflexivity.
  - intros e -> He.
    rewrite Pid_kill_owning by (try assumption; discriminate).
    rewrite Pid_wait_owning by assumption.
    unfold after_signal, signal_events, note_errno. world_simpl.
    assert (Hstep : forall en0 tr0,
      wait_loop (interrupted_waits n ++ WaitFailed e :: rest) this
        (mkWorld (interrupted_waits n ++ WaitFailed e :: rest) krest
                 (repeat false n ++ irest) sa da en0 un tr0) =
      (Throw (SysError e ("cannot get exit status of PID " ++ fmt_int (pid this))),
       this,
       mkWorld rest krest irest sa da e un
         (tr0 ++ retry_events n (pid this) ++ [EvWaitpid (pid this) (WaitFailed e)]))).
    { intros en0 tr0. rewrite wait_loop_retries_mk by assumption.
      cbn [wait_loop wa_res].
      replace (-1 =? pid this) with false by (symmetry; apply Z.eqb_neq; lia).
      unfold sys_waitpid, throw_SysError. world_simpl.
      replace (e =? EINTR) with false by (symmetry; apply Z.eqb_neq; assumption).
      cbn [negb]. rewrite <- app_assoc. reflexivity. }
    destruct k as [v | ke]; cbn [rv kill_errno]; world_simpl.
    + destruct (negb (v =? 0)); world_simpl; rewrite Hstep;
        (eexists; split; [reflexivity|]); cbn [trace];
        rewrite <- !app_assoc; reflexivity.
    + cbn [Z.eqb negb]. world_simpl. rewrite Hstep.
      eexists. split; [reflexivity|]. cbn [trace].
      rewrite <- !app_assoc. reflexivity.
Qed.

(** [release()] detaches: it returns the process id and asks nothing of the
    OS, and the destructor that follows sends no signal and waits for
    nothing; [wait()] and [kill()] on the released handle stop at their
    assertion. *)
Theorem Pid_release_detaches (this : Pid) (w : World) :
  (p <- Pid_release ;; Pid_dtor ;; ret p) this w =
    (Ret (pid this), set_pid (-1) this, w)
  /\ (Pid_release ;; Pid_wait) this w =
     (Halt (AssertionFailed "pid != -1"), set_pid (-1) this, w)
  /\ (Pid_release ;; Pid_kill) this w =
     (Halt (AssertionFailed "pid != -1"), set_pid (-1) this, w).
Proof.
  unfold Pid_release. run_glue.
  rewrite Pid_dtor_empty, Pid_wait_empty, Pid_kill_empty by reflexivity.
  repeat split.
Qed.

(** ** More on the spawner *)

(** A handler that catches everything and does not throw itself leaves no
    exception. *)
Lemma try_catch_all_no_throw {O A} (body : M O A) (handler : exn -> M O A)
    (o : O) (w : World) :
  (forall e o1 w1,
     match handler e o1 w1 with
     | (Throw _, _, _) => False
     | _ => True
     end) ->
  match try_catch body (fun _ => true) handler o w with
  | (Throw _, _, _) => False
  | _ => True
  end.
Proof.
  intros Hh. unfold try_catch.
  destruct (body o w) as [[[a | e | h |] o1] w1]; try exact I. apply Hh.
Qed.

(** Whatever the child procedure does and whatever the OS answers, the
    wrapper neither returns nor throws: control never comes back from it. *)
Lemma wrapper_never_returns {O} (options : ProcessOptions) (fun_ : M O unit)
    (o : O) (w : World) :
  match wrapper options fun_ o w with
  | (Ret _, _, _) | (Throw _, _, _) => False
  | _ => True
  end.
Proof.
  unfold wrapper. unfold bind at 1. unfold log at 1. unfold bind at 1.
  match goal with
  | |- context [try_catch ?B _ ?H ?o1 ?w1] =>
      pose proof (try_catch_all_no_throw B H o1 w1) as Hcatch;
      destruct (try_catch B (fun _ => true) H o1 w1) as [[[u | e | h |] o2] w2]
  end.
  - destruct (runExitHandlers options); exact I.
  - apply Hcatch. intros e0 o3 w3.
    destruct (is_std_exception e0); [|exact I].
    apply try_catch_all_no_throw. intros; exact I.
  - exact I.
  - exact I.
Qed.

(** In the child (the side of [fork] that gets 0) [startProcess] never comes
    back to its caller: it neither returns a handle nor lets an exception of
    the child procedure through, whatever that procedure does. *)
Theorem startProcess_child_never_returns {O} (fun_ : M O unit)
    (options : ProcessOptions) (o : O) (w : World) (srest : list sysret)
    (Hfork : cloneFlags options = 0)
    (Hchild : setup_answers w = Returned 0 :: srest) :
  match startProcess fun_ options o w with
  | (Ret _, _, _) | (Throw _, _, _) => False
  | _ => True
  end.
Proof.
  destruct w as [wa ka ia sa da en un tr]. cbn in Hchild. subst sa.
  rewrite startProcess_fork_child by assumption.
  pose proof (wrapper_never_returns options fun_ o
                (mkWorld wa ka ia srest da en un (tr ++ [EvSys SysFork]))) as H.
  destruct (wrapper options fun_ o _) as [[[u | e | h |] o1] w1];
    try contradiction; exact I.
Qed.

(** In the parent [startProcess] does not run the child procedure: a fork
    that fails throws the system error "unable to fork" with the error number
    of the fork and yields no handle; a fork that succeeds yields the handle
    of exactly the process id returned, with the forceful kill signal. *)
Theorem startProcess_parent_outcome {O} (fun_ : M O unit)
    (options : ProcessOptions) (o : O) (w : World) (a : sysret)
    (srest : list sysret)
    (Hfork : cloneFlags options = 0)
    (Hparent : setup_answers w = a :: srest)
    (Hnz : rv a <> 0) :
  exists w' : World,
    startProcess fun_ options o w =
    (match a with
     | Failed e => Throw (SysError e "unable to fork")
     | Returned p =>
         if p =? -1 then Throw (SysError (errno w) "unable to fork")
         else Ret (mkPid p separatePG_default SIGKILL)
     end, o, w')
    /\ trace w' = (trace w ++ [EvSys SysFork])%list
    /\ setup_answers w' = srest
    /\ kill_answers w' = kill_answers w
    /\ waitpid_answers w' = waitpid_answers w.
Proof.
  destruct w as [wa ka ia sa da en un tr]. cbn in Hparent. subst sa.
  destruct a as [p | e]; cbn [rv] in Hnz.
  - unfold startProcess, doFork, sys, throw_SysError. rewrite Hfork.
    cbn [Z.eqb negb]. run_glue. cbn [rv note_errno].
    replace (p =? 0) with false by (symmetry; apply Z.eqb_neq; assumption).
    cbn [negb]. run_glue.
    destruct (p =? -1); eexists; (split; [reflexivity|]); repeat split.
  - rewrite startProcess_fork_fails by assumption.
    eexists. split; [reflexivity|]. repeat split.
Qed.

(** When the death signal is asked for and cannot be armed, the child
    procedure is not run at all: the wrapper reports "setting death signal"
    on standard error and the child exits with status 1. *)
Theorem wrapper_death_signal_failure {O} (options : ProcessOptions)
    (fun_ : M O unit) (o : O) (w : World) (e : Z) (a : sysret)
    (srest : list sysret)
    (Hdie : dieWithParent options = true)
    (Hprctl : setup_answers w = Failed e :: a :: srest) :
  exists w' : World,
    wrapper options fun_ o w =
    (Halt (ProcessExit 1 (runExitHandlers options)), o, w')
    /\ trace w' =
       (trace w
          ++ [EvMakeSimpleLogger; EvSys (SysPrctlDeathSig SIGKILL);
              EvSys (SysWriteStderr
                       (errorPrefix options ++ "setting death signal" ++ newline))])%list
    /\ setup_answers w' = srest.
Proof.
  destruct w as [wa ka ia sa da en un tr]. cbn in Hprctl. subst sa.
  unfold wrapper, sys, throw_SysError. rewrite Hdie. run_glue.
  cbn [rv note_errno]. change (-1 =? -1) with true. run_glue.
  cbn [is_std_exception what]. run_glue.
  destruct a as [v | e']; cbn [rv note_errno]; run_glue;
    [destruct (v =? -1) |]; run_glue;
    destruct (runExitHandlers options); run_glue;
    (eexists; split; [reflexivity|]); cbn [trace setup_answers];
    rewrite <- ?app_assoc; split; reflexivity.
Qed.

(** The clone path gives its stack back on every outcome of [clone]: the
    stack of one MiB is mapped, the child is cloned with the flags asked for
    and SIGCHLD, and the stack is unmapped before the result of [clone] is
    looked at, so also when the clone failed and "unable to fork" is
    thrown. *)
Theorem startProcess_clone_releases_stack {O} (fun_ : M O unit)
    (options : ProcessOptions) (o : O) (w : World) (stack : Z) (c : sysret)
    (srest : list sysret)
    (Hflags : cloneFlags options <> 0)
    (Hvm : Z.land (cloneFlags options) CLONE_VM = 0)
    (Hstack : stack <> -1)
    (Hanswers : setup_answers w = Returned stack :: c :: srest)
    (Hparent : rv c <> 0) :
  exists w' : World,
    startProcess fun_ options o w =
    (match c with
     | Failed e => Throw (SysError e "unable to fork")
     | Returned p =>
         if p =? -1 then Throw (SysError (errno w) "unable to fork")
         else Ret (mkPid p separatePG_default SIGKILL)
     end, o, w')
    /\ trace w' =
       (trace w
          ++ [EvSys (SysMmap 1048576);
              EvSys (SysClone (Z.lor (cloneFlags options) SIGCHLD));
              EvMunmap])%list
    /\ setup_answers w' = srest.
Proof.
  destruct w as [wa ka ia sa da en un tr]. cbn in Hanswers. subst sa.
  unfold startProcess, sys, throw_SysError, assert_.
  replace (cloneFlags options =? 0) with false
    by (symmetry; apply Z.eqb_neq; assumption).
  rewrite Hvm. cbn [negb Z.eqb]. run_glue. cbn [rv note_errno].
  replace (stack =? -1) with false by (symmetry; apply Z.eqb_neq; assumption).
  run_glue. cbn [rv].
  replace (rv c =? 0) with false by (symmetry; apply Z.eqb_neq; assumption).
  cbn [negb]. run_glue.
  destruct c as [p | e]; cbn [rv note_errno]; run_glue.
  - destruct (p =? -1); run_glue; (eexists; split; [reflexivity|]);
      cbn [trace setup_answers]; rewrite <- !app_assoc; split; reflexivity.
  - change (-1 =? -1) with true. run_glue.
    eexists. split; [reflexivity|].
    cbn [trace setup_answers]. rewrite <- !app_assoc. split; reflexivity.
Qed.

(** What the clone path refuses: flags that share the address space fail
    the assertion before anything is asked of the OS, and a stack that cannot
    be mapped throws "allocating stack" without any clone being attempted. *)
Theorem startProcess_clone_refusals {O} (fun_ : M O unit)
    (options : ProcessOptions) (o : O) (w : World)
    (Hflags : cloneFlags options <> 0) :
  (Z.land (cloneFlags options) CLONE_VM <> 0 ->
   startProcess fun_ options o w =
   (Halt (AssertionFailed "!(options.cloneFlags & CLONE_VM)"), o, w))
  /\ (forall (e : Z) (srest : list sysret),
        Z.land (cloneFlags options) CLONE_VM = 0 ->
        setup_answers w = Failed e :: srest ->
        exists w' : World,
          startProcess fun_ options o w =
          (Throw (SysError e "allocating stack"), o, w')
          /\ trace w' = (trace w ++ [EvSys (SysMmap 1048576)])%list
          /\ setup_answers w' = srest).
Proof.
  split.
  - intros Hvm. unfold startProcess, assert_.
    replace (cloneFlags options =? 0) with false
      by (symmetry; apply Z.eqb_neq; assumption).
    replace (Z.land (cloneFlags options) CLONE_VM =? 0) with false
      by (symmetry; apply Z.eqb_neq; assumption).
    reflexivity.
  - intros e srest Hvm Hanswers.
    destruct w as [wa ka ia sa da en un tr]. cbn in Hanswers. subst sa.
    unfold startProcess, sys, throw_SysError, assert_.
    replace (cloneFlags options =? 0) with false
      by (symmetry; apply Z.eqb_neq; assumption).
    rewrite Hvm. cbn [negb Z.eqb]. run_glue. cbn [rv note_errno].
    change (-1 =? -1) with true. run_glue.
    eexists. split; [reflexivity|]. split; reflexivity.
Qed.

(** ** More on the runner *)

(** A cancellation already requested when [runProgram2] is entered stops it
    at once: no pipe is created and nothing is spawned. *)
Theorem runProgram2_interrupted_at_entry {O} (child : M O unit)
    (options : RunOptions) (o : O) (w : World) (irest : list bool)
    (Hint : interrupt_answers w = true :: irest) :
  exists w' : World,
    runProgram2 child options o w =
    (Throw (Interrupted "interrupted by the user"), o, w')
    /\ trace w' = (trace w ++ [EvCheckInterrupt])%list
    /\ setup_answers w' = setup_answers w.
Proof.
  destruct w as [wa ka ia sa da en un tr]. cbn in Hint. subst ia.
  unfold runProgram2, checkInterrupt. run_glue.
  eexists. split; [reflexivity|]. split; reflexivity.
Qed.

(** Without [captureStdout] no pipe is created and the running program has
    no output stream.  For an interactive run the logger is paused before
    the fork and resumed after it, when the fork succeeds and when it
    fails. *)
Theorem runProgram2_without_capture {O} (child : M O unit)
    (options : RunOptions) (o : O) (w : World) (irest : list bool)
    (Hcap : captureStdout options = false)
    (Hint : interrupt_answers w = false :: irest) :
  let pause := if isInteractive options then [EvLoggerPause] else [] in
  let resume := if isInteractive options then [EvLoggerResume] else [] in
  (forall (p : Z) (srest : list sysret),
     p <> 0 -> p <> -1 -> setup_answers w = Returned p :: srest ->
     exists w' : World,
       runProgram2 child options o w =
       (Ret (mkRunningProgram (ro_program options)
               (mkPid p separatePG_default SIGKILL) None), o, w')
       /\ trace w' =
          (trace w ++ [EvCheckInterrupt] ++ pause
             ++ [EvSys SysFork; EvCloseWriteSide] ++ resume)%list
       /\ uncaught_exceptions w' = uncaught_exceptions w)
  /\ (forall (e : Z) (srest : list sysret),
     setup_answers w = Failed e :: srest ->
     exists w' : World,
       runProgram2 child options o w =
       (Throw (SysError e "unable to fork"), o, w')
       /\ trace w' =
          (trace w ++ [EvCheckInterrupt] ++ pause ++ [EvSys SysFork] ++ resume)%list
       /\ uncaught_exceptions w' = uncaught_exceptions w).
Proof.
  intros pause resume. subst pause resume.
  destruct w as [wa ka ia sa da en un tr]. cbn in Hint. subst ia.
  split.
  - intros p srest Hp0 Hp1 Hanswers. cbn in Hanswers. subst sa.
    unfold runProgram2, checkInterrupt. rewrite Hcap. run_glue.
    destruct (isInteractive options); run_glue;
      rewrite startProcess_fork_parent by (reflexivity || assumption);
      run_glue; (eexists; split; [reflexivity|]);
      cbn [trace uncaught_exceptions]; rewrite <- !app_assoc; split; reflexivity.
  - intros e srest Hanswers. cbn in Hanswers. subst sa.
    unfold runProgram2, checkInterrupt. rewrite Hcap. run_glue.
    destruct (isInteractive options); run_glue;
      rewrite startProcess_fork_fails by reflexivity;
      run_glue; (eexists; split; [reflexivity|]);
      cbn [trace uncaught_exceptions]; rewrite <- !app_assoc; split; reflexivity.
Qed.

Lemma runProgram_pair_ran_mk {O} (child : forall S, M S unit)
    (options : RunOptions) (o : O) (p rfd : Z) (n : nat) (status : Z)
    (bytes : string) (rest : list wait_answer) (ka : list sysret)
    (irest : list bool) (srest : list sysret) (drest : list drain_answer)
    (en : Z) (tr : list event) :
  p <> 0 -> p <> -1 -> rfd <> -1 ->
  runProgram_pair child options o
    (mkWorld (interrupted_waits n ++ WaitReturned p status :: rest) ka
       (false :: repeat false n ++ irest)
       (Returned rfd :: Returned p :: srest) (DrainOk bytes :: drest) en 0 tr) =
  (Ret (status, bytes), o,
   mkWorld rest ka irest srest drest (retry_errno n en) 0
     (tr ++ [EvCheckInterrupt; EvSys SysPipe]
         ++ (if isInteractive options then [EvLoggerPause] else [])
         ++ [EvSys SysFork; EvCloseWriteSide]
         ++ (if isInteractive options then [EvLoggerResume] else [])
         ++ [EvDrain] ++ retry_events n p
         ++ [EvWaitpid p (WaitReturned p status)])).
Proof.
  intros Hp0 Hp1 Hr.
  unfold runProgram_pair, try_catch. unfold bind at 1.
  rewrite runProgram2_spawns by (reflexivity || assumption).
  unfold scoped, Finally. unfold bind at 1. unfold drain.
  cbn [drain_answers]. world_simpl.
  unfold bind at 1. unfold this_ at 1. unfold assign at 1.
  unfold zoom. cbn [fst].
  pose proof (RunningProgram_wait_mk
                (mkRunningProgram (ro_program (set_captureStdout true options))
                   (Pid_of p) (Some rfd))
                n status rest ka irest srest drest en) as Hwait.
  cbn [rp_pid pid Pid_of] in Hwait. rewrite Hwait by assumption. clear Hwait.
  destruct (status =? 0) eqn:Es.
  - apply Z.eqb_eq in Es. subst status.
    rewrite RunningProgram_dtor_empty by reflexivity.
    cbn [rl_status rl_stdout isInteractive set_captureStdout].
    rewrite <- !app_assoc. reflexivity.
  - world_simpl. rewrite RunningProgram_dtor_empty by reflexivity.
    run_glue. cbn [rl_status rl_stdout isInteractive set_captureStdout].
    rewrite <- !app_assoc. reflexivity.
Qed.

(** The throwing [runProgram], when the program ran.  Called with no
    exception in flight it returns the drained output if the status is ok and
    otherwise throws the execution error that carries the raw status and
    names the program and the decoded status.  Called with an exception in
    flight the child is killed once its output is drained, the status seen
    is 0 and the output is returned whatever status the child ended with. *)
Theorem runProgram_throws_unless_ok {O} (child : forall S, M S unit)
    (program0 : string) (searchPath0 : bool) (args0 : list string)
    (isInteractive0 : bool) (o : O) (w : World) (p rfd : Z) (n : nat)
    (status : Z) (bytes : string) (rest : list wait_answer) (irest : list bool)
    (srest : list sysret) (drest : list drain_answer)
    (Hp0 : p <> 0) (Hp1 : p <> -1) (Hr : rfd <> -1)
    (Hint : interrupt_answers w = (false :: repeat false n ++ irest)%list)
    (Hsetup : setup_answers w = Returned rfd :: Returned p :: srest)
    (Hdrain : drain_answers w = DrainOk bytes :: drest)
    (Hwait : waitpid_answers w =
             (interrupted_waits n ++ WaitReturned p status :: rest)%list) :
  (uncaught_exceptions w = 0%nat ->
   exists w' : World,
     runProgram child program0 searchPath0 args0 isInteractive0 o w =
     (if statusOk status then Ret bytes
      else Throw (ExecError status
                    ("program '" ++ program0 ++ "' " ++ statusToString status)),
      o, w')
     /\ waitpid_answers w' = rest /\ drain_answers w' = drest)
  /\ (uncaught_exceptions w <> 0%nat ->
      forall (k : sysret) (krest : list sysret), kill_answers w = k :: krest ->
      exists w' : World,
        runProgram child program0 searchPath0 args0 isInteractive0 o w =
        (Ret bytes, o, w')
        /\ trace w' =
           (trace w ++ [EvCheckInterrupt; EvSys SysPipe]
              ++ (if isInteractive0 then [EvLoggerPause] else [])
              ++ [EvSys SysFork; EvCloseWriteSide]
              ++ (if isInteractive0 then [EvLoggerResume] else [])
              ++ [EvDrain] ++ signal_events (Pid_of p) k (errno w)
              ++ retry_events n p
              ++ [EvWaitpid p (WaitReturned p status);
                  EvDebug ("killed subprocess " ++ program0
                           ++ " during exception handling")])%list
        /\ waitpid_answers w' = rest /\ drain_answers w' = drest).
Proof.
  destruct w as [wa ka ia sa da en un tr].
  cbn in Hint, Hsetup, Hdrain, Hwait. subst wa ia sa da.
  split.
  - cbn [uncaught_exceptions]. intros ->.
    unfold runProgram. unfold bind at 1.
    rewrite runProgram_pair_ran_mk by assumption.
    cbn [fst snd].
    destruct (statusOk status); cbn [negb]; run_glue;
      eexists; (split; [reflexivity|]); split; reflexivity.
  - cbn [uncaught_exceptions kill_answers]. intros Hun k krest ->.
    destruct un as [| un]; [contradiction|].
    unfold runProgram. unfold bind at 1.
    rewrite runProgram_pair_unwinding_mk by assumption.
    cbn [fst snd]. replace (statusOk 0) with true by reflexivity.
    cbn [negb]. run_glue.
    eexists. split; [reflexivity|].
    cbn [trace errno waitpid_answers drain_answers isInteractive ro_program].
    repeat split.
Qed.

(** The pair-returning [runProgram] entered while an exception is in flight,
    as from a destructor during unwinding: its [wait()] takes the kill path,
    so the child is killed once its output is drained and the status handed
    back is 0, whatever the status the child ended with. *)
Theorem runProgram_pair_while_unwinding {O} (child : forall S, M S unit)
    (options : RunOptions) (o : O) (w : World) (p rfd : Z) (n : nat)
    (status : Z) (bytes : string) (rest : list wait_answer) (k : sysret)
    (krest : list sysret) (irest : list bool) (srest : list sysret)
    (drest : list drain_answer)
    (Hp0 : p <> 0) (Hp1 : p <> -1) (Hr : rfd <> -1)
    (Hun : uncaught_exceptions w <> 0%nat)
    (Hint : interrupt_answers w = (false :: repeat false n ++ irest)%list)
    (Hsetup : setup_answers w = Returned rfd :: Returned p :: srest)
    (Hdrain : drain_answers w = DrainOk bytes :: drest)
    (Hkill : kill_answers w = k :: krest)
    (Hwait : waitpid_answers w =
             (interrupted_waits n ++ WaitReturned p status :: rest)%list) :
  exists w' : World,
    runProgram_pair child options o w = (Ret (0, bytes), o, w')
    /\ trace w' =
       (trace w ++ [EvCheckInterrupt; EvSys SysPipe]
          ++ (if isInteractive options then [EvLoggerPause] else [])
          ++ [EvSys SysFork; EvCloseWriteSide]
          ++ (if isInteractive options then [EvLoggerResume] else [])
          ++ [EvDrain] ++ signal_events (Pid_of p) k (errno w)
          ++ retry_events n p
          ++ [EvWaitpid p (WaitReturned p status);
              EvDebug ("killed subprocess " ++ ro_program options
                       ++ " during exception handling")])%list.
Proof.
  destruct w as [wa ka ia sa da en un tr].
  cbn in Hun, Hint, Hsetup, Hdrain, Hkill, Hwait. subst wa ia sa da ka.
  destruct un as [| un]; [contradiction|].
  unfold runProgram_pair, try_catch. unfold bind at 1.
  rewrite runProgram2_spawns by (reflexivity || assumption).
  unfold scoped, Finally. unfold bind at 1. unfold drain.
  cbn [drain_answers]. world_simpl.
  unfold bind at 1. unfold this_ at 1. unfold assign at 1.
  unfold zoom. cbn [fst].
  pose proof (RunningProgram_wait_unwinding_mk
                (mkRunningProgram (ro_program (set_captureStdout true options))
                   (Pid_of p) (Some rfd))
                n status rest k krest irest srest drest en un) as Hw.
  cbn [rp_pid pid Pid_of] in Hw. rewrite Hw by assumption. clear Hw.
  rewrite RunningProgram_dtor_empty by reflexivity.
  cbn [rl_status rl_stdout].
  eexists. split; [reflexivity|].
  cbn [trace errno isInteractive set_captureStdout ro_program program].
  rewrite <- !app_assoc. reflexivity.
Qed.

(** ** More on [killUser] *)

(** When the helper cannot switch to the uid it broadcasts nothing: it
    reports "setting uid" and exits with status 1 without a single [kill],
    and the answers scripted for [kill] are left untouched. *)
Theorem killUser_helper_setuid_failure {O} (uid0 : Z) (o : O) (w : World)
    (e : Z) (a : sysret) (srest : list sysret)
    (Huid : uid0 <> 0)
    (Hsetup : setup_answers w =
              (Returned 0 :: (if dieWithParent_default then [Returned 0] else [])
                 ++ Failed e :: a :: srest)%list) :
  exists w' : World,
    killUser uid0 o w = (Halt (ProcessExit 1 runExitHandlers_default), o, w')
    /\ trace w' =
       (trace w
          ++ [EvDebug ("killing all processes running under uid '"
                       ++ fmt_int uid0 ++ "'");
              EvSys SysFork; EvMakeSimpleLogger]
          ++ (if dieWithParent_default
              then [EvSys (SysPrctlDeathSig SIGKILL)] else [])
          ++ [EvSys (SysSetuid uid0);
              EvSys (SysWriteStderr (errorPrefix_default ++ "setting uid" ++ newline))])%list
    /\ kill_answers w' = kill_answers w.
Proof.
  destruct w as [wa ka ia sa da en un tr]. cbn in Hsetup. subst sa.
  assert (Hz : (uid0 =? 0) = false) by (apply Z.eqb_neq; assumption).
  unfold killUser. unfold bind at 1. unfold debug, log.
  unfold bind at 1. unfold assert_. rewrite Hz. cbn [negb ret].
  unfold bind at 1. world_simpl.
  rewrite startProcess_fork_child by reflexivity.
  rewrite wrapper_outcome
    by (unfold child_setup_ok; cbn; destruct dieWithParent_default; reflexivity).
  unfold after_child_setup. cbn [dieWithParent ProcessOptions_default].
  destruct dieWithParent_default; world_simpl; cbn [app note_errno]; world_simpl;
    unfold killUser_child, sys, throw_SysError; run_glue;
    cbn [rv note_errno]; change (-1 =? -1) with true; run_glue;
    cbn [is_std_exception what runExitHandlers errorPrefix ProcessOptions_default];
    (eexists; split; [reflexivity|]);
    destruct a; cbn [note_errno]; world_simpl;
    rewrite <- !app_assoc; split; reflexivity.
Qed.

(** When the parent's wait for the helper fails with an error other than
    EINTR, the handle's destructor signals the helper during the unwinding
    and waits for it again.  If that second wait completes, the helper is
    reaped and the error of the first wait is the one that reaches the
    caller.  If it fails as well, with an error other than EINTR or with a
    cancellation requested at an EINTR, the exception that leaves the
    destructor during the unwinding ends the process: no error reaches the
    caller. *)
Theorem killUser_wait_failure_reaps_helper {O} (uid0 : Z) (o : O) (w : World)
    (p e : Z) (n1 n2 : nat) (a : wait_answer) (rest : list wait_answer)
    (k : sysret) (krest : list sysret) (irest : list bool) (srest : list sysret)
    (Huid : uid0 <> 0) (Hp0 : p <> 0) (Hp1 : p <> -1) (He : e <> EINTR)
    (Hsetup : setup_answers w = Returned p :: srest)
    (Hkill : kill_answers w = k :: krest)
    (Hint : interrupt_answers w = (repeat false n1 ++ repeat false n2 ++ irest)%list)
    (Hwait : waitpid_answers w =
             (interrupted_waits n1 ++ WaitFailed e
                :: interrupted_waits n2 ++ a :: rest)%list) :
  let events :=
    (trace w
       ++ [EvDebug ("killing all processes running under uid '"
                    ++ fmt_int uid0 ++ "'");
           EvSys SysFork]
       ++ retry_events n1 p ++ [EvWaitpid p (WaitFailed e)]
       ++ signal_events (Pid_of p) k e
       ++ retry_events n2 p)%list in
  (forall status : Z, a = WaitReturned p status ->
   exists w' : World,
     killUser uid0 o w =
     (Throw (SysError e ("cannot get exit status of PID " ++ fmt_int p)), o, w')
     /\ trace w' = (events ++ [EvWaitpid p (WaitReturned p status)])%list
     /\ uncaught_exceptions w' = uncaught_exceptions w
     /\ waitpid_answers w' = rest)
  /\ (forall e2 : Z, a = WaitFailed e2 -> e2 <> EINTR ->
      exists w' : World,
        killUser uid0 o w = (Halt Terminated, o, w')
        /\ trace w' = (events ++ [EvWaitpid p (WaitFailed e2)])%list
        /\ waitpid_answers w' = rest)
  /\ (forall irest' : list bool, a = WaitFailed EINTR -> irest = true :: irest' ->
      exists w' : World,
        killUser uid0 o w = (Halt Terminated, o, w')
        /\ trace w' =
           (events ++ [EvWaitpid p (WaitFailed EINTR); EvCheckInterrupt])%list
        /\ waitpid_answers w' = rest).
Proof.
  intros events. subst events.
  destruct w as [wa ka ia sa da en un tr].
  cbn in Hsetup, Hkill, Hint, Hwait. subst wa ia sa ka.
  assert (Hz : (uid0 =? 0) = false) by (apply Z.eqb_neq; assumption).
  pose proof (Pid_wait_fails_mk (Pid_of p) n1 e
                (interrupted_waits n2 ++ a :: rest)
                (k :: krest) (repeat false n2 ++ irest) srest da en un) as Hfail.
  cbn [pid Pid_of] in Hfail.
  split; [|split];
    (unfold killUser; unfold bind at 1; unfold debug, log;
     unfold bind at 1; unfold assert_; rewrite Hz; cbn [negb ret];
     unfold bind at 1; world_simpl;
     rewrite startProcess_fork_parent by (reflexivity || assumption);
     unfold scoped, bind, zoom; cbn [fst];
     rewrite Hfail by assumption; clear Hfail; world_simpl;
     rewrite Pid_dtor_owning by (cbn [pid Pid_of]; assumption)).
  - intros status ->.
    pose proof (Pid_kill_done_mk (Pid_of p) n2 status rest k krest irest srest da
                  e (S un)) as Hk.
    cbn [pid Pid_of] in Hk. rewrite Hk by assumption. clear Hk.
    world_simpl.
    eexists. split; [reflexivity|].
    cbn [trace uncaught_exceptions waitpid_answers].
    rewrite <- !app_assoc. repeat split.
  - intros e2 -> He2.
    pose proof (Pid_kill_fails_mk (Pid_of p) n2 e2 rest k krest irest srest da
                  e (S un)) as Hk.
    cbn [pid Pid_of] in Hk. rewrite Hk by assumption. clear Hk.
    eexists. split; [reflexivity|].
    cbn [trace waitpid_answers].
    rewrite <- !app_assoc. repeat split.
  - intros irest' -> ->.
    pose proof (Pid_kill_interrupted_mk (Pid_of p) n2 rest k krest irest' srest da
                  e (S un)) as Hk.
    cbn [pid Pid_of] in Hk. rewrite Hk by assumption. clear Hk.
    eexists. split; [reflexivity|].
    cbn [trace waitpid_answers].
    rewrite <- !app_assoc. repeat split.
Qed.

(** ** More on the decoder *)

(** The two decoders agree on every integer, also on those no OS reports:
    the status is ok exactly when its text is "succeeded". *)
Theorem statusOk_iff_succeeded (status : Z) :
  statusOk status = true <-> statusToString status = "succeeded".
Proof.
  unfold statusOk, statusToString.
  destruct (WIFEXITED status) eqn:Ee; cbn [negb orb andb].
  - destruct (WEXITSTATUS status =? 0); cbn [negb].
    + split; reflexivity.
    + split; [discriminate | cbn; discriminate].
  - split; [discriminate|].
    destruct (WIFSIGNALED status); [destruct strsignal|]; cbn; discriminate.
Qed.

(** ** The child's side of [runProgram2] *)

Lemma triple_bind {O A B} (P : O -> World -> Prop) (m : M O A)
    (Q : A -> O -> World -> Prop) (k : A -> M O B)
    (R : B -> O -> World -> Prop) (F : failure -> O -> World -> Prop) :
  triple P m Q F -> (forall a, triple (Q a) (k a) R F) ->
  triple P (bind m k) R F.
Proof.
  intros Hm Hk o w HP. unfold bind. specialize (Hm o w HP).
  destruct (m o w) as [[[a | e | h |] o1] w1]; try assumption.
  apply Hk. assumption.
Qed.

Lemma no_exec_no_verdict (options : RunOptions) (ws : Z) (w0 : World)
    (f : failure) (o : ChildOS) (w : World) :
  Forall (fun ca => is_exec (fst ca) = false) (child_calls o) ->
  child_verdict options ws w0 f o w.
Proof.
  intros Hno a Hin. rewrite Forall_forall in Hno. specialize (Hno _ Hin).
  cbn in Hno. unfold exec_call in Hno. destruct (searchPath options); discriminate.
Qed.

Lemma triple_skip (options : RunOptions) (ws : Z) (w0 : World)
    (pre : list child_call) :
  triple (child_invariant w0 pre) (ret tt)
         (fun _ => child_invariant w0 (pre ++ [])) (child_verdict options ws w0).
Proof. intros o w H. cbn. rewrite app_nil_r. exact H. Qed.

Lemma triple_child_do (options : RunOptions) (ws : Z) (w0 : World)
    (pre : list child_call) (c : child_call) :
  is_exec c = false ->
  triple (child_invariant w0 pre) (child_do c)
         (fun _ => child_invariant w0 (pre ++ [c])) (child_verdict options ws w0).
Proof.
  intros Hc o w (Hpre & Hok & Hno & Hw). unfold child_do. cbn.
  unfold child_invariant. cbn. rewrite map_app, Hpre. cbn.
  repeat split; try assumption.
  - apply Forall_app. split; [assumption|]. repeat constructor. cbn. lia.
  - apply Forall_app. split; [assumption|]. repeat constructor. assumption.
Qed.

Lemma triple_child_sys (options : RunOptions) (ws : Z) (w0 : World)
    (pre : list child_call) (c : child_call) (msg : string) :
  is_exec c = false ->
  triple (child_invariant w0 pre) (or_throw (child_sys c) msg)
         (fun _ => child_invariant w0 (pre ++ [c])) (child_verdict options ws w0).
Proof.
  intros Hc o w (Hpre & Hok & Hno & Hw).
  unfold or_throw, child_sys, bind, throw_SysError, ret.
  destruct (child_answers o) as [| a rest].
  - apply no_exec_no_verdict. assumption.
  - destruct (rv a =? -1) eqn:Ea.
    + apply no_exec_no_verdict. cbn.
      apply Forall_app. split; [assumption|]. repeat constructor. assumption.
    + apply Z.eqb_neq in Ea. unfold child_invariant. cbn.
      rewrite map_app, Hpre. cbn. repeat split.
      * apply Forall_app. split; [assumption|]. repeat constructor. assumption.
      * apply Forall_app. split; [assumption|]. repeat constructor. assumption.
      * destruct a as [v | e]; [cbn; assumption | cbn in Ea; contradiction].
Qed.

Lemma triple_child_exec (options : RunOptions) (ws : Z) (w0 : World) :
  triple (child_invariant w0 (planned_calls options ws))
         ((if searchPath options
           then child_exec (CExecvp (ro_program options)
                              (ro_program options :: args options))
           else child_exec (CExecv (ro_program options)
                              (ro_program options :: args options))) ;;
          throw_SysError ("executing '" ++ ro_program options ++ "'"))
         (fun (_ : unit) _ _ => False) (child_verdict options ws w0).
Proof.
  intros o w (Hpre & Hok & Hno & Hw). subst w.
  assert (Hexec :
    (if searchPath options
     then child_exec (CExecvp (ro_program options) (ro_program options :: args options))
     else child_exec (CExecv (ro_program options) (ro_program options :: args options)))
    = child_exec (exec_call options)).
  { unfold exec_call. destruct (searchPath options); reflexivity. }
  rewrite Hexec. unfold bind, child_exec, throw_SysError.
  assert (Hnot : forall a, ~ In (exec_call options, a) (child_calls o)).
  { intros a Hin. rewrite Forall_forall in Hno. specialize (Hno _ Hin).
    cbn in Hno. unfold exec_call in Hno. destruct (searchPath options); discriminate. }
  destruct (child_answers o) as [| [v | e] rest].
  - apply no_exec_no_verdict. assumption.
  - intros a Hin. cbn in Hin. apply in_app_or in Hin.
    destruct Hin as [Hin | [Hin | []]]; [exfalso; eapply Hnot; eassumption|].
    injection Hin as <-. cbn [child_calls].
    rewrite map_app, Hpre, removelast_last. cbn. repeat split; assumption.
  - intros a Hin. cbn in Hin. apply in_app_or in Hin.
    destruct Hin as [Hin | [Hin | []]]; [exfalso; eapply Hnot; eassumption|].
    injection Hin as <-. cbn [child_calls].
    rewrite map_app, Hpre, removelast_last. cbn. repeat split; assumption.
Qed.

Lemma planned_calls_steps (options : RunOptions) (ws : Z) :
  (((((((([] ++ match environment options with
                | Some env => [CReplaceEnv env] | None => [] end)
          ++ (if captureStdout options then [CDup2 ws STDOUT_FILENO] else []))
         ++ (if mergeStderrToStdout options
             then [CDup2 STDOUT_FILENO STDERR_FILENO] else []))
        ++ match chdir options with Some dir => [CChdir dir] | None => [] end)
       ++ match gid options with Some g => [CSetgid g] | None => [] end)
      ++ match gid options with Some _ => [CSetgroups 0] | None => [] end)
     ++ match uid options with Some u => [CSetuid u] | None => [] end)
    ++ [CRestoreProcessContext])%list
  = planned_calls options ws.
Proof.
  unfold planned_calls. rewrite <- !app_assoc. cbn [app].
  destruct (gid options); reflexivity.
Qed.

(** The child procedure of [runProgram2], whatever its options and whatever
    its calls are answered.  It never returns normally.  The program is
    exec'ed only after every call planned before it, the change of group,
    the clearing of the supplementary groups and the change of user among
    them, was made in order and succeeded; an exec that fails is thrown as
    the system error "executing 'program'", and one that succeeds does not
    come back. *)
Theorem runProgram2_child_execs_only_after_drops (options : RunOptions)
    (writeSide : Z) (answers : list sysret) (w : World) :
  let '(r, o', w') :=
    runProgram2_child options writeSide (mkChildOS answers []) w in
  match r with Ret _ => False | _ => True end
  /\ forall a : sysret,
       In (exec_call options, a) (child_calls o') ->
       map fst (child_calls o') =
         (planned_calls options writeSide ++ [exec_call options])%list
       /\ Forall (fun ca => rv (snd ca) <> -1) (removelast (child_calls o'))
       /\ match a with
          | Failed e =>
              r = Throw (SysError e ("executing '" ++ ro_program options ++ "'"))
              /\ w' = set_errno e w
          | Returned _ => r = Blocked /\ w' = w
          end.
Proof.
  assert (Ht : triple (child_invariant w [])
                 (runProgram2_child options writeSide)
                 (fun (_ : unit) _ _ => False)
                 (child_verdict options writeSide w)).
  { unfold runProgram2_child.
    set (e1 := match environment options with
               | Some env => [CReplaceEnv env] | None => [] end).
    set (e2 := if captureStdout options
               then [CDup2 writeSide STDOUT_FILENO] else []).
    set (e3 := if mergeStderrToStdout options
               then [CDup2 STDOUT_FILENO STDERR_FILENO] else []).
    set (e4 := match chdir options with Some dir => [CChdir dir] | None => [] end).
    set (e5 := match gid options with Some g => [CSetgid g] | None => [] end).
    set (e6 := match gid options with Some _ => [CSetgroups 0] | None => [] end).
    set (e7 := match uid options with Some u => [CSetuid u] | None => [] end).
    pose proof (planned_calls_steps options writeSide) as Hplan.
    fold e1 e2 e3 e4 e5 e6 e7 in Hplan.
    apply triple_bind with (Q := fun _ => child_invariant w ([] ++ e1)).
    { subst e1. destruct (environment options);
        [apply triple_child_do; reflexivity | apply triple_skip]. }
    intros _.
    apply triple_bind with (Q := fun _ => child_invariant w (([] ++ e1) ++ e2)).
    { subst e2. destruct (captureStdout options);
        [apply triple_child_sys; reflexivity | apply triple_skip]. }
    intros _.
    apply triple_bind
      with (Q := fun _ => child_invariant w ((([] ++ e1) ++ e2) ++ e3)).
    { subst e3. destruct (mergeStderrToStdout options);
        [apply triple_child_sys; reflexivity | apply triple_skip]. }
    intros _.
    apply triple_bind
      with (Q := fun _ => child_invariant w (((([] ++ e1) ++ e2) ++ e3) ++ e4)).
    { subst e4. destruct (chdir options);
        [apply triple_child_sys; reflexivity | apply triple_skip]. }
    intros _.
    apply triple_bind
      with (Q := fun _ =>
                   child_invariant w ((((([] ++ e1) ++ e2) ++ e3) ++ e4) ++ e5)).
    { subst e5. destruct (gid options);
        [apply triple_child_sys; reflexivity | apply triple_skip]. }
    intros _.
    apply triple_bind
      with (Q := fun _ =>
                   child_invariant w
                     (((((([] ++ e1) ++ e2) ++ e3) ++ e4) ++ e5) ++ e6)).
    { subst e6. destruct (gid options);
        [apply triple_child_sys; reflexivity | apply triple_skip]. }
    intros _.
    apply triple_bind
      with (Q := fun _ =>
                   child_invariant w
                     ((((((([] ++ e1) ++ e2) ++ e3) ++ e4) ++ e5) ++ e6) ++ e7)).
    { subst e7. destruct (uid options);
        [apply triple_child_sys; reflexivity | apply triple_skip]. }
    intros _.
    apply triple_bind
      with (Q := fun _ => child_invariant w (planned_calls options writeSide)).
    { rewrite <- Hplan. apply triple_child_do. reflexivity. }
    intros _. apply triple_child_exec. }
  specialize (Ht (mkChildOS answers []) w).
  assert (H0 : child_invariant w [] (mkChildOS answers []) w).
  { unfold child_invariant. cbn. repeat split; constructor. }
  specialize (Ht H0).
  destruct (runProgram2_child options writeSide (mkChildOS answers []) w)
    as [[[u | e | h |] o'] w'].
  - contradiction.
  - split; [exact I|]. intros a Hin. destruct (Ht a Hin) as (H1 & H2 & H3).
    repeat split; try assumption.
    destruct a; destruct H3 as [H3 H4]; [discriminate|].
    injection H3 as ->. split; [reflexivity | assumption].
  - split; [exact I|]. intros a Hin. destruct (Ht a Hin) as (H1 & H2 & H3).
    repeat split; try assumption.
    destruct a; destruct H3 as [H3 H4]; discriminate.
  - split; [exact I|]. intros a Hin. destruct (Ht a Hin) as (H1 & H2 & H3).
    repeat split; try assumption.
    destruct a; destruct H3 as [H3 H4]; [|discriminate].
    split; [reflexivity | assumption].
Qed.




(** ** Store path names *)

Lemma first_refused_none (ok : ascii -> bool) (s : string) :
  first_refused ok s = None <-> string_all ok s = true.
Proof.
  induction s as [| c rest IH]; cbn.
  - split; reflexivity.
  - destruct (ok c); cbn; [exact IH | split; discriminate].
Qed.

Lemma first_refused_app (ok : ascii -> bool) (good : string) (c : ascii)
    (rest : string) :
  string_all ok good = true -> ok c = false ->
  first_refused ok (good ++ String c rest) = Some c.
Proof.
  induction good as [| d good IH]; cbn; intros Hg Hc.
  - rewrite Hc. reflexivity.
  - apply andb_true_iff in Hg. destruct Hg as [Hd Hg]. rewrite Hd. auto.
Qed.

Lemma string_all_mem (ok : ascii -> bool) (s : string) (c : ascii) :
  string_all ok s = true -> ok c = false -> string_mem c s = false.
Proof.
  induction s as [| d rest IH]; cbn; intros Hs Hc; [reflexivity|].
  apply andb_true_iff in Hs. destruct Hs as [Hd Hs].
  rewrite (IH Hs Hc), orb_false_r.
  apply Ascii.eqb_neq. intros ->. congruence.
Qed.

Lemma string_all_ext (f g : ascii -> bool) (s : string) :
  (forall c, f c = g c) -> string_all f s = string_all g s.
Proof.
  intros H. induction s as [| c rest IH]; cbn; [reflexivity|].
  rewrite H, IH. reflexivity.
Qed.

(** [checkName] accepts a name exactly when it is not empty, is no longer
    than [MaxPathLen] and consists of letters, digits and the characters
    [+-._?=] only; in particular an accepted name holds no slash, no blank
    and no NUL. *)
Theorem checkName_accepts_iff (path name : string) :
  (checkName path name = Accepted tt <->
   name <> EmptyString
   /\ (String.length name <= MaxPathLen)%nat
   /\ string_all name_char name = true)
  /\ (checkName path name = Accepted tt ->
      string_mem "/" name = false /\ string_mem " " name = false
      /\ string_mem zero name = false).
Proof.
  assert (Hiff : checkName path name = Accepted tt <->
                 name <> EmptyString
                 /\ (String.length name <= MaxPathLen)%nat
                 /\ string_all name_char name = true).
  { unfold checkName.
    destruct (String.length name =? 0)%nat eqn:E0.
    - apply Nat.eqb_eq in E0. split; [discriminate|].
      intros (Hne & _). destruct name; [contradiction | discriminate].
    - apply Nat.eqb_neq in E0.
      destruct (MaxPathLen <? String.length name)%nat eqn:El.
      + apply Nat.ltb_lt in El. split; [discriminate | intros (_ & H & _); lia].
      + apply Nat.ltb_ge in El.
        destruct (first_refused name_char name) as [c |] eqn:Ef.
        * split; [discriminate|]. intros (_ & _ & Hall).
          apply first_refused_none in Hall. congruence.
        * apply first_refused_none in Ef. split; [intros _ | reflexivity].
          repeat split; try assumption. intros ->. apply E0. reflexivity. }
  split; [exact Hiff|].
  intros H. apply Hiff in H. destruct H as (_ & _ & Hall).
  repeat split; apply (string_all_mem name_char); (assumption || reflexivity).
Qed.

(** Which error [checkName] reports: the empty name first, then the length,
    whatever the characters, and only then the first character in reading
    order that is not allowed. *)
Theorem checkName_reports_first_error (path name : string) :
  (name = EmptyString ->
   checkName path name =
   BadStorePath ("store path '" ++ path ++ "' has an empty name"))
  /\ ((MaxPathLen < String.length name)%nat ->
      checkName path name =
      BadStorePath ("store path '" ++ path ++ "' has a name longer than "
                    ++ fmt_int (Z.of_nat MaxPathLen) ++ " characters"))
  /\ (forall (good : string) (c : ascii) (rest : string),
        name = good ++ String c rest ->
        (String.length name <= MaxPathLen)%nat ->
        string_all name_char good = true -> name_char c = false ->
        checkName path name =
        BadStorePath ("store path '" ++ path ++ "' contains illegal character '"
                      ++ String c EmptyString ++ "'")).
Proof.
  split; [|split].
  - intros ->. reflexivity.
  - intros Hl. unfold checkName.
    destruct (String.length name =? 0)%nat eqn:E0.
    + apply Nat.eqb_eq in E0. lia.
    + apply Nat.ltb_lt in Hl. rewrite Hl. reflexivity.
  - intros good c rest -> Hl Hg Hc. unfold checkName.
    destruct (String.length (good ++ String c rest) =? 0)%nat eqn:E0.
    + apply Nat.eqb_eq in E0. destruct good; discriminate.
    + apply Nat.ltb_ge in Hl. rewrite Hl.
      rewrite first_refused_app by assumption. reflexivity.
Qed.

Lemma base32_char_alphabet (c : ascii) :
  base32_char c = string_mem c base32_alphabet.
Proof.
  destruct c as [[|] [|] [|] [|] [|] [|] [|] [|]]; reflexivity.
Qed.

(** The constructor from a base name accepts exactly the base names that are
    longer than the hash, whose hash part is written in the 32 characters
    [0123456789abcdfghijklmnpqrsvwxyz] (no e, o, u, t, no capitals), and
    whose name passes [checkName]; the path it yields is the base name
    itself.  A base name that is too short is refused before its characters
    are looked at. *)
Theorem StorePath_parse_accepts_iff (baseName : string) :
  (forall p : string,
     StorePath_parse baseName = Accepted p <->
     p = baseName
     /\ (HashLen + 1 <= String.length baseName)%nat
     /\ string_all (fun c => string_mem c base32_alphabet)
                   (StorePath_hashPart baseName) = true
     /\ checkName baseName (StorePath_name baseName) = Accepted tt)
  /\ ((String.length baseName < HashLen + 1)%nat ->
      StorePath_parse baseName =
      BadStorePath ("'" ++ baseName ++ "' is too short to be a valid store path")).
Proof.
  split.
  - intros p. unfold StorePath_parse.
    rewrite <- (string_all_ext base32_char _ _ base32_char_alphabet).
    destruct (String.length baseName <? HashLen + 1)%nat eqn:El.
    + apply Nat.ltb_lt in El. split; [discriminate | intros (_ & H & _); lia].
    + apply Nat.ltb_ge in El.
      destruct (first_refused base32_char (StorePath_hashPart baseName))
        as [c |] eqn:Ef.
      * split; [discriminate|]. intros (_ & _ & Hall & _).
        apply first_refused_none in Hall. congruence.
      * apply first_refused_none in Ef.
        destruct (checkName baseName (StorePath_name baseName)) as [[] | msg].
        -- split.
           ++ intros H. injection H as <-. repeat split; assumption.
           ++ intros (-> & _). reflexivity.
        -- split; [discriminate | intros (_ & _ & _ & H); discriminate].
  - intros Hl. unfold StorePath_parse. apply Nat.ltb_lt in Hl. rewrite Hl.
    reflexivity.
Qed.

(** ** Quoting for regular expressions *)

Lemma regex_special_backslash : regex_special "\" = true.
Proof. reflexivity. Qed.

Lemma not_special_not_backslash (c : ascii) :
  regex_special c = false -> Ascii.eqb c "\" = false.
Proof.
  intros H. apply Ascii.eqb_neq. intros ->. rewrite regex_special_backslash in H.
  discriminate.
Qed.

(** Quoting loses nothing: reading the quoted string back gives the raw
    string, so two different raw strings are never quoted alike. *)
Theorem quoteRegexChars_round_trip (raw : string) :
  unquoteRegexChars (quoteRegexChars raw) = raw
  /\ (forall other : string,
        quoteRegexChars raw = quoteRegexChars other -> raw = other).
Proof.
  assert (Hrt : forall s, unquoteRegexChars (quoteRegexChars s) = s).
  { induction s as [| c rest IH]; [reflexivity|]. cbn [quoteRegexChars].
    destruct (regex_special c) eqn:Es; cbn [unquoteRegexChars].
    - change (Ascii.eqb "\" "\") with true. cbn iota. rewrite IH. reflexivity.
    - rewrite (not_special_not_backslash c Es), IH. reflexivity. }
  split; [apply Hrt|].
  intros other H. rewrite <- (Hrt raw), <- (Hrt other), H. reflexivity.
Qed.

(** In the quoted string every character of the class stands behind a
    backslash and nothing else does; the quoted string is longer than the raw
    one by the number of such characters, and a raw string without any is
    left as it is. *)
Theorem quoteRegexChars_escapes_all (raw : string) :
  all_escaped (quoteRegexChars raw) = true
  /\ String.length (quoteRegexChars raw) =
     (String.length raw + count_special raw)%nat
  /\ (count_special raw = 0%nat -> quoteRegexChars raw = raw).
Proof.
  induction raw as [| c rest (IH1 & IH2 & IH3)].
  - repeat split.
  - cbn [quoteRegexChars count_special].
    destruct (regex_special c) eqn:Es; cbn [all_escaped String.length].
    + change (Ascii.eqb "\" "\") with true. cbn iota.
      rewrite Es, IH1, IH2. repeat split; [lia | discriminate].
    + rewrite (not_special_not_backslash c Es), Es, IH1, IH2. cbn.
      repeat split. intros H. rewrite (IH3 H). reflexivity.
Qed.

End Processes.

(* ================================================================== *)
(** * Concrete runs *)
(* ================================================================== *)

Example statusToString_exit_0 :
  statusToString strsignal_linux (encode_status (Exited 0)) = "succeeded".
Proof. reflexivity. Qed.

Example statusToString_exit_255 :
  statusToString strsignal_linux (encode_status (Exited 255)) =
  "failed with exit code 255".
Proof. reflexivity. Qed.

Example statusToString_SIGKILL :
  statusToString strsignal_linux (encode_status (Signaled SIGKILL false)) =
  "failed due to signal 9 (Killed)".
Proof. reflexivity. Qed.

Example statusToString_SIGTERM_core :
  statusToString None (encode_status (Signaled SIGTERM true)) =
  "failed due to signal 15".
Proof. reflexivity. Qed.

Example statusToString_stopped :
  statusToString strsignal_linux (encode_status (Stopped 19)) = "died abnormally".
Proof. reflexivity. Qed.

Example statusOk_only_exit_0 :
  map statusOk [0; 256; 9; 137; 4991; 65535] =
  [true; false; false; false; false; false].
Proof. reflexivity. Qed.

(** /bin/false exits with 1. *)
Lemma statusToString_statusOk_decode_witness :
  valid_status (Exited 1)
  /\ statusToString strsignal_linux (encode_status (Exited 1)) =
     "failed with exit code 1".
Proof.
  split.
  - cbn. lia.
  - apply (statusToString_statusOk_decode strsignal_linux (Exited 1)). cbn. lia.
Defined.

Lemma Pid_wait_retries_EINTR_witness :
  exists w' : World,
    Pid_wait sample_handle
      (script [WaitFailed EINTR; WaitReturned 4242 256] [] [false] [] []) =
    (Ret 256, mkPid (-1) false SIGKILL, w')
    /\ trace w' =
       [EvWaitpid 4242 (WaitFailed EINTR); EvCheckInterrupt;
        EvWaitpid 4242 (WaitReturned 4242 256)]
    /\ waitpid_answers w' = [] /\ interrupt_answers w' = [].
Proof.
  apply (Pid_wait_retries_EINTR sample_handle
           (script [WaitFailed EINTR; WaitReturned 4242 256] [] [false] [] [])
           1 (WaitReturned 4242 256) [] []).
  - cbn. lia.
  - reflexivity.
  - reflexivity.
  - reflexivity.
Defined.

Lemma Pid_exclusive_ownership_witness :
  exclusive [sample_handle; sample_other]
  /\ (exists w' : World,
        Pid_wait sample_handle
          (script [WaitFailed EINTR; WaitReturned 4242 0] [Returned 0] [false] [] []) =
        (Ret 0, mkPid (-1) false SIGKILL, w')
        /\ Pid_wait (mkPid (-1) false SIGKILL) w' =
           (Halt (AssertionFailed "pid != -1"), mkPid (-1) false SIGKILL, w'))
  /\ (exists w' : World,
        Pid_kill sample_handle
          (script [WaitFailed EINTR; WaitReturned 4242 0] [Returned 0] [false] [] []) =
        (Ret 0, mkPid (-1) false SIGKILL, w')
        /\ Pid_kill (mkPid (-1) false SIGKILL) w' =
           (Halt (AssertionFailed "pid != -1"), mkPid (-1) false SIGKILL, w'))
  /\ Pid_release sample_handle
       (script [WaitFailed EINTR; WaitReturned 4242 0] [Returned 0] [false] [] []) =
     (Ret 4242, mkPid (-1) false SIGKILL,
      script [WaitFailed EINTR; WaitReturned 4242 0] [Returned 0] [false] [] [])
  /\ exclusive [mkPid (-1) false SIGKILL; sample_other].
Proof.
  assert (Hex : exclusive [sample_handle; sample_other]).
  { unfold exclusive. cbn. repeat constructor; cbn; intuition lia. }
  split; [exact Hex|].
  pose proof (Pid_exclusive_ownership false sample_handle sample_other []
                (script [WaitFailed EINTR; WaitReturned 4242 0] [Returned 0]
                        [false] [] [])
                Hex) as H.
  cbv zeta in H. destruct H as (_ & Hwait & Hkill & _ & _ & Hrel & _).
  split; [|split; [|exact Hrel]].
  - destruct (Hwait 1%nat 0 [] [] ltac:(cbn; lia) eq_refl eq_refl)
      as (w' & E & _ & _ & _ & [Hagain _] & _).
    exists w'. split; [exact E | exact Hagain].
  - destruct (Hkill 1%nat 0 [] (Returned 0) [] [] ltac:(cbn; lia) eq_refl eq_refl
                eq_refl)
      as (w' & E & _ & _ & _ & [_ Hagain] & _).
    exists w'. split; [exact E | exact Hagain].
Defined.

Lemma RunningProgram_wait_reconciles_witness :
  exists w' : World,
    RunningProgram_wait strsignal_linux sample_running
      (script [WaitFailed EINTR; WaitReturned 4242 256] [] [false] [] []) =
    (Throw (ExecError 256 "program '/bin/false' failed with exit code 1"),
     mkRunningProgram "/bin/false" (mkPid (-1) false SIGKILL) (Some 3), w')
    /\ trace w' =
       [EvWaitpid 4242 (WaitFailed EINTR); EvCheckInterrupt;
        EvWaitpid 4242 (WaitReturned 4242 256)].
Proof.
  apply (proj1 (RunningProgram_wait_reconciles strsignal_linux false sample_running
                  (script [WaitFailed EINTR; WaitReturned 4242 256] [] [false] [] [])
                  1 (WaitReturned 4242 256) [] []
                  ltac:(cbn; lia) eq_refl eq_refl)
           (Exited 1)).
  - cbn. lia.
  - reflexivity.
  - reflexivity.
Defined.

(** The child is signalled while an exception is in flight and the wait that
    should reap it fails, the child having been reaped elsewhere: [wait()]
    throws a new error, the system error of the handle's wait, and the
    handle still owns the process. *)
Lemma RunningProgram_wait_throws_while_unwinding :
  RunningProgram_wait strsignal_linux sample_running
    (script_unwinding [WaitFailed ECHILD] [Returned 0] [] [] []) =
  (Throw (SysError ECHILD "cannot get exit status of PID 4242"), sample_running,
   mkWorld [] [] [] [] [] ECHILD 1
     [EvDebug "killing process 4242"; EvKill 4242 SIGKILL;
      EvWaitpid 4242 (WaitFailed ECHILD)])
  /\ RunningProgram_wait strsignal_linux sample_running
       (script_unwinding [WaitFailed EINTR] [Returned 0] [true] [] []) =
     (Throw (Interrupted "interrupted by the user"), sample_running,
      mkWorld [] [] [] [] [] EINTR 1
        [EvDebug "killing process 4242"; EvKill 4242 SIGKILL;
         EvWaitpid 4242 (WaitFailed EINTR); EvCheckInterrupt]).
Proof. split; reflexivity. Qed.

Lemma Pid_move_assign_reaps_old_witness :
  exists w' : World,
    Pid_move_assign (sample_handle, sample_other)
      (script [WaitReturned 4242 9] [Returned 0] [] [] []) =
    (Ret tt, (mkPid 4343 true SIGTERM, mkPid (-1) true SIGTERM), w')
    /\ trace w' =
       [EvDebug "killing process 4242"; EvKill 4242 SIGKILL;
        EvWaitpid 4242 (WaitReturned 4242 9)]
    /\ waitpid_answers w' = [] /\ kill_answers w' = [].
Proof.
  apply (Pid_move_assign_reaps_old sample_handle sample_other
           (script [WaitReturned 4242 9] [Returned 0] [] [] [])
           0 9 [] (Returned 0) [] []).
  - cbn. lia.
  - reflexivity.
  - reflexivity.
  - reflexivity.
Defined.

(** The old process is signalled, its [waitpid] is interrupted and the user
    has asked for cancellation: the handle owns the new process although the
    old one was never reaped, and no handle holds the old one any more. *)
Lemma Pid_move_assign_old_not_reaped :
  Pid_move_assign (sample_handle, sample_other)
    (script [WaitFailed EINTR] [Returned 0] [true] [] []) =
  (Throw (Interrupted "interrupted by the user"),
   (mkPid 4343 true SIGTERM, mkPid (-1) true SIGTERM),
   mkWorld [] [] [] [] [] EINTR 0
     [EvDebug "killing process 4242"; EvKill 4242 SIGKILL;
      EvWaitpid 4242 (WaitFailed EINTR); EvCheckInterrupt])
  /\ forall status : Z,
       ~ In (EvWaitpid 4242 (WaitReturned 4242 status))
            [EvDebug "killing process 4242"; EvKill 4242 SIGKILL;
             EvWaitpid 4242 (WaitFailed EINTR); EvCheckInterrupt].
Proof.
  split; [reflexivity|].
  intros status [H | [H | [H | [H | []]]]]; discriminate.
Qed.

(** The same program, waited for while an exception is in flight: killed,
    reaped and logged, and nothing is thrown although the status is not ok. *)
Example RunningProgram_wait_while_unwinding :
  RunningProgram_wait strsignal_linux sample_running
    (script_unwinding [WaitReturned 4242 9] [Returned 0] [] [] []) =
  (Ret tt, mkRunningProgram "/bin/false" (mkPid (-1) false SIGKILL) (Some 3),
   mkWorld [] [] [] [] [] 0 1
     [EvDebug "killing process 4242"; EvKill 4242 SIGKILL;
      EvWaitpid 4242 (WaitReturned 4242 9);
      EvDebug "killed subprocess /bin/false during exception handling"]).
Proof. reflexivity. Qed.

Lemma RunningProgram_dtor_unwaited_is_fatal_witness :
  pid (rp_pid sample_running) <> -1
  /\ RunningProgram_dtor sample_running (script [] [Returned 0] [] [] []) =
     (Halt (AssertionFailed "destroying un-wait()ed running process"),
      sample_running, script [] [Returned 0] [] [] []).
Proof.
  assert (H : pid (rp_pid sample_running) <> -1) by (cbn; lia).
  split; [exact H|].
  apply (RunningProgram_dtor_unwaited_is_fatal strsignal_linux sample_running
           (script [] [Returned 0] [] [] [])).
  exact H.
Defined.

Example RunningProgram_dtor_after_wait :
  RunningProgram_dtor
    (mkRunningProgram "/bin/false" (mkPid (-1) false SIGKILL) (Some 3))
    (script [] [Returned 0] [] [] []) =
  (Ret tt, mkRunningProgram "/bin/false" (mkPid (-1) false SIGKILL) (Some 3),
   script [] [Returned 0] [] [] []).
Proof. reflexivity. Qed.

Lemma killUser_helper_and_parent_witness :
  exists w' : World,
    killUser strsignal_linux false "" true false 1000 tt
      (script [WaitReturned 4242 256] [] [] [Returned 4242] []) =
    (Throw (Error "cannot kill processes for uid '1000': failed with exit code 1"),
     tt, w')
    /\ trace w' =
       [EvDebug "killing all processes running under uid '1000'"; EvSys SysFork;
        EvWaitpid 4242 (WaitReturned 4242 256)].
Proof.
  exact (proj2 (proj2 (killUser_helper_and_parent strsignal_linux false "" true
                         false 1000 tt ltac:(lia)))
           4242 0%nat (Exited 1) [] [] [] [] [] 0 0%nat []
           ltac:(lia) ltac:(lia) ltac:(cbn; lia)).
Defined.

(** The helper's side: two interrupted broadcasts, then no process is
    left; the helper exits with 0. *)
Example killUser_helper_exits_0 :
  killUser strsignal_linux false "" true false 1000 tt
    (script [] [Failed EINTR; Failed EINTR; Failed ESRCH] []
            [Returned 0; Returned 0; Returned 0] []) =
  (Halt (ProcessExit 0 false), tt,
   mkWorld [] [] [] [] [] ESRCH 0
     [EvDebug "killing all processes running under uid '1000'"; EvSys SysFork;
      EvMakeSimpleLogger; EvSys (SysPrctlDeathSig SIGKILL);
      EvSys (SysSetuid 1000);
      EvKill (-1) SIGKILL; EvKill (-1) SIGKILL; EvKill (-1) SIGKILL]).
Proof. reflexivity. Qed.

Lemma wrapper_catches_and_exits_witness :
  wrapper (mkProcessOptions "error: " true false 0) exec_fails tt
    (script [] [] [] [Returned 0; Failed 5] []) =
  (Halt (ProcessExit 1 false), tt,
   mkWorld [] [] [] [] [] 5 0
     [EvMakeSimpleLogger; EvSys (SysPrctlDeathSig SIGKILL);
      EvSys (SysWriteStderr ("error: executing '/nonexistent'" ++ newline))]).
Proof.
  exact (proj1 (proj2 (wrapper_catches_and_exits
                         (mkProcessOptions "error: " true false 0) exec_fails tt
                         (script [] [] [] [Returned 0; Failed 5] []) eq_refl))
           (SysError 2 "executing '/nonexistent'") tt _ (Failed 5) []
           eq_refl eq_refl eq_refl).
Defined.

(** The child procedure throws an object that is no [std::exception]: the
    wrapper exits with 1 and writes nothing, although standard error was
    ready to take the diagnostic. *)
Lemma wrapper_silent_on_non_std_exception :
  wrapper (mkProcessOptions "error: " false false 0) throws_non_std tt
    (script [] [] [] [Returned 0] []) =
  (Halt (ProcessExit 1 false), tt,
   mkWorld [] [] [] [Returned 0] [] 0 0 [EvMakeSimpleLogger])
  /\ forall text : string,
       ~ In (EvSys (SysWriteStderr text)) [EvMakeSimpleLogger].
Proof.
  split; [reflexivity|].
  intros text [H | []]. discriminate.
Qed.

Lemma runProgram_pair_hands_back_status_witness :
  exists w' : World,
    runProgram_pair strsignal_linux false "" true false
      (fun S => exec_fails)
      (mkRunOptions "/bin/false" false [] None None None None false false false) tt
      (script [WaitReturned 4242 256] [] [false] [Returned 3; Returned 4242]
              [DrainOk ""]) =
    (Ret (256, ""), tt, w')
    /\ trace w' =
       [EvCheckInterrupt; EvSys SysPipe; EvSys SysFork; EvCloseWriteSide; EvDrain;
        EvWaitpid 4242 (WaitReturned 4242 256)].
Proof.
  exact (proj1 (runProgram_pair_hands_back_status strsignal_linux false "" true
                  false (fun S => exec_fails)
                  (mkRunOptions "/bin/false" false [] None None None None
                                false false false) tt)
           4242 3 0%nat 256 "" [] [] [] [] [] 0 []
           ltac:(lia) ltac:(lia) ltac:(lia)).
Defined.

(** /bin/false exits with code 1 while an exception is in flight at the
    call: the pair handed back carries status 0, not the raw status 256 the
    OS reported.  And with no exception in flight, when the wait for the
    child fails, the child having been reaped elsewhere, the system error
    does not reach the caller: the process ends in the destructor of the
    running program, which still owns the child. *)
Lemma runProgram_pair_status_not_handed_back :
  runProgram_pair strsignal_linux false "" true false (fun S => exec_fails)
    (mkRunOptions "/bin/false" false [] None None None None false false false) tt
    (script_unwinding [WaitReturned 4242 256] [Returned 0] [false]
                      [Returned 3; Returned 4242] [DrainOk ""]) =
  (Ret (0, ""), tt,
   mkWorld [] [] [] [] [] 0 1
     [EvCheckInterrupt; EvSys SysPipe; EvSys SysFork; EvCloseWriteSide; EvDrain;
      EvDebug "killing process 4242"; EvKill 4242 SIGKILL;
      EvWaitpid 4242 (WaitReturned 4242 256);
      EvDebug "killed subprocess /bin/false during exception handling"])
  /\ runProgram_pair strsignal_linux false "" true false (fun S => exec_fails)
       (mkRunOptions "/bin/false" false [] None None None None false false false) tt
       (script [WaitFailed ECHILD] [] [false] [Returned 3; Returned 4242]
               [DrainOk ""]) =
     (Halt (AssertionFailed "destroying un-wait()ed running process"), tt,
      mkWorld [] [] [] [] [] ECHILD 1
        [EvCheckInterrupt; EvSys SysPipe; EvSys SysFork; EvCloseWriteSide; EvDrain;
         EvWaitpid 4242 (WaitFailed ECHILD)]).
Proof. split; reflexivity. Qed.

(** Killed by SIGKILL, with output: the status and the bytes come back. *)
Example runProgram_pair_signal :
  fst (fst (runProgram_pair strsignal_linux false "" true false
              (fun S => exec_fails)
              (mkRunOptions "/bin/echo" false ["hi"] None None None None
                            false false true) tt
              (script [WaitFailed EINTR; WaitReturned 4242 9] [] [false; false]
                      [Returned 3; Returned 4242] [DrainOk "hi"]))) =
  Ret (9, "hi").
Proof. reflexivity. Qed.

(** /bin/false through the throwing entry point. *)
Example runProgram_false_throws :
  fst (fst (runProgram strsignal_linux false "" true false
              (fun S => exec_fails) "/bin/false" false [] false tt
              (script [WaitReturned 4242 256] [] [false]
                      [Returned 3; Returned 4242] [DrainOk ""]))) =
  Throw (ExecError 256 "program '/bin/false' failed with exit code 1").
Proof. reflexivity. Qed.

(** /bin/true: ok status and empty output. *)
Example runProgram_true_returns :
  fst (fst (runProgram strsignal_linux false "" true false
              (fun S => exec_fails) "/bin/true" false [] false tt
              (script [WaitReturned 4242 0] [] [false]
                      [Returned 3; Returned 4242] [DrainOk ""]))) =
  Ret "".
Proof. reflexivity. Qed.

(** [p = std::move(p)] keeps the process and asks nothing of the OS. *)
Example Pid_self_move_assign_keeps :
  Pid_self_move_assign sample_handle (script [] [] [] [] []) =
  (Ret tt, sample_handle, script [] [] [] [] []).
Proof. reflexivity. Qed.

(** A handle with its own process group signals the whole group, with the
    signal last set. *)
Example Pid_kill_group :
  (_ <- Pid_setSeparatePG true ;; _ <- Pid_setKillSignal SIGTERM ;; Pid_kill)
    sample_handle (script [WaitReturned 4242 15] [Returned 0] [] [] []) =
  (Ret 15, mkPid (-1) true SIGTERM,
   mkWorld [] [] [] [] [] 0 0
     [EvDebug "killing process 4242"; EvKill (-4242) SIGTERM;
      EvWaitpid 4242 (WaitReturned 4242 15)]).
Proof. reflexivity. Qed.

(** Clone flags that share the address space are refused before any call. *)
Example startProcess_refuses_CLONE_VM :
  startProcess false (@exec_fails unit) (mkProcessOptions "" true false CLONE_VM) tt
    (script [] [] [] [Returned 0; Returned 4242] []) =
  (Halt (AssertionFailed "!(options.cloneFlags & CLONE_VM)"), tt,
   script [] [] [] [Returned 0; Returned 4242] []).
Proof. reflexivity. Qed.

(** The child was reaped by someone else: [waitpid] fails with ECHILD, the
    system error is thrown and the handle keeps its process id. *)
Example Pid_wait_ECHILD :
  Pid_wait sample_handle (script [WaitFailed ECHILD] [] [] [] []) =
  (Throw (SysError ECHILD "cannot get exit status of PID 4242"), sample_handle,
   mkWorld [] [] [] [] [] ECHILD 0 [EvWaitpid 4242 (WaitFailed ECHILD)]).
Proof. reflexivity. Qed.

(** [killUser(0)] with a fork and a broadcast ready to succeed: neither is
    asked for. *)
Example killUser_0_spawns_nothing :
  killUser strsignal_linux false "" true false 0 tt
    (script [WaitReturned 4242 0] [Returned 0] [] [Returned 4242] []) =
  (Halt (AssertionFailed "uid != 0"), tt,
   mkWorld [WaitReturned 4242 0] [Returned 0] [] [Returned 4242] [] 0 0
     [EvDebug "killing all processes running under uid '0'"]).
Proof. reflexivity. Qed.

Arguments Accepted {A} a.
Arguments BadStorePath {A} msg.

Lemma Pid_kill_uses_settings_witness :
  exists w' : World,
    (Pid_setSeparatePG true ;; Pid_setKillSignal SIGTERM ;; Pid_kill)
      sample_handle (script [WaitReturned 4242 15] [Returned 0] [] [] []) =
    (Ret 15, mkPid (-1) true SIGTERM, w')
    /\ trace w' =
       [EvDebug "killing process 4242"; EvKill (-4242) SIGTERM;
        EvWaitpid 4242 (WaitReturned 4242 15)].
Proof.
  apply (Pid_kill_uses_settings sample_handle true SIGTERM
           (script [WaitReturned 4242 15] [Returned 0] [] [] [])
           0 15 [] [] []).
  - cbn. lia.
  - reflexivity.
  - reflexivity.
  - reflexivity.
Defined.

Lemma Pid_kill_delivery_failure_is_logged_witness :
  exists w' : World,
    Pid_kill sample_handle (script [WaitReturned 4242 0] [Failed ESRCH] [] [] []) =
    (Ret 0, mkPid (-1) false SIGKILL, w')
    /\ trace w' =
       [EvDebug "killing process 4242"; EvKill 4242 SIGKILL;
        EvLogError ESRCH "killing process 4242";
        EvWaitpid 4242 (WaitReturned 4242 0)].
Proof.
  apply (Pid_kill_delivery_failure_is_logged sample_handle
           (script [WaitReturned 4242 0] [Failed ESRCH] [] [] [])
           ESRCH 0 0 [] [] []).
  - cbn. lia.
  - reflexivity.
  - reflexivity.
  - reflexivity.
Defined.

Lemma Pid_dtor_kills_and_reaps_witness :
  exists w' : World,
    Pid_dtor sample_handle (script [WaitReturned 4242 9] [Returned 0] [] [] []) =
    (Ret tt, mkPid (-1) false SIGKILL, w')
    /\ trace w' =
       [EvDebug "killing process 4242"; EvKill 4242 SIGKILL;
        EvWaitpid 4242 (WaitReturned 4242 9)].
Proof.
  exact (proj1 (Pid_dtor_kills_and_reaps sample_handle
                  (script [WaitReturned 4242 9] [Returned 0] [] [] [])
                  0 (WaitReturned 4242 9) [] (Returned 0) [] []
                  ltac:(cbn; lia) eq_refl eq_refl eq_refl) 9 eq_refl).
Defined.

Lemma startProcess_child_never_returns_witness :
  match startProcess false (@exec_fails unit) (mkProcessOptions "error: " false false 0)
          tt (script [] [] [] [Returned 0; Returned 0] []) with
  | (Ret _, _, _) | (Throw _, _, _) => False
  | _ => True
  end.
Proof.
  exact (startProcess_child_never_returns false exec_fails
           (mkProcessOptions "error: " false false 0) tt
           (script [] [] [] [Returned 0; Returned 0] []) [Returned 0]
           eq_refl eq_refl).
Defined.

Lemma startProcess_parent_outcome_witness :
  exists w' : World,
    startProcess false (@exec_fails unit) (mkProcessOptions "error: " false false 0)
      tt (script [] [] [] [Failed 11] []) =
    (Throw (SysError 11 "unable to fork"), tt, w')
    /\ trace w' = [EvSys SysFork]
    /\ setup_answers w' = [] /\ kill_answers w' = [] /\ waitpid_answers w' = [].
Proof.
  apply (startProcess_parent_outcome false exec_fails
           (mkProcessOptions "error: " false false 0) tt
           (script [] [] [] [Failed 11] []) (Failed 11) []).
  - reflexivity.
  - reflexivity.
  - cbn. lia.
Defined.

Lemma wrapper_death_signal_failure_witness :
  exists w' : World,
    wrapper (mkProcessOptions "error: " true false 0) (@exec_fails unit) tt
      (script [] [] [] [Failed 22; Returned 0] []) =
    (Halt (ProcessExit 1 false), tt, w')
    /\ trace w' =
       [EvMakeSimpleLogger; EvSys (SysPrctlDeathSig SIGKILL);
        EvSys (SysWriteStderr ("error: setting death signal" ++ newline))]
    /\ setup_answers w' = [].
Proof.
  apply (wrapper_death_signal_failure (mkProcessOptions "error: " true false 0)
           exec_fails tt (script [] [] [] [Failed 22; Returned 0] [])
           22 (Returned 0) []).
  - reflexivity.
  - reflexivity.
Defined.

Lemma startProcess_clone_releases_stack_witness :
  exists w' : World,
    startProcess false (@exec_fails unit) sample_clone_options tt
      (script [] [] [] [Returned 4096; Failed 1] []) =
    (Throw (SysError 1 "unable to fork"), tt, w')
    /\ trace w' =
       [EvSys (SysMmap 1048576); EvSys (SysClone 131089); EvMunmap]
    /\ setup_answers w' = [].
Proof.
  apply (startProcess_clone_releases_stack false exec_fails sample_clone_options tt
           (script [] [] [] [Returned 4096; Failed 1] []) 4096 (Failed 1) []).
  - cbn. lia.
  - reflexivity.
  - lia.
  - reflexivity.
  - cbn. lia.
Defined.

Lemma startProcess_clone_refusals_witness :
  exists w' : World,
    startProcess false (@exec_fails unit) sample_clone_options tt
      (script [] [] [] [Failed 12; Returned 4242] []) =
    (Throw (SysError 12 "allocating stack"), tt, w')
    /\ trace w' = [EvSys (SysMmap 1048576)]
    /\ setup_answers w' = [Returned 4242].
Proof.
  exact (proj2 (startProcess_clone_refusals false exec_fails sample_clone_options tt
                  (script [] [] [] [Failed 12; Returned 4242] [])
                  ltac:(cbn; lia))
           12 [Returned 4242] eq_refl eq_refl).
Defined.

Lemma runProgram2_interrupted_at_entry_witness :
  exists w' : World,
    runProgram2 false "" true false (@exec_fails unit) sample_options tt
      (script [] [] [true] [Returned 3; Returned 4242] []) =
    (Throw (Interrupted "interrupted by the user"), tt, w')
    /\ trace w' = [EvCheckInterrupt]
    /\ setup_answers w' = [Returned 3; Returned 4242].
Proof.
  apply (runProgram2_interrupted_at_entry false "" true false exec_fails
           sample_options tt
           (script [] [] [true] [Returned 3; Returned 4242] []) []).
  reflexivity.
Defined.

Lemma runProgram2_without_capture_witness :
  exists w' : World,
    runProgram2 false "" true false (@exec_fails unit)
      (mkRunOptions "/bin/sh" true [] None None None None false false true) tt
      (script [] [] [false] [Failed 11] []) =
    (Throw (SysError 11 "unable to fork"), tt, w')
    /\ trace w' =
       [EvCheckInterrupt; EvLoggerPause; EvSys SysFork; EvLoggerResume]
    /\ uncaught_exceptions w' = 0%nat.
Proof.
  exact (proj2 (runProgram2_without_capture false "" true false exec_fails
                  (mkRunOptions "/bin/sh" true [] None None None None
                                false false true) tt
                  (script [] [] [false] [Failed 11] []) [] eq_refl eq_refl)
           11 [] eq_refl).
Defined.

Lemma runProgram_throws_unless_ok_witness :
  (exists w' : World,
     runProgram strsignal_linux false "" true false (fun S => exec_fails)
       "/bin/false" false [] false tt
       (script [WaitReturned 4242 256] [Returned 0] [false] [Returned 3; Returned 4242]
               [DrainOk ""]) =
     (Throw (ExecError 256 "program '/bin/false' failed with exit code 1"), tt, w')
     /\ waitpid_answers w' = [] /\ drain_answers w' = [])
  /\ (exists w' : World,
        runProgram strsignal_linux false "" true false (fun S => exec_fails)
          "/bin/false" false [] false tt
          (script_unwinding [WaitReturned 4242 256] [Returned 0] [false]
                            [Returned 3; Returned 4242] [DrainOk ""]) =
        (Ret "", tt, w')
        /\ trace w' =
           [EvCheckInterrupt; EvSys SysPipe; EvSys SysFork; EvCloseWriteSide;
            EvDrain; EvDebug "killing process 4242"; EvKill 4242 SIGKILL;
            EvWaitpid 4242 (WaitReturned 4242 256);
            EvDebug "killed subprocess /bin/false during exception handling"]
        /\ waitpid_answers w' = [] /\ drain_answers w' = []).
Proof.
  split.
  - apply (proj1 (runProgram_throws_unless_ok strsignal_linux false "" true false
                    (fun S => exec_fails) "/bin/false" false [] false tt
                    (script [WaitReturned 4242 256] [Returned 0] [false]
                            [Returned 3; Returned 4242] [DrainOk ""])
                    4242 3 0 256 "" [] [] [] []
                    ltac:(lia) ltac:(lia) ltac:(lia)
                    eq_refl eq_refl eq_refl eq_refl)).
    reflexivity.
  - apply (proj2 (runProgram_throws_unless_ok strsignal_linux false "" true false
                    (fun S => exec_fails) "/bin/false" false [] false tt
                    (script_unwinding [WaitReturned 4242 256] [Returned 0] [false]
                                      [Returned 3; Returned 4242] [DrainOk ""])
                    4242 3 0 256 "" [] [] [] []
                    ltac:(lia) ltac:(lia) ltac:(lia)
                    eq_refl eq_refl eq_refl eq_refl)
             ltac:(cbn; lia) (Returned 0) []).
    reflexivity.
Defined.

Lemma runProgram_pair_while_unwinding_witness :
  exists w' : World,
    runProgram_pair strsignal_linux false "" true false (fun S => exec_fails)
      sample_options tt
      (script_unwinding [WaitReturned 4242 9] [Returned 0] [false]
                        [Returned 3; Returned 4242] [DrainOk "hi"]) =
    (Ret (0, "hi"), tt, w')
    /\ trace w' =
       [EvCheckInterrupt; EvSys SysPipe; EvSys SysFork; EvCloseWriteSide; EvDrain;
        EvDebug "killing process 4242"; EvKill 4242 SIGKILL;
        EvWaitpid 4242 (WaitReturned 4242 9);
        EvDebug "killed subprocess /bin/echo during exception handling"].
Proof.
  apply (runProgram_pair_while_unwinding strsignal_linux false "" true false
           (fun S => exec_fails) sample_options tt
           (script_unwinding [WaitReturned 4242 9] [Returned 0] [false]
                             [Returned 3; Returned 4242] [DrainOk "hi"])
           4242 3 0 9 "hi" [] (Returned 0) [] [] [] []).
  - lia.
  - lia.
  - lia.
  - cbn. lia.
  - reflexivity.
  - reflexivity.
  - reflexivity.
  - reflexivity.
  - reflexivity.
Defined.

Lemma killUser_wait_failure_reaps_helper_witness :
  (exists w' : World,
     killUser strsignal_linux false "" true false 1000 tt
       (script [WaitFailed ECHILD; WaitReturned 4242 9] [Returned 0] []
               [Returned 4242] []) =
     (Throw (SysError ECHILD "cannot get exit status of PID 4242"), tt, w')
     /\ trace w' =
        [EvDebug "killing all processes running under uid '1000'"; EvSys SysFork;
         EvWaitpid 4242 (WaitFailed ECHILD);
         EvDebug "killing process 4242"; EvKill 4242 SIGKILL;
         EvWaitpid 4242 (WaitReturned 4242 9)]
     /\ uncaught_exceptions w' = 0%nat
     /\ waitpid_answers w' = [])
  /\ (exists w' : World,
        killUser strsignal_linux false "" true false 1000 tt
          (script [WaitFailed ECHILD; WaitFailed ECHILD] [Returned 0] []
                  [Returned 4242] []) =
        (Halt Terminated, tt, w')
        /\ trace w' =
           [EvDebug "killing all processes running under uid '1000'"; EvSys SysFork;
            EvWaitpid 4242 (WaitFailed ECHILD);
            EvDebug "killing process 4242"; EvKill 4242 SIGKILL;
            EvWaitpid 4242 (WaitFailed ECHILD)]
        /\ waitpid_answers w' = []).
Proof.
  split.
  - apply (proj1 (killUser_wait_failure_reaps_helper strsignal_linux false "" true
                    false 1000 tt
                    (script [WaitFailed ECHILD; WaitReturned 4242 9] [Returned 0] []
                            [Returned 4242] [])
                    4242 ECHILD 0 0 (WaitReturned 4242 9) [] (Returned 0) [] [] []
                    ltac:(lia) ltac:(lia) ltac:(lia)
                    ltac:(unfold ECHILD, EINTR; lia)
                    eq_refl eq_refl eq_refl eq_refl) 9).
    reflexivity.
  - apply (proj1 (proj2 (killUser_wait_failure_reaps_helper strsignal_linux false
                    "" true false 1000 tt
                    (script [WaitFailed ECHILD; WaitFailed ECHILD] [Returned 0] []
                            [Returned 4242] [])
                    4242 ECHILD 0 0 (WaitFailed ECHILD) [] (Returned 0) [] [] []
                    ltac:(lia) ltac:(lia) ltac:(lia)
                    ltac:(unfold ECHILD, EINTR; lia)
                    eq_refl eq_refl eq_refl eq_refl)) ECHILD).
    + reflexivity.
    + unfold ECHILD, EINTR. lia.
Defined.

Lemma killUser_helper_setuid_failure_witness :
  exists w' : World,
    killUser strsignal_linux false "" true false 1000 tt
      (script [] [Returned 0] [] [Returned 0; Returned 0; Failed EPERM; Returned 0] []) =
    (Halt (ProcessExit 1 false), tt, w')
    /\ trace w' =
       [EvDebug "killing all processes running under uid '1000'"; EvSys SysFork;
        EvMakeSimpleLogger; EvSys (SysPrctlDeathSig SIGKILL);
        EvSys (SysSetuid 1000);
        EvSys (SysWriteStderr ("setting uid" ++ newline))]
    /\ kill_answers w' = [Returned 0].
Proof.
  apply (killUser_helper_setuid_failure strsignal_linux false "" true false
           1000 tt
           (script [] [Returned 0] []
                   [Returned 0; Returned 0; Failed EPERM; Returned 0] [])
           EPERM (Returned 0) []).
  - lia.
  - reflexivity.
Defined.

(** The group cannot be changed: the user is not changed and nothing is
    exec'ed. *)
Example runProgram2_child_setgid_fails :
  runProgram2_child sample_options 4
    (mkChildOS [Returned 0; Failed EPERM; Returned 0; Returned 0; Returned 0] [])
    (script [] [] [] [] []) =
  (Throw (SysError EPERM "setgid failed"),
   mkChildOS [Returned 0; Returned 0; Returned 0]
     [(CDup2 4 STDOUT_FILENO, Returned 0); (CSetgid 100, Failed EPERM)],
   mkWorld [] [] [] [] [] EPERM 0 []).
Proof. reflexivity. Qed.

Lemma runProgram2_child_execs_only_after_drops_witness :
  map fst
    (child_calls
       (snd (fst (runProgram2_child sample_options 4
                    (mkChildOS [Returned 0; Returned 0; Returned 0; Returned 0;
                                Failed 2] [])
                    (script [] [] [] [] []))))) =
  [CDup2 4 STDOUT_FILENO; CSetgid 100; CSetgroups 0; CSetuid 1000;
   CRestoreProcessContext; CExecv "/bin/echo" ["/bin/echo"; "hi"]].
Proof.
  pose proof (runProgram2_child_execs_only_after_drops sample_options 4
                [Returned 0; Returned 0; Returned 0; Returned 0; Failed 2]
                (script [] [] [] [] [])) as H.
  cbv beta iota zeta in H.
  destruct (runProgram2_child sample_options 4 _ _) as [[r o'] w'] eqn:E.
  destruct H as [_ H].
  apply (H (Failed 2)).
  vm_compute in E. injection E as _ <- _. cbn.
  right. right. right. right. right. left. reflexivity.
Defined.


Lemma checkName_accepts_iff_witness :
  checkName 211 "ffffffffffffffffffffffffffffffff-x" "hello-2.12.1" = Accepted tt.
Proof.
  apply (checkName_accepts_iff 211 "ffffffffffffffffffffffffffffffff-x" "hello-2.12.1").
  split; [discriminate|]. split; [cbn; lia | reflexivity].
Defined.

Lemma checkName_reports_first_error_witness :
  checkName 211 "h-a/b c" "a/b c" =
  BadStorePath "store path 'h-a/b c' contains illegal character '/'".
Proof.
  apply (checkName_reports_first_error 211 "h-a/b c" "a/b c") with (good := "a") (rest := "b c").
  - reflexivity.
  - cbn. lia.
  - reflexivity.
  - reflexivity.
Defined.

(** The dummy path of path.cc is a store path. *)
Lemma StorePath_parse_accepts_iff_witness :
  StorePath_parse 211 32 sample_hashPart sample_name
    "ffffffffffffffffffffffffffffffff-x" =
  Accepted "ffffffffffffffffffffffffffffffff-x".
Proof.
  apply (StorePath_parse_accepts_iff 211 32 sample_hashPart sample_name
           "ffffffffffffffffffffffffffffffff-x").
  split; [reflexivity|]. split; [cbn; lia|]. split; reflexivity.
Defined.

Example StorePath_parse_refuses_e :
  StorePath_parse 211 32 sample_hashPart sample_name
    "fffffffffffffffeffffffffffffffff-x" =
  BadStorePath
    "store path 'fffffffffffffffeffffffffffffffff-x' contains illegal base-32 character 'e'".
Proof. reflexivity. Qed.

Example quoteRegexChars_store_dir :
  quoteRegexChars "/nix/store.d+x" = "/nix/store\.d\+x".
Proof. reflexivity. Qed.
